(** * The Firecracker hypervisor driver (virtcontainers/fc.go)

    A shallow embedding of the driver that supervises one Firecracker
    process: the readiness state, the boot sequence of [startSandbox], the
    disk pool, the device queue and block-device hotplug.

    The driver is effectful: it spawns a process, talks to a REST API over
    a unix socket, sends signals, reads the clock and sleeps.  Every such
    effect is a [call] appended to a chronological trace; what the outside
    answers is given by a [World], which may look at the whole history.
    The driver's functions are state transformers over the driver object,
    the trace and the clock.  The two unbounded [for] loops take fuel. *)

From Stdlib Require Import ZArith NArith List String Ascii Bool Lia.
From Stdlib Require Import DecimalString DecimalZ DecimalPos.
Import ListNotations.

Local Open Scope string_scope.
Local Open Scope list_scope.
Local Open Scope Z_scope.

Notation "a +++ b" := (String.append a b) (at level 60, right associativity).

(** ** Data *)

(** [vmmState]: the [iota] constants of the source. *)
Inductive vmmState := notReady | apiReady | vmReady.

(** A kernel parameter, [Param{Key, Value}]. *)
Record Param := mkParam { Key : string; Value : string }.

(** What the driver reads of an [Endpoint]: [Name()], [HardwareAddr()] and
    [NetworkPair().TapInterface.TAPIface.Name]. *)
Record Endpoint := mkEndpoint {
  ep_Name : string;
  ep_HardwareAddr : string;
  ep_TAPIfaceName : string
}.

(** The fields of [config.BlockDrive] the driver reads. *)
Record BlockDrive := mkBlockDrive {
  File : string;
  ID : string;
  Index : Z
}.

Record kataVSOCK := mkVSOCK {
  contextID : Z;
  vhostFd : Z
}.

(** The dynamic type of a [devInfo interface{}] value.  [addDevice] switches
    on [Endpoint], [config.BlockDrive] and [kataVSOCK]; [hotplugAddDevice]
    asserts [*config.BlockDrive]; anything else is [DevOther]. *)
Inductive devInfo :=
| DevEndpoint (e : Endpoint)
| DevBlockDrive (d : BlockDrive)
| DevBlockDrivePtr (d : BlockDrive)
| DevVSOCK (v : kataVSOCK)
| DevOther (tag : string).

(** [deviceType] is declared elsewhere in the package; the driver only
    distinguishes [blockDev] from the rest. *)
Inductive deviceType := blockDev | otherDev (n : nat).

Record firecrackerDevice := mkDevice {
  dev : devInfo;
  devType : deviceType
}.

(** Go [error] values: the three the driver builds itself with
    [fmt.Errorf], and those handed back by a collaborator. *)
Inductive error :=
| ErrInvalidTimeout (timeout : Z)
| ErrConnectTimeout (timeout : Z) (cause : error)
| ErrUnsupportedDevice (d : devInfo) (t : deviceType)
| ErrCollab (msg : string).

(** An [error] result: [None] is [nil]. *)
Definition result := option error.

(** A [(value, error)] result. *)
Inductive res (A : Type) :=
| Ok (a : A)
| Err (e : error).
Arguments Ok {A} a.
Arguments Err {A} e.

(** The part of [HypervisorConfig] the driver uses.  The three asset
    lookups are methods declared elsewhere; their outcome is recorded here. *)
Record HypervisorConfig := mkConfig {
  HypervisorPath : string;
  MemorySize : Z;
  NumVCPUs : Z;
  KernelParams : list Param;
  KernelAssetPath : res string;
  InitrdAssetPath : res string;
  ImageAssetPath : res string
}.

Record FirecrackerInfo := mkInfo { PID : Z }.

(** The [firecracker] struct.  [fcClient] counts the connections built so
    far, [0%nat] standing for the [nil] pointer; [firecrackerd] holds the
    pid of the tracked command.  The mutex of [firecrackerState] and the
    tracing context have no content in a sequential model. *)
Record firecracker := mkFirecracker {
  fc_id : string;
  state : vmmState;
  info : FirecrackerInfo;
  firecrackerd : option Z;
  fcClient : nat;
  socketPath : string;
  config : HypervisorConfig;
  pendingDevices : list firecrackerDevice
}.

(** ** Effects *)

(** Every interaction with the outside. *)
Inductive call :=
| CmdStart (path : string) (args : list string)
| DescribeInstance
| PutMachineConfiguration (htEnabled : bool) (memSizeMib vcpuCount : Z)
| PutGuestBootSource (kernelImagePath bootArgs : string)
| PutGuestDriveByID (driveID : string) (isReadOnly isRootDevice : bool)
                    (pathOnHost : string)
| PatchGuestDriveByID (driveID pathOnHost : string)
| PutGuestNetworkInterfaceByID (ifaceID : string) (allowMmdsRequests : bool)
                               (guestMac hostDevName : string)
| PutGuestVsockByID (vsockID : string) (guestCid : Z)
| CreateSyncAction (actionType payload : string)
| Kill (pid sig : Z)
| StoreStore (i : FirecrackerInfo)
| StoreRaw (name : string)
| Sleep (d : Z)
| CloseFd (fd : Z).

(** The outside.  Each answer may depend on the calls made so far.
    [latency] is the time a call takes, in nanoseconds, on top of the
    duration a [Sleep] asks for; it cannot be negative. *)
Record World := mkWorld {
  cmd_Start : list call -> res Z;
  api_DescribeInstance : list call -> res string;
  reply : list call -> call -> result;
  store_Raw : list call -> res string;
  url_Parse : string -> res string;
  latency : list call -> call -> N
}.

(** The driver object, the calls made so far, and the clock in
    nanoseconds. *)
Record Sys := mkSys {
  fc : firecracker;
  trace : list call;
  clock : Z
}.

(** State and divergence: [None] is a loop that ran out of fuel. *)
Definition M (A : Type) := Sys -> option (A * Sys).

Definition ret {A} (a : A) : M A := fun s => Some (a, s).

Definition bind {A B} (m : M A) (k : A -> M B) : M B :=
  fun s => match m s with
           | Some (a, s') => k a s'
           | None => None
           end.

Definition diverge {A} : M A := fun _ => None.

Notation "x <- m ;; k" := (bind m (fun x => k))
  (at level 100, m at next level, right associativity).
Notation "m ;;; k" := (bind m (fun _ => k))
  (at level 100, right associativity).

Definition get_fc : M firecracker := fun s => Some (fc s, s).

Definition modify_fc (f : firecracker -> firecracker) : M unit :=
  fun s => Some (tt, mkSys (f (fc s)) (trace s) (clock s)).

Definition set_state (v : vmmState) (f : firecracker) : firecracker :=
  mkFirecracker (fc_id f) v (info f) (firecrackerd f) (fcClient f)
                (socketPath f) (config f) (pendingDevices f).

Definition set_info (i : FirecrackerInfo) (f : firecracker) : firecracker :=
  mkFirecracker (fc_id f) (state f) i (firecrackerd f) (fcClient f)
                (socketPath f) (config f) (pendingDevices f).

Definition set_firecrackerd (c : option Z) (f : firecracker) : firecracker :=
  mkFirecracker (fc_id f) (state f) (info f) c (fcClient f)
                (socketPath f) (config f) (pendingDevices f).

Definition set_fcClient (c : nat) (f : firecracker) : firecracker :=
  mkFirecracker (fc_id f) (state f) (info f) (firecrackerd f) c
                (socketPath f) (config f) (pendingDevices f).

Definition set_pendingDevices (l : list firecrackerDevice) (f : firecracker)
  : firecracker :=
  mkFirecracker (fc_id f) (state f) (info f) (firecrackerd f) (fcClient f)
                (socketPath f) (config f) l.

(** ** Constants *)

Definition Millisecond : Z := 1000000.
Definition Second : Z := 1000000000.

Definition fcTimeout : Z := 10.
Definition fcStopSandboxTimeout : Z := 15.
Definition fcDiskPoolSize : Z := 8.

Definition SIGKILL : Z := 9.
Definition SIGTERM : Z := 15.

Definition InstanceInfoStateUninitialized := "Uninitialized".
Definition InstanceInfoStateStarting := "Starting".
Definition InstanceInfoStateRunning := "Running".
Definition InstanceInfoStateHalting := "Halting".
Definition InstanceInfoStateHalted := "Halted".

(** [strconv.Itoa]. *)
Definition Itoa (i : Z) : string := NilZero.string_of_int (Z.to_int i).

Definition fcDriveIndexToID (i : Z) : string := "drive_" +++ Itoa i.

(** [strings.Join]. *)
Definition strings_Join (elems : list string) (sep : string) : string :=
  String.concat sep elems.

(** Modelled from the spec: [SerializeParams] is declared in another file
    of the package.  The spec has every parameter rendered as key,
    delimiter, value, in the order given. *)
Definition SerializeParams (params : list Param) (delim : string)
  : list string :=
  map (fun p => Key p +++ delim +++ Value p) params.

(** [fcKernelParams]; [commonVirtioblkKernelRootParams] is declared in
    another file of the package and is taken as a parameter. *)
Definition fcKernelParams (commonVirtioblkKernelRootParams : list Param)
  : list Param :=
  commonVirtioblkKernelRootParams ++
  [ mkParam "pci" "off";
    mkParam "reboot" "k";
    mkParam "panic" "1";
    mkParam "iommu" "off";
    mkParam "8250.nr_uarts" "0";
    mkParam "net.ifnames" "0";
    mkParam "random.trust_cpu" "on";
    mkParam "acpi" "off" ].

(** [vmmState.String]. *)
Definition vmmState_String (s : vmmState) : string :=
  match s with
  | notReady => "FC not ready"
  | apiReady => "FC API ready"
  | vmReady => "FC VM ready"
  end.

(** ** The driver *)

Section Driver.

Variable commonVirtioblkKernelRootParams : list Param.
Variable W : World.

(** One call: the answer is computed from the history, the call is
    appended to the trace, and the clock moves on by the call's latency
    (and by the requested duration for a [Sleep]). *)
Definition duration (c : call) : Z :=
  match c with
  | Sleep d => Z.max 0 d
  | _ => 0
  end.

(** The nanoseconds a call takes after the history [h]. *)
Definition cost (h : list call) (c : call) : Z :=
  duration c + Z.of_N (latency W h c).

Definition perform {A} (c : call) (answer : list call -> A) : M A :=
  fun s => Some (answer (trace s),
                 mkSys (fc s) (trace s ++ [c]) (clock s + cost (trace s) c)).

Definition api (c : call) : M result :=
  perform c (fun h => reply W h c).

Definition time_Now : M Z := fun s => Some (clock s, s).

(** [time.Since(t)], a [Duration] in nanoseconds. *)
Definition time_Since (t : Z) : M Z := fun s => Some (clock s - t, s).

Definition time_Sleep (d : Z) : M unit :=
  perform (Sleep d) (fun _ => tt).

(** [int(d.Seconds())]: conversion to [int] truncates toward zero.  The
    source goes through [float64]; the whole seconds of a duration are
    represented exactly there, and the two agree on every duration below
    [2^24] seconds. *)
Definition Seconds_int (d : Z) : Z := Z.quot d Second.

Definition state_set (v : vmmState) : M unit := modify_fc (set_state v).

Definition newFireClient : M nat :=
  f <- get_fc ;; ret (S (fcClient f)).

Definition client : M nat :=
  f <- get_fc ;;
  match fcClient f with
  | O => c <- newFireClient ;; modify_fc (set_fcClient c) ;;; ret c
  | c => ret c
  end.

Definition vmRunning : M bool :=
  client ;;;
  r <- perform DescribeInstance (api_DescribeInstance W) ;;
  match r with
  | Err _ => ret false
  | Ok st =>
      if String.eqb st InstanceInfoStateStarting then ret false
      else if String.eqb st InstanceInfoStateRunning then ret true
      else if (String.eqb st InstanceInfoStateUninitialized
               || String.eqb st InstanceInfoStateHalting
               || String.eqb st InstanceInfoStateHalted)%bool then ret false
      else ret false
  end.

Fixpoint waitVMM_loop (fuel : nat) (timeout timeStart : Z) : M result :=
  match fuel with
  | O => diverge
  | S fuel' =>
      client ;;;
      r <- perform DescribeInstance (api_DescribeInstance W) ;;
      match r with
      | Ok _ => ret None
      | Err err =>
          d <- time_Since timeStart ;;
          if Seconds_int d >? timeout
          then ret (Some (ErrConnectTimeout timeout err))
          else time_Sleep (10 * Millisecond) ;;;
               waitVMM_loop fuel' timeout timeStart
      end
  end.

Definition waitVMM (fuel : nat) (timeout : Z) : M result :=
  if timeout <? 0 then ret (Some (ErrInvalidTimeout timeout))
  else timeStart <- time_Now ;; waitVMM_loop fuel timeout timeStart.

Definition fcInit (fuel : nat) (timeout : Z) : M result :=
  f <- get_fc ;;
  let args := ["--api-sock"; socketPath f] in
  r <- perform (CmdStart (HypervisorPath (config f)) args) (cmd_Start W) ;;
  match r with
  | Err err => ret (Some err)
  | Ok pid =>
      modify_fc (set_info (mkInfo pid)) ;;;
      modify_fc (set_firecrackerd (Some pid)) ;;;
      c <- newFireClient ;;
      modify_fc (set_fcClient c) ;;;
      err <- waitVMM fuel timeout ;;
      match err with
      | Some e => ret (Some e)
      | None =>
          state_set apiReady ;;;
          f' <- get_fc ;;
          api (StoreStore (info f'))
      end
  end.

(** The polling loop of [fcEnd]: [Some r] when the loop returns [r] from
    the function, [None] when it breaks. *)
Fixpoint fcEnd_loop (fuel : nat) (pid tInit : Z) : M (option result) :=
  match fuel with
  | O => diverge
  | S fuel' =>
      err <- api (Kill pid 0) ;;
      match err with
      | Some _ => ret (Some None)
      | None =>
          d <- time_Since tInit ;;
          if fcStopSandboxTimeout * Second <=? d then ret None
          else time_Sleep (50 * Millisecond) ;;;
               fcEnd_loop fuel' pid tInit
      end
  end.

Definition fcEnd (fuel : nat) : M result :=
  f <- get_fc ;;
  let pid := PID (info f) in
  err <- api (Kill pid 0) ;;
  match err with
  | Some _ => ret None
  | None =>
      err <- api (Kill pid SIGTERM) ;;
      match err with
      | Some e => ret (Some e)
      | None =>
          tInit <- time_Now ;;
          r <- fcEnd_loop fuel pid tInit ;;
          match r with
          | Some v => ret v
          | None => api (Kill pid SIGKILL)
          end
      end
  end.

Definition fcSetBootSource (path params : string) : M result :=
  client ;;; api (PutGuestBootSource path params).

Definition fcSetVMRootfs (path : string) : M result :=
  let driveID := "rootfs" in
  let isReadOnly := true in
  let isRootDevice := false in
  client ;;; api (PutGuestDriveByID driveID isReadOnly isRootDevice path).

Definition fcSetVMBaseConfig (mem vcpus : Z) (htEnabled : bool) : M result :=
  client ;;; api (PutMachineConfiguration htEnabled mem vcpus).

Definition fcStartVM : M result :=
  c <- newFireClient ;;
  modify_fc (set_fcClient c) ;;;
  let actionType := "InstanceStart" in
  client ;;;
  err <- api (CreateSyncAction actionType "") ;;
  match err with
  | Some e => ret (Some e)
  | None => state_set vmReady ;;; ret None
  end.

(** The loop of [createDiskPool], [k] iterations from index [i] on. *)
Fixpoint createDiskPool_from (k : nat) (i : Z) : M result :=
  match k with
  | O => ret None
  | S k' =>
      let driveID := fcDriveIndexToID i in
      let isReadOnly := false in
      let isRootDevice := false in
      r <- perform (StoreRaw "") (store_Raw W) ;;
      match r with
      | Err err => ret (Some err)
      | Ok hostURL =>
          match url_Parse W hostURL with
          | Err err => ret (Some err)
          | Ok path =>
              client ;;;
              err <- api (PutGuestDriveByID driveID isReadOnly isRootDevice
                                            path) ;;
              match err with
              | Some e => ret (Some e)
              | None => createDiskPool_from k' (i + 1)
              end
          end
      end
  end.

Definition createDiskPool : M result :=
  createDiskPool_from (Z.to_nat fcDiskPoolSize) 0.

Definition stopSandbox (fuel : nat) : M result := fcEnd fuel.

Definition pauseSandbox : M result := ret None.

Definition saveSandbox : M result := ret None.

Definition resumeSandbox : M result := ret None.

Definition fcAddVsock (vs : kataVSOCK) : M result :=
  let vsockID := "root" in
  let ctxID := contextID vs in
  client ;;;
  err <- api (PutGuestVsockByID vsockID ctxID) ;;
  match err with
  | Some e => ret (Some e)
  | None => api (CloseFd (vhostFd vs)) ;;; ret None
  end.

Definition fcAddNetDevice (endpoint : Endpoint) : M result :=
  let ifaceID := ep_Name endpoint in
  client ;;;
  api (PutGuestNetworkInterfaceByID ifaceID false
         (ep_HardwareAddr endpoint) (ep_TAPIfaceName endpoint)).

Definition fcAddBlockDrive (drive : BlockDrive) : M result :=
  let driveID := ID drive in
  let isReadOnly := false in
  let isRootDevice := false in
  client ;;;
  api (PutGuestDriveByID driveID isReadOnly isRootDevice (File drive)).

Definition fcUpdateBlockDrive (drive : BlockDrive) : M result :=
  let driveID := fcDriveIndexToID (Index drive) in
  client ;;;
  err <- api (PatchGuestDriveByID driveID (File drive)) ;;
  match err with
  | Some e => ret (Some e)
  | None =>
      running <- vmRunning ;;
      if running : bool then
        let actionType := "BlockDeviceRescan" in
        client ;;;
        err <- api (CreateSyncAction actionType driveID) ;;
        match err with
        | Some e => ret (Some e)
        | None => ret None
        end
      else ret None
  end.

Definition addDevice (d : devInfo) (t : deviceType) : M result :=
  f <- get_fc ;;
  match state f with
  | notReady =>
      let dv := mkDevice d t in
      modify_fc (set_pendingDevices (pendingDevices f ++ [dv])) ;;;
      ret None
  | _ =>
      match d with
      | DevEndpoint v => fcAddNetDevice v
      | DevBlockDrive v => fcAddBlockDrive v
      | DevVSOCK v => fcAddVsock v
      | _ => ret None
      end
  end.

(** [hotplugAddDevice] either returns, or panics in its type assertion
    when the value is not a pointer to a [config.BlockDrive]. *)
Inductive hotplugOutcome :=
| Returned (err : result)
| Panicked.

Definition hotplugAddDevice (d : devInfo) (t : deviceType)
  : M hotplugOutcome :=
  match t with
  | blockDev =>
      match d with
      | DevBlockDrivePtr drive =>
          err <- fcUpdateBlockDrive drive ;; ret (Returned err)
      | _ => ret Panicked
      end
  | _ => ret (Returned (Some (ErrUnsupportedDevice d t)))
  end.

Definition hotplugRemoveDevice (d : devInfo) (t : deviceType) : M result :=
  ret None.

(** The [range] loop of [startSandbox] over the queue as it is when the
    loop starts. *)
Fixpoint flushPending (ds : list firecrackerDevice) : M result :=
  match ds with
  | [] => ret None
  | d :: ds' =>
      err <- addDevice (dev d) (devType d) ;;
      match err with
      | Some e => ret (Some e)
      | None => flushPending ds'
      end
  end.

(** The statements of [startSandbox] after the [defer].  The body yields
    the value returned and the final content of the function's variable
    [err], which the deferred closure reads.  The [if err := ...] forms of
    the source declare a new [err] in their own scope; the returns under
    them leave the outer variable as it was. *)
Definition startSandbox_body (fuel : nat) (timeout : Z)
  : M (result * result) :=
  f <- get_fc ;;
  e1 <- fcSetVMBaseConfig (MemorySize (config f)) (NumVCPUs (config f))
                          false ;;
  match e1 with
  | Some e => ret (Some e, None)
  | None =>
      match KernelAssetPath (config f) with
      | Err e => ret (Some e, Some e)
      | Ok kernelPath =>
          let kernelParams :=
            KernelParams (config f)
              ++ fcKernelParams commonVirtioblkKernelRootParams in
          let strParams := SerializeParams kernelParams "=" in
          let formattedParams := strings_Join strParams " " in
          fcSetBootSource kernelPath formattedParams ;;;
          match InitrdAssetPath (config f) with
          | Err e => ret (Some e, Some e)
          | Ok image =>
              let image' :=
                if String.eqb image "" then ImageAssetPath (config f)
                else Ok image in
              match image' with
              | Err e => ret (Some e, Some e)
              | Ok image =>
                  fcSetVMRootfs image ;;;
                  createDiskPool ;;;
                  f' <- get_fc ;;
                  e2 <- flushPending (pendingDevices f') ;;
                  match e2 with
                  | Some e => ret (Some e, Some e)
                  | None =>
                      e3 <- fcStartVM ;;
                      match e3 with
                      | Some e => ret (Some e, None)
                      | None =>
                          e4 <- waitVMM fuel timeout ;;
                          ret (e4, None)
                      end
                  end
              end
          end
      end
  end.

Definition startSandbox (fuel : nat) (timeout : Z) : M result :=
  err <- fcInit fuel fcTimeout ;;
  match err with
  | Some e => ret (Some e)
  | None =>
      out <- startSandbox_body fuel timeout ;;
      match snd out with
      | Some _ => fcEnd fuel ;;; ret (fst out)
      | None => ret (fst out)
      end
  end.

Definition disconnect : M unit := state_set notReady.

End Driver.

(** ** Vocabulary of the specifications *)

(** [fc.client()] leaves the driver as it is, except that a [nil]
    connection is replaced by a first one. *)
Definition ensure (f : firecracker) : firecracker :=
  match fcClient f with
  | O => set_fcClient 1 f
  | S _ => f
  end.

(** Two driver objects that differ at most in the connection they hold. *)
Definition same (f f' : firecracker) : Prop :=
  set_fcClient 0 f' = set_fcClient 0 f.

(** The state after a call. *)
Definition after (W : World) (c : call) (f : firecracker) (s : Sys) : Sys :=
  mkSys f (trace s ++ [c]) (clock s + cost W (trace s) c).

(** The calls of the two polling loops. *)
Definition vmm_poll (c : call) : Prop :=
  c = DescribeInstance \/ c = Sleep (10 * Millisecond).

Definition kill_poll (pid : Z) (c : call) : Prop :=
  c = Kill pid 0 \/ c = Sleep (50 * Millisecond).

(** The calls [addDevice] makes for a device that is accepted. *)
Definition dispatch (d : firecrackerDevice) : list call :=
  match dev d with
  | DevEndpoint e =>
      [PutGuestNetworkInterfaceByID (ep_Name e) false (ep_HardwareAddr e)
                                    (ep_TAPIfaceName e)]
  | DevBlockDrive b => [PutGuestDriveByID (ID b) false false (File b)]
  | DevVSOCK v => [PutGuestVsockByID "root" (contextID v); CloseFd (vhostFd v)]
  | _ => []
  end.

(** The two calls that declare the placeholder drive of index [i] on the
    scratch file [path]. *)
Definition pool_slot (ip : Z * string) : list call :=
  [StoreRaw ""; PutGuestDriveByID (fcDriveIndexToID (fst ip)) false false (snd ip)].

Definition pool_indices : list Z := [0; 1; 2; 3; 4; 5; 6; 7].

Definition is_sigterm (c : call) : bool :=
  match c with Kill _ sg => sg =? SIGTERM | _ => false end.

Definition is_describe (c : call) : bool :=
  match c with DescribeInstance => true | _ => false end.

Definition is_kill (c : call) : bool :=
  match c with Kill _ _ => true | _ => false end.

Definition is_sigkill (c : call) : bool :=
  match c with Kill _ sg => sg =? SIGKILL | _ => false end.

Definition is_store (c : call) : bool :=
  match c with StoreStore _ => true | _ => false end.

Definition is_start (c : call) : bool :=
  match c with
  | CreateSyncAction a _ => String.eqb a "InstanceStart"
  | _ => false
  end.

Definition is_action (c : call) : bool :=
  match c with CreateSyncAction _ _ => true | _ => false end.

(** The guest root filesystem [startSandbox] settles on: the initrd if
    the configuration names one, else the image. *)
Definition rootfs_image (cfg : HypervisorConfig) : res string :=
  match InitrdAssetPath cfg with
  | Err e => Err e
  | Ok image => if String.eqb image "" then ImageAssetPath cfg else Ok image
  end.

(** The three configuration calls between [fcInit] and the disk pool. *)
Definition configure_calls (root : list Param) (cfg : HypervisorConfig)
                           (kernelPath image : string) : list call :=
  [ PutMachineConfiguration false (MemorySize cfg) (NumVCPUs cfg);
    PutGuestBootSource kernelPath
      (strings_Join
         (SerializeParams (KernelParams cfg ++ fcKernelParams root) "=") " ");
    PutGuestDriveByID "rootfs" true false image ].

Definition start_call : call := CreateSyncAction "InstanceStart" "".

(** A kernel parameter as it stands on the command line. *)
Definition key_value (p : Param) : string := Key p +++ "=" +++ Value p.

(** The kernel command line [startSandbox] hands to the boot source. *)
Definition cmdline (root : list Param) (cfg : HypervisorConfig) : string :=
  strings_Join (SerializeParams (KernelParams cfg ++ fcKernelParams root) "=") " ".

(** What [vmRunning] makes of the answer to [DescribeInstance] after the
    history [h]. *)
Definition observed_running (W : World) (h : list call) : bool :=
  match api_DescribeInstance W h with
  | Ok st => String.eqb st InstanceInfoStateRunning
  | Err _ => false
  end.

(** The indices [i], [i+1], ... visited by [k] iterations. *)
Fixpoint zseq (i : Z) (k : nat) : list Z :=
  match k with
  | O => []
  | S k' => i :: zseq (i + 1) k'
  end.

(** A call of [createDiskPool]. *)
Definition pool_call (c : call) : Prop :=
  c = StoreRaw "" \/
  exists i path, c = PutGuestDriveByID (fcDriveIndexToID i) false false path.

(** [declared W h i paths]: after the history [h], the scratch-file
    allocator hands out, one fresh request per drive, files whose paths are
    [paths], and the API accepts a placeholder drive on each of them, for
    the indices from [i] on. *)
Inductive declared (W : World) : list call -> Z -> list string -> Prop :=
| declared_nil h i : declared W h i []
| declared_cons h i url path paths :
    store_Raw W h = Ok url ->
    url_Parse W url = Ok path ->
    reply W (h ++ [StoreRaw ""])
          (PutGuestDriveByID (fcDriveIndexToID i) false false path) = None ->
    declared W (h ++ pool_slot (i, path)) (i + 1) paths ->
    declared W h i (path :: paths).

(** The calls of a successful [fcInit]: the spawn, the polls, the store. *)
Definition spawn_call (f : firecracker) : call :=
  CmdStart (HypervisorPath (config f)) ["--api-sock"; socketPath f].

(** [n] rounds of the polling loop of [fcEnd] in which the process was
    found alive: the probe, then the sleep of 50 ms. *)
Fixpoint kill_rounds (pid : Z) (n : nat) : list call :=
  match n with
  | O => []
  | S n' => Kill pid 0 :: Sleep (50 * Millisecond) :: kill_rounds pid n'
  end.

(** The nanoseconds the calls [l] take when they are made one after
    another after the history [h]. *)
Fixpoint run_cost (W : World) (h l : list call) : Z :=
  match l with
  | [] => 0
  | c :: l' => cost W h c + run_cost W (h ++ [c]) l'
  end.

(** ** Worlds and instances used in examples *)

Definition no_latency : list call -> call -> N := fun _ _ => 0%N.

Definition strip_scheme (u : string) : res string :=
  Ok (substring 7 (String.length u - 7) u).

(** Everything succeeds, at once. *)
Definition calm : World :=
  mkWorld (fun _ => Ok 4242) (fun _ => Ok "Running") (fun _ _ => None)
          (fun _ => Ok "file:///run/vc/raw") strip_scheme no_latency.

(** The API never answers. *)
Definition deaf : World :=
  mkWorld (fun _ => Ok 4242) (fun _ => Err (ErrCollab "connection refused"))
          (fun _ _ => None)
          (fun _ => Ok "file:///run/vc/raw") strip_scheme no_latency.

(** Like [calm], but the calls selected by [bad] are rejected. *)
Definition rejecting (bad : call -> bool) : World :=
  mkWorld (fun _ => Ok 4242) (fun _ => Ok "Running")
          (fun _ c => if bad c then Some (ErrCollab "rejected") else None)
          (fun _ => Ok "file:///run/vc/raw") strip_scheme no_latency.

(** The scratch-file allocator fails. *)
Definition no_scratch : World :=
  mkWorld (fun _ => Ok 4242) (fun _ => Ok "Running") (fun _ _ => None)
          (fun _ => Err (ErrCollab "no space left")) strip_scheme no_latency.

(** The process is alive until it has been sent SIGTERM. *)
Definition obedient : World :=
  mkWorld (fun _ => Ok 4242) (fun _ => Ok "Running")
          (fun h c =>
             match c with
             | Kill _ 0 =>
                 if existsb is_sigterm h
                 then Some (ErrCollab "no such process")
                 else None
             | _ => None
             end)
          (fun _ => Ok "file:///run/vc/raw") strip_scheme no_latency.

(** The scratch-file allocator fails from its fourth request on. *)
Definition is_raw (c : call) : bool :=
  match c with StoreRaw _ => true | _ => false end.

Definition scratch_runs_out : World :=
  mkWorld (fun _ => Ok 4242) (fun _ => Ok "Running") (fun _ _ => None)
          (fun h => if (3 <=? List.length (filter is_raw h))%nat
                    then Err (ErrCollab "no space left")
                    else Ok "file:///run/vc/raw")
          strip_scheme no_latency.

(** The instance is up but reports that it is still starting. *)
Definition starting : World :=
  mkWorld (fun _ => Ok 4242) (fun _ => Ok "Starting") (fun _ _ => None)
          (fun _ => Ok "file:///run/vc/raw") strip_scheme no_latency.

Definition is_boot_source (c : call) : bool :=
  match c with PutGuestBootSource _ _ => true | _ => false end.

Definition is_rootfs (c : call) : bool :=
  match c with
  | PutGuestDriveByID i _ _ _ => String.eqb i "rootfs"
  | _ => false
  end.

Definition is_pool_drive (c : call) : bool :=
  match c with
  | PutGuestDriveByID i _ _ _ =>
      existsb (String.eqb i) (map fcDriveIndexToID pool_indices)
  | _ => false
  end.

Definition is_machine_config (c : call) : bool :=
  match c with PutMachineConfiguration _ _ _ => true | _ => false end.

Definition is_vsock (c : call) : bool :=
  match c with PutGuestVsockByID _ _ => true | _ => false end.

Definition root_params : list Param :=
  [mkParam "root" "/dev/vda1"].

Definition cfg0 : HypervisorConfig :=
  mkConfig "/usr/bin/firecracker" 2048 2 [mkParam "console" "hvc0"]
           (Ok "/usr/share/kata/vmlinux") (Ok "")
           (Ok "/usr/share/kata/rootfs.img").

Definition fc0 (pending : list firecrackerDevice) : firecracker :=
  mkFirecracker "sb" notReady (mkInfo 0) None 0
                "/run/vc/sbs/sb/firecracker.sock" cfg0 pending.

Definition fresh (pending : list firecrackerDevice) : Sys :=
  mkSys (fc0 pending) [] 0.

Definition queue0 : list firecrackerDevice :=
  [ mkDevice (DevEndpoint (mkEndpoint "eth0" "02:00:ca:fe:00:01" "tap0"))
             (otherDev 2);
    mkDevice (DevBlockDrive (mkBlockDrive "/dev/loop3" "blk0" 0)) blockDev;
    mkDevice (DevVSOCK (mkVSOCK 3 11)) (otherDev 5) ].

Definition net0 : devInfo :=
  DevEndpoint (mkEndpoint "eth0" "02:00:ca:fe:00:01" "tap0").

Definition blk0 : devInfo :=
  DevBlockDrive (mkBlockDrive "/dev/loop3" "blk0" 0).

Definition vsock0 : devInfo := DevVSOCK (mkVSOCK 3 11).

(** The drive of a hotplug request for the pool slot 3. *)
Definition drive3 : BlockDrive := mkBlockDrive "/dev/loop7" "blk7" 3.

(** A driver whose API is up and whose process has pid 4242. *)
Definition booted : Sys :=
  mkSys (mkFirecracker "sb" vmReady (mkInfo 4242) (Some 4242) 2
                       "/run/vc/sbs/sb/firecracker.sock" cfg0 [])
        [] 0.

(** ** The rest of the driver *)

(** ** The threads of the hypervisor process *)

(** [strings.HasPrefix]. *)
Definition HasPrefix (s prefix : string) : bool := String.prefix prefix s.

(** The loop of [strings.genSplit] for a non-empty separator, keeping
    the separator at the end of each piece: cut after the first
    occurrence, go on with the rest.  The source bounds the loop by the
    number of occurrences; [fuel] stands for that bound. *)
Fixpoint genSplit (fuel : nat) (s sep : string) : list string :=
  match fuel with
  | O => [s]
  | S fuel' =>
      match String.index 0 sep s with
      | None => [s]
      | Some m =>
          let cut := (m + String.length sep)%nat in
          substring 0 cut s
            :: genSplit fuel' (substring cut (String.length s - cut) s) sep
      end
  end.

(** [strings.SplitAfter], for a non-empty separator: there are at most
    as many occurrences as bytes. *)
Definition SplitAfter (s sep : string) : list string :=
  genSplit (String.length s) s sep.

(** The two errors of [strconv]. *)
Inductive NumError := ErrSyntax | ErrRange.

(** The loop of [strconv.ParseUint] in base 10 over the bytes of the
    string: a byte that is no decimal digit is a syntax error; a value
    beyond [maxVal] is a range error, seen as soon as it is reached. *)
Fixpoint ParseUint_loop (cutoff maxVal : Z) (s : string) (n : Z)
  : NumError + Z :=
  match s with
  | EmptyString => inr n
  | String c s' =>
      let b := Z.of_nat (nat_of_ascii c) in
      if (48 <=? b) && (b <=? 57) then
        let d := b - 48 in
        if cutoff <=? n then inl ErrRange
        else
          let n1 := n * 10 + d in
          if maxVal <? n1 then inl ErrRange
          else ParseUint_loop cutoff maxVal s' n1
      else inl ErrSyntax
  end.

Definition maxUint64 : Z := 2 ^ 64 - 1.

(** [strconv.ParseUint(s, 10, bitSize)]. *)
Definition ParseUint (s : string) (bitSize : Z) : NumError + Z :=
  match s with
  | EmptyString => inl ErrSyntax
  | _ => ParseUint_loop (maxUint64 / 10 + 1) (2 ^ bitSize - 1) s 0
  end.

(** [strconv.ParseInt(s, 10, bitSize)]: an optional sign, then
    [ParseUint]; a range error of [ParseUint] is a range error here. *)
Definition ParseInt (s : string) (bitSize : Z) : NumError + Z :=
  match s with
  | EmptyString => inl ErrSyntax
  | String c s' =>
      let neg := Ascii.eqb c "-" in
      let body := if Ascii.eqb c "+" || neg then s' else s in
      match ParseUint body bitSize with
      | inl ErrSyntax => inl ErrSyntax
      | r =>
          let un := match r with inr un => un | inl _ => 2 ^ bitSize - 1 end in
          let cutoff := 2 ^ (bitSize - 1) in
          if negb neg && (cutoff <=? un) then inl ErrRange
          else if neg && (cutoff <? un) then inl ErrRange
          else inr (if neg then - un else un)
      end
  end.

(** A thread of the process as [utils.Proc] shows it: its id and what
    reading its command name gives. *)
Record Proc := mkProc {
  proc_PID : Z;
  proc_Comm : res string
}.

(** The errors of [getThreadIDs]: an error of the process listing, the
    fixed message for an unreadable command name, the message quoting a
    command name, and that message wrapped around a parse error. *)
Inductive threadError :=
| ThreadListing (e : error)
| InvalidThreadInfo
| InvalidThreadInfoOf (comm : string)
| InvalidThreadInfoWrap (cause : NumError) (comm : string).

(** [vcpuThreadIDs.vcpus], a map from vCPU index to thread id: the
    bindings, the latest first; a lookup finds the latest. *)
Definition vcpuThreadIDs := list (Z * Z).

Fixpoint vcpus_get (m : vcpuThreadIDs) (cpu : Z) : option Z :=
  match m with
  | [] => None
  | (k, v) :: m' => if k =? cpu then Some v else vcpus_get m' cpu
  end.

Definition vcpus_set (m : vcpuThreadIDs) (cpu tid : Z) : vcpuThreadIDs :=
  (cpu, tid) :: m.

(** The loop of [getThreadIDs] over the children; the map built so far is
    returned with the error. *)
Fixpoint getThreadIDs_loop (children : list Proc) (vcpus : vcpuThreadIDs)
  : vcpuThreadIDs * option threadError :=
  match children with
  | [] => (vcpus, None)
  | child :: rest =>
      match proc_Comm child with
      | Err _ => (vcpus, Some InvalidThreadInfo)
      | Ok comm =>
          if negb (HasPrefix comm "fc_vcpu") then getThreadIDs_loop rest vcpus
          else
            let cpus := SplitAfter comm "fc_vcpu" in
            match cpus with
            | [_; suffix] =>
                match ParseInt suffix 32 with
                | inl err => (vcpus, Some (InvalidThreadInfoWrap err comm))
                | inr cpuID =>
                    getThreadIDs_loop rest (vcpus_set vcpus cpuID (proc_PID child))
                end
            | _ => (vcpus, Some (InvalidThreadInfoOf comm))
            end
      end
  end.

(** [getThreadIDs].  [utils.NewProc] and [Proc.Children] read the process
    table; what they answer for a pid are the arguments [newProc] and
    [children]. *)
Definition getThreadIDs (newProc : Z -> result)
                        (children : Z -> res (list Proc)) (f : firecracker)
  : vcpuThreadIDs * option threadError :=
  match newProc (PID (info f)) with
  | Some err => ([], Some (ThreadListing err))
  | None =>
      match children (PID (info f)) with
      | Err err => ([], Some (ThreadListing err))
      | Ok cs => getThreadIDs_loop cs []
      end
  end.

(** The command name of the thread of vCPU [i]. *)
Definition vcpu_comm (i : Z) : string := "fc_vcpu" +++ Itoa i.

(** [vcpu_threads children bs]: every child has a readable command name
    and is either no vCPU thread or the thread of a vCPU whose index fits
    32 bits; [bs] lists index and thread id of the vCPU threads in order. *)
Inductive vcpu_threads : list Proc -> list (Z * Z) -> Prop :=
| vcpu_threads_nil : vcpu_threads [] []
| vcpu_threads_other tid comm children bs :
    HasPrefix comm "fc_vcpu" = false ->
    vcpu_threads children bs ->
    vcpu_threads (mkProc tid (Ok comm) :: children) bs
| vcpu_threads_vcpu tid i children bs :
    - 2 ^ 31 <= i < 2 ^ 31 ->
    vcpu_threads children bs ->
    vcpu_threads (mkProc tid (Ok (vcpu_comm i)) :: children) ((i, tid) :: bs).

(** Strings without the letter f hold no occurrence of the vCPU prefix. *)
Fixpoint all_chars (p : ascii -> bool) (s : string) : bool :=
  match s with
  | EmptyString => true
  | String c s' => p c && all_chars p s'
  end.

Definition not_f (c : ascii) : bool := negb (Ascii.eqb c "f").

(** ** createSandbox *)

Definition set_fc_id (i : string) (f : firecracker) : firecracker :=
  mkFirecracker i (state f) (info f) (firecrackerd f) (fcClient f)
                (socketPath f) (config f) (pendingDevices f).

Definition set_socketPath (p : string) (f : firecracker) : firecracker :=
  mkFirecracker (fc_id f) (state f) (info f) (firecrackerd f) (fcClient f)
                p (config f) (pendingDevices f).

Definition set_config (c : HypervisorConfig) (f : firecracker) : firecracker :=
  mkFirecracker (fc_id f) (state f) (info f) (firecrackerd f) (fcClient f)
                (socketPath f) c (pendingDevices f).

(** [createSandbox].  [socketOf id] stands for
    [filepath.Join(store.SandboxRuntimeRootPath(id), fireSocket)], and
    [loaded] for what [store.Load] finds: the stored info, or an error, in
    which case the info is left as it is. *)
Definition createSandbox (socketOf : string -> string) (id : string)
                         (hypervisorConfig : HypervisorConfig)
                         (loaded : res FirecrackerInfo) : M result :=
  modify_fc (set_fc_id id) ;;;
  f <- get_fc ;;
  modify_fc (set_socketPath (socketOf (fc_id f))) ;;;
  modify_fc (set_config hypervisorConfig) ;;;
  state_set notReady ;;;
  match loaded with
  | Ok i => modify_fc (set_info i)
  | Err _ => ret tt
  end ;;;
  ret None.


(** ** Vocabulary of the outcomes *)

(** The calls of a wait that polls [n] times in vain, each time followed
    by its sleep, and then once more. *)
Fixpoint poll_rounds (n : nat) : list call :=
  match n with
  | O => [DescribeInstance]
  | S n' => DescribeInstance :: Sleep (10 * Millisecond) :: poll_rounds n'
  end.

(** The calls [fcEnd] can make for the process [pid]. *)
Definition end_call (pid : Z) (c : call) : Prop :=
  c = Kill pid 0 \/ c = Kill pid SIGTERM \/ c = Kill pid SIGKILL \/
  c = Sleep (50 * Millisecond).

(** What stops an iteration of [createDiskPool] for the index [i] after
    the history [h]: the allocator fails, its answer is no URL, or the
    declaration of the drive is refused.  The calls the iteration has made
    come with the error. *)
Definition pool_failure (W : World) (h : list call) (i : Z)
  : option (list call * error) :=
  match store_Raw W h with
  | Err e => Some ([StoreRaw ""], e)
  | Ok url =>
      match url_Parse W url with
      | Err e => Some ([StoreRaw ""], e)
      | Ok path =>
          let put := PutGuestDriveByID (fcDriveIndexToID i) false false path in
          match reply W (h ++ [StoreRaw ""]) put with
          | Some e => Some ([StoreRaw ""; put], e)
          | None => None
          end
      end
  end.

(** The first call of the dispatch of a device, the one whose refusal
    [addDevice] reports. *)
Definition dispatch_head (d : firecrackerDevice) : option call :=
  hd_error (dispatch d).

(** The spawn of the hypervisor fails. *)
Definition no_binary : World :=
  mkWorld (fun _ => Err (ErrCollab "exec format error"))
          (fun _ => Ok "Running") (fun _ _ => None)
          (fun _ => Ok "file:///run/vc/raw") strip_scheme no_latency.

(** A process with one thread that is no vCPU and two vCPU threads. *)
Definition threads0 : list Proc :=
  [ mkProc 4242 (Ok "firecracker");
    mkProc 4243 (Ok "fc_vcpu0");
    mkProc 4244 (Ok "fc_vcpu1") ].

(** The second thread has a malformed name. *)
Definition threads1 : list Proc :=
  [ mkProc 4243 (Ok "fc_vcpu0");
    mkProc 4244 (Ok "fc_vcpu1a");
    mkProc 4245 (Ok "fc_vcpu2") ].

(** * Specifications *)

Section Specs.

Variable root : list Param.
Variable W : World.

(** *** The driver object up to its connection *)

Lemma same_refl f : same f f.
Proof. reflexivity. Qed.

Lemma same_trans f g h : same f g -> same g h -> same f h.
Proof. unfold same; congruence. Qed.

Lemma same_set_fcClient c f : same f (set_fcClient c f).
Proof. reflexivity. Qed.

Lemma same_ensure f : same f (ensure f).
Proof. unfold ensure; destruct (fcClient f); reflexivity. Qed.

Lemma same_state f f' : same f f' -> state f' = state f.
Proof. intros H; apply (f_equal state) in H; exact H. Qed.

Lemma same_info f f' : same f f' -> info f' = info f.
Proof. intros H; apply (f_equal info) in H; exact H. Qed.

Lemma same_config f f' : same f f' -> config f' = config f.
Proof. intros H; apply (f_equal config) in H; exact H. Qed.

Lemma same_pendingDevices f f' :
  same f f' -> pendingDevices f' = pendingDevices f.
Proof. intros H; apply (f_equal pendingDevices) in H; exact H. Qed.

Lemma same_set_state v f f' :
  same f f' -> same (set_state v f) (set_state v f').
Proof.
  unfold same; destruct f, f'; cbn; intros H; injection H as -> -> -> -> -> -> ->.
  reflexivity.
Qed.

Lemma ensure_ensure f : ensure (ensure f) = ensure f.
Proof. unfold ensure; destruct (fcClient f) eqn:E; simpl; [reflexivity | now rewrite E]. Qed.

Lemma client_run s :
  client s = Some (fcClient (ensure (fc s)),
                   mkSys (ensure (fc s)) (trace s) (clock s)).
Proof.
  destruct s as [[i st inf d [|n] sp cf pd] t c]; reflexivity.
Qed.

Lemma bind_client {A} (k : nat -> M A) s :
  bind client k s
  = k (fcClient (ensure (fc s))) (mkSys (ensure (fc s)) (trace s) (clock s)).
Proof. unfold bind; now rewrite client_run. Qed.

Lemma api_run c s :
  api W c s = Some (reply W (trace s) c, after W c (fc s) s).
Proof. reflexivity. Qed.

(** *** Hotplug *)

Lemma vmRunning_run s :
  vmRunning W s
  = Some (match api_DescribeInstance W (trace s) with
          | Ok st => String.eqb st InstanceInfoStateRunning
          | Err _ => false
          end,
          after W DescribeInstance (ensure (fc s)) s).
Proof.
  unfold vmRunning; rewrite bind_client; unfold bind, perform, after; simpl.
  destruct (api_DescribeInstance W (trace s)) as [st|e]; [|reflexivity].
  destruct (String.eqb_spec st InstanceInfoStateStarting) as [->|_];
    [reflexivity|].
  destruct (String.eqb st InstanceInfoStateRunning); [reflexivity|].
  destruct (_ || _)%bool; reflexivity.
Qed.


Lemma observed_running_iff h :
  observed_running W h = true
  <-> api_DescribeInstance W h = Ok InstanceInfoStateRunning.
Proof.
  unfold observed_running; destruct (api_DescribeInstance W h) as [st|e].
  - destruct (String.eqb_spec st InstanceInfoStateRunning); split; congruence.
  - split; discriminate.
Qed.

Lemma fcUpdateBlockDrive_run drive s :
  let id := fcDriveIndexToID (Index drive) in
  let patch := PatchGuestDriveByID id (File drive) in
  let rescan := CreateSyncAction "BlockDeviceRescan" id in
  let s1 := after W patch (ensure (fc s)) s in
  let s2 := after W DescribeInstance (ensure (fc s)) s1 in
  fcUpdateBlockDrive W drive s
  = match reply W (trace s) patch with
    | Some e => Some (Some e, s1)
    | None =>
        if observed_running W (trace s1)
        then Some (reply W (trace s2) rescan, after W rescan (ensure (fc s)) s2)
        else Some (None, s2)
    end.
Proof.
  intros id patch rescan s1 s2; subst s1 s2; cbn [trace fc clock after].
  unfold fcUpdateBlockDrive; rewrite bind_client.
  fold id; fold patch. unfold bind at 1. rewrite api_run. cbn [trace fc clock after].
  destruct (reply W (trace s) patch) as [e|]; [reflexivity|].
  unfold bind at 1. rewrite vmRunning_run. cbn [trace fc clock after]. rewrite ensure_ensure.
  fold (observed_running W (trace s ++ [patch])). cbn [trace fc clock after].
  destruct (observed_running W (trace s ++ [patch])); [|reflexivity].
  rewrite bind_client. cbn [trace fc clock after]. rewrite ensure_ensure.
  unfold bind. rewrite api_run. cbn [trace fc clock after].
  fold rescan.
  destruct (reply W _ rescan); reflexivity.
Qed.

Lemma to_int_nonnil i :
  Z.to_int i <> Decimal.Pos Decimal.Nil /\
  Z.to_int i <> Decimal.Neg Decimal.Nil.
Proof.
  destruct i as [|p|p]; cbn [Z.to_int]; split; try discriminate;
    intros [= E]; exact (DecimalPos.Unsigned.to_uint_nonnil p E).
Qed.

(** [Itoa] writes a decimal numeral of its argument. *)
Lemma Itoa_decimal i :
  option_map Z.of_int (NilZero.int_of_string (Itoa i)) = Some i.
Proof.
  unfold Itoa. destruct (to_int_nonnil i) as [P N].
  rewrite (NilZero.isi _ P N). cbn [option_map]. now rewrite DecimalZ.of_to.
Qed.

Lemma Itoa_inj i j : Itoa i = Itoa j -> i = j.
Proof.
  intros E. pose proof (Itoa_decimal i) as Hi. rewrite E, Itoa_decimal in Hi.
  now injection Hi.
Qed.

Lemma fcDriveIndexToID_inj i j :
  fcDriveIndexToID i = fcDriveIndexToID j -> i = j.
Proof.
  unfold fcDriveIndexToID. intros E. apply Itoa_inj.
  cbn in E. congruence.
Qed.

(** C7.  The slot a hotplug add addresses is named drive_ followed by
    the decimal numeral of the drive's pool index, and no other index has
    that name.  A hotplug add of a block drive with pool index [i] always
    patches the backing path of the slot [drive_i] first.  The calls that
    follow are exactly: nothing when the patch is refused; otherwise one
    [DescribeInstance] and, if and only if it answers the Running state, one
    [BlockDeviceRescan] action whose payload is [drive_i].  No other action
    is issued.  The result is the refusal of the patch or of the rescan,
    success otherwise. *)
Theorem fcUpdateBlockDrive_patch_then_rescan drive s :
  let id := fcDriveIndexToID (Index drive) in
  let patch := PatchGuestDriveByID id (File drive) in
  let rescan := CreateSyncAction "BlockDeviceRescan" id in
  (exists digits,
      id = "drive_" +++ digits /\
      option_map Z.of_int (NilZero.int_of_string digits) = Some (Index drive)) /\
  (forall j, fcDriveIndexToID j = id -> j = Index drive) /\
  exists r s' l,
    fcUpdateBlockDrive W drive s = Some (r, s') /\
    trace s' = trace s ++ patch :: l /\
    l = match reply W (trace s) patch with
        | Some _ => []
        | None =>
            DescribeInstance ::
            (if observed_running W (trace s ++ [patch]) then [rescan] else [])
        end /\
    r = match reply W (trace s) patch with
        | Some e => Some e
        | None =>
            if observed_running W (trace s ++ [patch])
            then reply W (trace s ++ [patch; DescribeInstance]) rescan
            else None
        end /\
    (In rescan l <->
     reply W (trace s) patch = None /\
     api_DescribeInstance W (trace s ++ [patch]) = Ok InstanceInfoStateRunning) /\
    (forall c, In c l -> is_action c = true -> c = rescan).
Proof.
  intros id patch rescan.
  split; [exists (Itoa (Index drive)); split;
          [reflexivity|apply Itoa_decimal]|].
  split; [intros j E; now apply fcDriveIndexToID_inj|].
  pose proof (fcUpdateBlockDrive_run drive s) as R; cbv zeta in R.
  fold id patch rescan in R. cbn [trace fc clock after] in R.
  pose proof (observed_running_iff (trace s ++ [patch])) as O.
  destruct (reply W (trace s) patch) as [e|].
  - eexists _, _, []; split; [exact R|].
    split; [reflexivity|]. split; [reflexivity|]. split; [reflexivity|]. split.
    + split; [intros []|intros [H _]; discriminate].
    + intros c [].
  - destruct (observed_running W (trace s ++ [patch])).
    + eexists _, _, [DescribeInstance; rescan]; split; [exact R|].
      split; [cbn [trace after]; now rewrite <- !app_assoc|].
      split; [reflexivity|].
      split; [cbn [trace after]; now rewrite <- !app_assoc|]. split.
      * split; [intros _; split; [reflexivity|now apply O]|simpl; auto].
      * intros c [<-|[<-|[]]]; simpl; congruence.
    + eexists _, _, [DescribeInstance]; split; [exact R|].
      split; [cbn [trace after]; now rewrite <- !app_assoc|].
      split; [reflexivity|]. split; [reflexivity|]. split.
      * split; [intros [H|[]]; discriminate|].
        intros [_ H]; apply O in H; discriminate.
      * intros c [<-|[]]; simpl; congruence.
Qed.

Lemma hotplugAddDevice_block drive s :
  hotplugAddDevice W (DevBlockDrivePtr drive) blockDev s
  = match fcUpdateBlockDrive W drive s with
    | Some (err, s') => Some (Returned err, s')
    | None => None
    end.
Proof. reflexivity. Qed.

(** C3, as amended.  [hotplugAddDevice] of a block drive checks no
    bound: whatever the pool index, it patches the slot named after that
    index and returns what the control channel answered to the patch or to
    the rescan (success if neither failed).  The unsupported-device error is
    returned, without any call, only for a device type other than block. *)
Theorem hotplugAddDevice_no_bounds_check drive s :
  let id := fcDriveIndexToID (Index drive) in
  let patch := PatchGuestDriveByID id (File drive) in
  let rescan := CreateSyncAction "BlockDeviceRescan" id in
  (exists r s' l,
      hotplugAddDevice W (DevBlockDrivePtr drive) blockDev s
      = Some (Returned r, s') /\
      trace s' = trace s ++ patch :: l /\
      r = match reply W (trace s) patch with
          | Some e => Some e
          | None =>
              if observed_running W (trace s ++ [patch])
              then reply W (trace s ++ [patch; DescribeInstance]) rescan
              else None
          end) /\
  (forall d n,
      hotplugAddDevice W d (otherDev n) s
      = Some (Returned (Some (ErrUnsupportedDevice d (otherDev n))), s)).
Proof.
  intros id patch rescan. split; [|reflexivity].
  rewrite hotplugAddDevice_block.
  pose proof (fcUpdateBlockDrive_run drive s) as R; cbv zeta in R.
  fold id patch rescan in R. cbn [trace fc clock after] in R. rewrite R.
  destruct (reply W (trace s) patch) as [e|].
  - eexists _, _, []. repeat split.
  - destruct (observed_running W (trace s ++ [patch])).
    + eexists _, _, [DescribeInstance; rescan].
      split; [reflexivity|]. cbn [trace after].
      rewrite <- !app_assoc. split; reflexivity.
    + eexists _, _, [DescribeInstance].
      split; [reflexivity|]. cbn [trace after].
      rewrite <- !app_assoc. split; reflexivity.
Qed.

(** *** Time *)

Lemma cost_nonneg h c : 0 <= cost W h c.
Proof. unfold cost, duration; destruct c; lia. Qed.

Lemma cost_Sleep h d : d <= cost W h (Sleep d).
Proof. unfold cost, duration; lia. Qed.

Lemma Seconds_int_gt d t :
  0 <= d -> ((Seconds_int d >? t) = true <-> (t + 1) * Second <= d).
Proof.
  intros Hd; unfold Seconds_int, Second.
  rewrite Z.quot_div_nonneg by lia.
  rewrite <- Zgt_is_gt_bool.
  pose proof (Z.div_mod d 1000000000 ltac:(lia)) as E.
  pose proof (Z.mod_pos_bound d 1000000000 ltac:(lia)) as B.
  split; intros H; nia.
Qed.

(** *** waitVMM *)

Lemma waitVMM_loop_spec timeout t0 fuel :
  forall s r s',
    waitVMM_loop W fuel timeout t0 s = Some (r, s') ->
    exists l,
      trace s' = trace s ++ l /\ Forall vmm_poll l /\
      same (fc s) (fc s') /\ clock s <= clock s' /\
      match r with
      | None =>
          exists l0 st, l = l0 ++ [DescribeInstance] /\
                        api_DescribeInstance W (trace s ++ l0) = Ok st
      | Some e =>
          exists cause, e = ErrConnectTimeout timeout cause /\
                        (Seconds_int (clock s' - t0) >? timeout) = true
      end.
Proof.
  induction fuel as [|fuel IH]; intros s r s' H; [discriminate|].
  cbn [waitVMM_loop] in H. rewrite bind_client in H.
  unfold bind at 1, perform at 1 in H; cbn [trace fc clock after] in H.
  destruct (api_DescribeInstance W (trace s)) as [st|err] eqn:D.
  - injection H as <- <-. exists [DescribeInstance]. cbn [trace fc clock after].
    repeat split; auto using same_ensure.
    + repeat constructor.
    + pose proof (cost_nonneg (trace s) DescribeInstance); lia.
    + exists [], st. now rewrite app_nil_r.
  - unfold bind at 1, time_Since at 1 in H; cbn [trace fc clock after] in H.
    pose proof (cost_nonneg (trace s) DescribeInstance) as C1.
    destruct (Seconds_int _ >? timeout) eqn:T.
    + injection H as <- <-. exists [DescribeInstance]. cbn [trace fc clock after].
      repeat split; auto using same_ensure.
      * repeat constructor.
      * lia.
      * now exists err.
    + unfold bind at 1, time_Sleep, perform in H; cbn [trace fc clock after] in H.
      apply IH in H as (l & Ht & Hl & Hs & Hc & Hr). cbn [trace fc clock after] in *.
      exists (DescribeInstance :: Sleep (10 * Millisecond) :: l).
      pose proof (cost_nonneg (trace s ++ [DescribeInstance])
                              (Sleep (10 * Millisecond))) as C2.
      split; [rewrite Ht, <- !app_assoc; reflexivity|].
      split; [constructor; [now left|constructor; [now right|exact Hl]]|].
      split; [eapply same_trans; [apply same_ensure|exact Hs]|].
      split; [lia|].
      destruct r as [e|]; [exact Hr|].
      destruct Hr as (l0 & st & -> & Hd).
      exists (DescribeInstance :: Sleep (10 * Millisecond) :: l0), st.
      split; [reflexivity|]. now rewrite <- !app_assoc in Hd.
Qed.

Lemma waitVMM_spec fuel timeout s r s' :
  waitVMM W fuel timeout s = Some (r, s') ->
  (timeout < 0 /\ r = Some (ErrInvalidTimeout timeout) /\ s' = s) \/
  (0 <= timeout /\
   exists l,
     trace s' = trace s ++ l /\ Forall vmm_poll l /\
     same (fc s) (fc s') /\ clock s <= clock s' /\
     match r with
     | None =>
         exists l0 st, l = l0 ++ [DescribeInstance] /\
                       api_DescribeInstance W (trace s ++ l0) = Ok st
     | Some e =>
         exists cause, e = ErrConnectTimeout timeout cause /\
                       (timeout + 1) * Second <= clock s' - clock s
     end).
Proof.
  unfold waitVMM; intros H.
  destruct (Z.ltb_spec timeout 0) as [N|N].
  - left. injection H as <- <-. auto.
  - right. split; [exact N|].
    unfold bind, time_Now in H.
    apply waitVMM_loop_spec in H as (l & Ht & Hl & Hs & Hc & Hr).
    exists l. repeat split; auto.
    destruct r as [e|]; [|exact Hr].
    destruct Hr as (cause & -> & T). exists cause. split; [reflexivity|].
    apply Seconds_int_gt in T; lia.
Qed.

(** The calls of a wait leave the driver's fields, and in particular its
    readiness and its queue, as they were. *)
Lemma waitVMM_frame fuel timeout s r s' :
  waitVMM W fuel timeout s = Some (r, s') ->
  exists l,
    trace s' = trace s ++ l /\ Forall vmm_poll l /\
    same (fc s) (fc s') /\ clock s <= clock s'.
Proof.
  intros H; apply waitVMM_spec in H as [(_ & _ & ->)|(_ & l & H)].
  - exists []. rewrite app_nil_r. repeat split; auto using same_refl. lia.
  - exists l. tauto.
Qed.

Lemma waitVMM_loop_total timeout t0 fuel :
  forall s,
    (1 <= fuel)%nat -> t0 <= clock s ->
    (timeout + 1) * Second - (clock s - t0)
      <= (Z.of_nat fuel - 1) * (10 * Millisecond) ->
    exists r s', waitVMM_loop W fuel timeout t0 s = Some (r, s').
Proof.
  induction fuel as [|fuel IH]; intros s F T0 B; [lia|].
  cbn [waitVMM_loop]. rewrite bind_client.
  unfold bind at 1, perform at 1; cbn [trace fc clock after].
  destruct (api_DescribeInstance W (trace s)) as [st|err]; [now eexists _, _|].
  unfold bind at 1, time_Since at 1; cbn [trace fc clock after].
  pose proof (cost_nonneg (trace s) DescribeInstance) as C1.
  destruct (Seconds_int _ >? timeout) eqn:T; [now eexists _, _|].
  unfold bind at 1, time_Sleep, perform; cbn [trace fc clock after].
  pose proof (cost_Sleep (trace s ++ [DescribeInstance]) (10 * Millisecond))
    as C2.
  assert (~ (timeout + 1) * Second <= clock s + cost W (trace s) DescribeInstance - t0)
    as NT.
  { intros G. apply Seconds_int_gt in G; [congruence|lia]. }
  apply IH; cbn [trace fc clock after]; unfold Millisecond, Second in *; lia.
Qed.

(** With a hundred polls per second of timeout and one to spare, the wait
    returns. *)
Lemma waitVMM_total fuel timeout s :
  (Z.to_nat (100 * (timeout + 1)) < fuel)%nat ->
  exists r s', waitVMM W fuel timeout s = Some (r, s').
Proof.
  intros F; unfold waitVMM.
  destruct (Z.ltb_spec timeout 0) as [N|N]; [now eexists _, _|].
  unfold bind, time_Now.
  apply waitVMM_loop_total; unfold Millisecond, Second; lia.
Qed.

Lemma waitVMM_negative_timeout fuel timeout s :
  timeout < 0 ->
  waitVMM W fuel timeout s = Some (Some (ErrInvalidTimeout timeout), s).
Proof.
  intros N; unfold waitVMM.
  destruct (Z.ltb_spec timeout 0); [reflexivity|lia].
Qed.

(** Against an API that never answers, the wait ends in the timeout error,
    and not before [timeout + 1] seconds have passed: the elapsed time is
    truncated to whole seconds and must exceed the timeout. *)
Lemma waitVMM_unanswered fuel timeout s r s' :
  (forall h, exists e, api_DescribeInstance W h = Err e) ->
  0 <= timeout ->
  waitVMM W fuel timeout s = Some (r, s') ->
  (exists cause, r = Some (ErrConnectTimeout timeout cause)) /\
  (timeout + 1) * Second <= clock s' - clock s.
Proof.
  intros D N H.
  apply waitVMM_spec in H as [(? & _)|(_ & l & _ & _ & _ & _ & Hr)]; [lia|].
  destruct r as [e|].
  - destruct Hr as (cause & -> & B). split; [now exists cause|exact B].
  - destruct Hr as (l0 & st & _ & E).
    destruct (D (trace s ++ l0)) as [e E']. congruence.
Qed.

(** *** fcInit *)

(** What [fcInit] has done when it returns: [spawned] is the driver object
    once the process has been started. *)
Lemma fcInit_spec fuel timeout s r s' :
  fcInit W fuel timeout s = Some (r, s') ->
  match cmd_Start W (trace s) with
  | Err e =>
      r = Some e /\ s' = after W (spawn_call (fc s)) (fc s) s
  | Ok pid =>
      let spawned :=
        set_firecrackerd (Some pid) (set_info (mkInfo pid) (fc s)) in
      exists polls,
        Forall vmm_poll polls /\ clock s <= clock s' /\
        ((r = Some (ErrInvalidTimeout timeout) \/
          exists cause, r = Some (ErrConnectTimeout timeout cause)) /\
         trace s' = trace s ++ spawn_call (fc s) :: polls /\
         same spawned (fc s')
         \/
         trace s' = trace s ++ spawn_call (fc s) :: polls
                            ++ [StoreStore (mkInfo pid)] /\
         same (set_state apiReady spawned) (fc s') /\
         r = reply W (trace s ++ spawn_call (fc s) :: polls)
                   (StoreStore (mkInfo pid)) /\
         exists l0 st, polls = l0 ++ [DescribeInstance] /\
           api_DescribeInstance W (trace s ++ spawn_call (fc s) :: l0) = Ok st)
  end.
Proof.
  unfold fcInit; intros H.
  unfold bind at 1, get_fc at 1 in H.
  unfold bind at 1, perform at 1 in H; cbn [trace fc clock after] in H.
  fold (spawn_call (fc s)) in H.
  destruct (cmd_Start W (trace s)) as [pid|e].
  - unfold bind at 1, modify_fc at 1 in H; cbn [trace fc clock after] in H.
    unfold bind at 1, modify_fc at 1 in H; cbn [trace fc clock after] in H.
    unfold bind at 1, newFireClient at 1, bind at 1, get_fc at 1, ret at 1 in H;
      cbn [trace fc clock after] in H.
    unfold bind at 1, modify_fc at 1 in H; cbn [trace fc clock after] in H.
    unfold bind at 1 in H.
    destruct (waitVMM W fuel timeout _) as [[err s1]|] eqn:Wt; [|discriminate].
    pose proof (waitVMM_frame _ _ _ _ _ Wt) as (l & Ht & Hl & Hs & Hc).
    cbn [trace fc clock after] in Ht, Hs, Hc.
    pose proof (cost_nonneg (trace s) (spawn_call (fc s))) as C.
    exists l. split; [exact Hl|].
    destruct err as [e|].
    + injection H as <- <-. split; [lia|]. left.
      split.
      { apply waitVMM_spec in Wt as [(_ & ? & _)|(_ & _ & _ & _ & _ & _ & Hr)];
          [now left|right].
        destruct Hr as (cause & -> & _). now exists cause. }
      split; [rewrite Ht, <- app_assoc; reflexivity|].
      eapply same_trans; [|exact Hs]. reflexivity.
    + unfold bind at 1, state_set, modify_fc at 1 in H;
        cbn [trace fc clock after] in H.
      unfold bind at 1, get_fc at 1 in H; cbn [trace fc clock after] in H.
      rewrite api_run in H; cbn [trace fc clock after] in H.
      injection H as <- <-. cbn [trace fc clock after info set_state].
      pose proof (cost_nonneg (trace s1) (StoreStore (info (fc s1)))) as C3.
      split; [lia|]. right.
      assert (info (fc s1) = mkInfo pid) as I
        by (apply same_info in Hs; exact Hs).
      rewrite I.
      split; [rewrite Ht, <- !app_assoc; reflexivity|].
      split.
      { apply same_set_state. eapply same_trans; [|exact Hs]. reflexivity. }
      split; [rewrite Ht, <- app_assoc; reflexivity|].
      apply waitVMM_spec in Wt as [(_ & ? & _)|(_ & l' & Ht' & _ & _ & _ & Hr)];
        [discriminate|].
      cbn [trace] in Ht'. rewrite Ht in Ht'. apply app_inv_head in Ht'. subst l'.
      destruct Hr as (l0 & st & -> & E). exists l0, st.
      split; [reflexivity|]. cbn [trace] in E. now rewrite <- app_assoc in E.
  - injection H as <- <-. split; reflexivity.
Qed.

Lemma vmm_poll_not_store l :
  Forall vmm_poll l -> existsb is_store l = false.
Proof.
  induction 1 as [|c l [->| ->] _ IH]; simpl; auto.
Qed.

Lemma vmm_poll_not_action l :
  Forall vmm_poll l -> existsb is_action l = false.
Proof.
  induction 1 as [|c l [->| ->] _ IH]; simpl; auto.
Qed.

Lemma fcInit_total fuel timeout s :
  (Z.to_nat (100 * (timeout + 1)) < fuel)%nat ->
  exists r s', fcInit W fuel timeout s = Some (r, s').
Proof.
  intros F. unfold fcInit.
  unfold bind at 1, get_fc at 1. unfold bind at 1, perform at 1.
  destruct (cmd_Start W (trace s)); [|now eexists _, _].
  unfold bind at 1, modify_fc at 1. unfold bind at 1, modify_fc at 1.
  unfold bind at 1, newFireClient at 1, bind at 1, get_fc at 1, ret at 1.
  unfold bind at 1, modify_fc at 1. unfold bind at 1.
  match goal with
  | |- context [waitVMM W fuel timeout ?s0] =>
      destruct (waitVMM_total fuel timeout s0 F) as (r & s1 & ->)
  end.
  destruct r; [now eexists _, _|].
  unfold bind at 1, state_set, modify_fc at 1. unfold bind at 1, get_fc at 1.
  rewrite api_run. now eexists _, _.
Qed.

(** C2, as amended.  With fuel for the wait, [fcInit] on a spawn that
    yields the pid [pid] returns, and [pid] is then in the driver's
    in-memory info.  No store write is made during the wait.  When the wait
    fails, its error is returned, readiness is unchanged and the calls are
    the spawn and the polls only: the store has not been written.  When the
    wait succeeds, readiness is ApiReady and the store write of [pid] is the
    last call, its outcome the result of [fcInit]. *)
Theorem fcInit_stores_pid_after_wait fuel timeout s pid :
  (Z.to_nat (100 * (timeout + 1)) < fuel)%nat ->
  cmd_Start W (trace s) = Ok pid ->
  exists r s' polls,
    fcInit W fuel timeout s = Some (r, s') /\
    PID (info (fc s')) = pid /\
    Forall vmm_poll polls /\
    existsb is_store (spawn_call (fc s) :: polls) = false /\
    ((r = Some (ErrInvalidTimeout timeout) \/
      exists cause, r = Some (ErrConnectTimeout timeout cause)) /\
     trace s' = trace s ++ spawn_call (fc s) :: polls /\
     state (fc s') = state (fc s)
     \/
     (exists l0 st, polls = l0 ++ [DescribeInstance] /\
        api_DescribeInstance W (trace s ++ spawn_call (fc s) :: l0) = Ok st) /\
     trace s' = trace s ++ spawn_call (fc s) :: polls
                        ++ [StoreStore (mkInfo pid)] /\
     state (fc s') = apiReady /\
     r = reply W (trace s ++ spawn_call (fc s) :: polls)
               (StoreStore (mkInfo pid))).
Proof.
  intros F P.
  destruct (fcInit_total fuel timeout s F) as (r & s' & H).
  exists r, s'. pose proof (fcInit_spec _ _ _ _ _ H) as Sp.
  rewrite P in Sp. cbv zeta in Sp.
  destruct Sp as (polls & Hl & _ & [(Hr & Ht & Hs)|(Ht & Hs & Hr & Hd)]);
    exists polls; (split; [exact H|]);
    (split; [apply same_info in Hs; now rewrite Hs|]);
    (split; [exact Hl|]);
    (split; [simpl; now apply vmm_poll_not_store|]).
  - left. repeat split; auto. apply same_state in Hs. exact Hs.
  - right. repeat split; auto. apply same_state in Hs. exact Hs.
Qed.

(** *** fcEnd *)

Lemma fcEnd_loop_spec pid t0 fuel :
  forall s r s',
    fcEnd_loop W fuel pid t0 s = Some (r, s') ->
    exists l0,
      trace s' = trace s ++ l0 ++ [Kill pid 0] /\
      Forall (kill_poll pid) l0 /\
      fc s' = fc s /\ clock s <= clock s' /\
      match r with
      | Some v => v = None /\ reply W (trace s ++ l0) (Kill pid 0) <> None
      | None => reply W (trace s ++ l0) (Kill pid 0) = None /\
                fcStopSandboxTimeout * Second <= clock s' - t0
      end.
Proof.
  induction fuel as [|fuel IH]; intros s r s' H; [discriminate|].
  cbn [fcEnd_loop] in H.
  unfold bind at 1 in H. rewrite api_run in H; cbn [trace fc clock after] in H.
  pose proof (cost_nonneg (trace s) (Kill pid 0)) as C1.
  destruct (reply W (trace s) (Kill pid 0)) as [e|] eqn:K.
  - injection H as <- <-. exists []. cbn [trace fc clock after].
    rewrite app_nil_r. repeat split; auto; [lia|congruence].
  - unfold bind at 1, time_Since at 1 in H; cbn [trace fc clock after] in H.
    destruct (_ <=? _) eqn:T.
    + injection H as <- <-. exists []. cbn [trace fc clock after].
      rewrite app_nil_r. repeat split; auto; [lia|].
      apply Z.leb_le in T. exact T.
    + unfold bind at 1, time_Sleep, perform in H; cbn [trace fc clock after] in H.
      apply IH in H as (l0 & Ht & Hl & Hf & Hc & Hr).
      cbn [trace fc clock after] in *.
      pose proof (cost_nonneg (trace s ++ [Kill pid 0])
                              (Sleep (50 * Millisecond))) as C2.
      exists (Kill pid 0 :: Sleep (50 * Millisecond) :: l0).
      split; [rewrite Ht, <- !app_assoc; reflexivity|].
      split; [constructor; [now left|constructor; [now right|exact Hl]]|].
      split; [exact Hf|]. split; [lia|].
      rewrite <- !app_assoc in Hr. exact Hr.
Qed.

Lemma fcEnd_loop_total pid t0 fuel :
  forall s,
    (1 <= fuel)%nat -> t0 <= clock s ->
    fcStopSandboxTimeout * Second - (clock s - t0)
      <= (Z.of_nat fuel - 1) * (50 * Millisecond) ->
    exists r s', fcEnd_loop W fuel pid t0 s = Some (r, s').
Proof.
  induction fuel as [|fuel IH]; intros s F T0 B; [lia|].
  cbn [fcEnd_loop].
  unfold bind at 1. rewrite api_run; cbn [trace fc clock after].
  pose proof (cost_nonneg (trace s) (Kill pid 0)) as C1.
  destruct (reply W (trace s) (Kill pid 0)) as [e|]; [now eexists _, _|].
  unfold bind at 1, time_Since at 1; cbn [trace fc clock after].
  destruct (_ <=? _) eqn:T; [now eexists _, _|].
  apply Z.leb_gt in T; cbn [trace fc clock after] in T.
  unfold bind at 1, time_Sleep, perform; cbn [trace fc clock after].
  pose proof (cost_Sleep (trace s ++ [Kill pid 0]) (50 * Millisecond)) as C2.
  apply IH; cbn [trace fc clock after];
    unfold fcStopSandboxTimeout, Millisecond, Second in *; lia.
Qed.

Lemma kill_poll_not_sigkill pid l :
  Forall (kill_poll pid) l -> existsb is_sigkill l = false.
Proof.
  induction 1 as [|c l [->| ->] _ IH]; simpl; auto.
Qed.

(** Three hundred polls and one to spare see [fcEnd] through. *)
Lemma fcEnd_total fuel s :
  (300 < fuel)%nat -> exists r s', fcEnd W fuel s = Some (r, s').
Proof.
  intros F. unfold fcEnd.
  unfold bind at 1, get_fc at 1.
  unfold bind at 1. rewrite api_run.
  destruct (reply W (trace s) _); [now eexists _, _|].
  unfold bind at 1. rewrite api_run. cbn [trace fc clock after].
  destruct (reply W _ _); [now eexists _, _|].
  unfold bind at 1, time_Now at 1; cbn [trace fc clock after].
  unfold bind at 1.
  match goal with
  | |- context [fcEnd_loop W fuel ?p ?t ?s0] =>
      destruct (fcEnd_loop_total p t fuel s0) as (v & s1 & ->)
  end.
  - lia.
  - cbn [trace fc clock after]. lia.
  - cbn [trace fc clock after].
    unfold fcStopSandboxTimeout, Millisecond, Second. lia.
  - destruct v; [now eexists _, _|]. rewrite api_run. now eexists _, _.
Qed.

Lemma kill_rounds_not_sigkill pid n :
  existsb is_sigkill (kill_rounds pid n) = false.
Proof. induction n as [|n IH]; [reflexivity|exact IH]. Qed.

(** The polling loop of [fcEnd], round by round: it makes [n] rounds in
    which the probe finds the process alive before the grace period is
    over, and one more probe, which either finds the process gone or is
    followed by the end of the grace period. *)
Lemma fcEnd_loop_rounds pid t0 fuel :
  forall s r s',
    fcEnd_loop W fuel pid t0 s = Some (r, s') ->
    exists n,
      trace s' = trace s ++ kill_rounds pid n ++ [Kill pid 0] /\
      clock s'
      = clock s + run_cost W (trace s) (kill_rounds pid n ++ [Kill pid 0]) /\
      fc s' = fc s /\
      (forall k, (k < n)%nat ->
         reply W (trace s ++ kill_rounds pid k) (Kill pid 0) = None /\
         clock s + run_cost W (trace s) (kill_rounds pid k ++ [Kill pid 0]) - t0
         < fcStopSandboxTimeout * Second) /\
      match r with
      | Some v =>
          v = None /\
          reply W (trace s ++ kill_rounds pid n) (Kill pid 0) <> None
      | None =>
          reply W (trace s ++ kill_rounds pid n) (Kill pid 0) = None /\
          fcStopSandboxTimeout * Second <= clock s' - t0
      end.
Proof.
  induction fuel as [|fuel IH]; intros s r s' H; [discriminate|].
  cbn [fcEnd_loop] in H.
  unfold bind at 1 in H. rewrite api_run in H; cbn [trace fc clock after] in H.
  destruct (reply W (trace s) (Kill pid 0)) as [e|] eqn:K.
  - injection H as <- <-. exists 0%nat. cbn [kill_rounds app run_cost].
    cbn [trace fc clock after]. rewrite app_nil_r.
    split; [reflexivity|]. split; [lia|]. split; [reflexivity|].
    split; [intros k L; lia|]. split; [reflexivity|congruence].
  - unfold bind at 1, time_Since at 1 in H; cbn [trace fc clock after] in H.
    destruct (_ <=? _) eqn:T.
    + injection H as <- <-. exists 0%nat. cbn [kill_rounds app run_cost].
      cbn [trace fc clock after]. rewrite app_nil_r.
      split; [reflexivity|]. split; [lia|]. split; [reflexivity|].
      split; [intros k L; lia|]. split; [exact K|].
      apply Z.leb_le in T. exact T.
    + apply Z.leb_gt in T.
      unfold bind at 1, time_Sleep, perform in H;
        cbn [trace fc clock after] in H.
      apply IH in H as (n & Ht & Hc & Hf & Hk & Hr).
      cbn [trace fc clock after] in *.
      exists (S n). cbn [kill_rounds app run_cost].
      split; [rewrite Ht, <- !app_assoc; reflexivity|].
      split; [rewrite Hc; lia|]. split; [exact Hf|].
      split.
      * intros [|k] L.
        -- cbn [kill_rounds app run_cost]. rewrite app_nil_r.
           split; [exact K|lia].
        -- destruct (Hk k ltac:(lia)) as (Ha & Hb).
           cbn [kill_rounds app run_cost].
           rewrite <- !app_assoc in Ha. split; [exact Ha|lia].
      * rewrite <- !app_assoc in Hr. exact Hr.
Qed.

(** C4, as amended.  With fuel for the grace period, [fcEnd] on a live
    process that accepts the graceful-terminate signal returns, leaving the
    driver object as it was.  After the probe and the SIGTERM its calls are
    [n] rounds of a liveness probe followed by a 50 ms sleep, and one more
    probe.  In each of the [n] rounds the probe found the process alive
    and, the probe made, less than the 15 seconds of grace had passed since
    the SIGTERM was sent.  If the last probe finds the process gone, it is
    the last call: success is returned at once and no SIGKILL is among the
    calls.  Otherwise the process was still alive with the grace elapsed,
    SIGKILL is the one further call, and the result is the outcome of that
    send. *)
Theorem fcEnd_live_process fuel s :
  let pid := PID (info (fc s)) in
  let h0 := trace s ++ [Kill pid 0; Kill pid SIGTERM] in
  (300 < fuel)%nat ->
  reply W (trace s) (Kill pid 0) = None ->
  reply W (trace s ++ [Kill pid 0]) (Kill pid SIGTERM) = None ->
  exists r s' n,
    fcEnd W fuel s = Some (r, s') /\
    fc s' = fc s /\
    (forall k, (k < n)%nat ->
       reply W (h0 ++ kill_rounds pid k) (Kill pid 0) = None /\
       run_cost W h0 (kill_rounds pid k ++ [Kill pid 0])
       < fcStopSandboxTimeout * Second) /\
    let probes := kill_rounds pid n ++ [Kill pid 0] in
    (reply W (h0 ++ kill_rounds pid n) (Kill pid 0) <> None /\
     r = None /\
     trace s' = h0 ++ probes /\
     existsb is_sigkill ([Kill pid 0; Kill pid SIGTERM] ++ probes) = false
     \/
     reply W (h0 ++ kill_rounds pid n) (Kill pid 0) = None /\
     fcStopSandboxTimeout * Second <= run_cost W h0 probes /\
     r = reply W (h0 ++ probes) (Kill pid SIGKILL) /\
     trace s' = h0 ++ probes ++ [Kill pid SIGKILL]).
Proof.
  intros pid h0 F K0 K15.
  destruct (fcEnd_total fuel s F) as (r & s' & H).
  exists r, s'. pose proof H as H0. unfold fcEnd in H.
  unfold bind at 1, get_fc at 1 in H. fold pid in H.
  unfold bind at 1 in H. rewrite api_run, K0 in H.
  unfold bind at 1 in H. rewrite api_run in H.
  cbn [trace fc clock after] in H. rewrite K15 in H.
  unfold bind at 1, time_Now at 1 in H; cbn [trace fc clock after] in H.
  unfold bind at 1 in H.
  destruct (fcEnd_loop W fuel pid _ _) as [[v s1]|] eqn:L; [|discriminate].
  apply fcEnd_loop_rounds in L as (n & Ht & Hc & Hf & Hk & Hr).
  cbn [trace fc clock after] in *.
  replace ((trace s ++ [Kill pid 0]) ++ [Kill pid SIGTERM]) with h0 in *
    by (subst h0; now rewrite <- app_assoc).
  exists n. split; [exact H0|].
  assert (forall k, (k < n)%nat ->
            reply W (h0 ++ kill_rounds pid k) (Kill pid 0) = None /\
            run_cost W h0 (kill_rounds pid k ++ [Kill pid 0])
            < fcStopSandboxTimeout * Second) as Hk'.
  { intros k Lk. destruct (Hk k Lk) as (Ha & Hb). split; [exact Ha|lia]. }
  destruct v as [v|].
  - destruct Hr as (-> & D). injection H as <- <-.
    split; [exact Hf|]. split; [exact Hk'|]. left.
    split; [exact D|]. split; [reflexivity|]. split; [exact Ht|].
    cbn [app existsb is_sigkill]. rewrite existsb_app, kill_rounds_not_sigkill.
    reflexivity.
  - destruct Hr as (A & T). rewrite api_run in H. injection H as <- <-.
    cbn [trace fc clock after].
    split; [exact Hf|]. split; [exact Hk'|]. right.
    split; [exact A|]. split; [lia|].
    split; [now rewrite Ht|].
    rewrite Ht, <- !app_assoc. reflexivity.
Qed.


(** *** createDiskPool *)

Lemma createDiskPool_from_frame k :
  forall i s r s',
    createDiskPool_from W k i s = Some (r, s') ->
    exists l,
      trace s' = trace s ++ l /\ Forall pool_call l /\
      same (fc s) (fc s') /\ clock s <= clock s'.
Proof.
  induction k as [|k IH]; intros i s r s' H.
  - injection H as <- <-. exists []. rewrite app_nil_r.
    repeat split; auto using same_refl. lia.
  - cbn [createDiskPool_from] in H.
    unfold bind at 1, perform at 1 in H; cbn [trace fc clock after] in H.
    pose proof (cost_nonneg (trace s) (StoreRaw "")) as C1.
    assert (pool_call (StoreRaw "")) as P1 by now left.
    destruct (store_Raw W (trace s)) as [url|e].
    2: { injection H as <- <-. exists [StoreRaw ""]. cbn [trace fc clock after].
         repeat split; auto using same_refl. lia. }
    destruct (url_Parse W url) as [path|e].
    2: { injection H as <- <-. exists [StoreRaw ""]. cbn [trace fc clock after].
         repeat split; auto using same_refl. lia. }
    rewrite bind_client in H. unfold bind at 1 in H. rewrite api_run in H.
    cbn [trace fc clock after] in H.
    set (put := PutGuestDriveByID (fcDriveIndexToID i) false false path) in *.
    pose proof (cost_nonneg (trace s ++ [StoreRaw ""]) put) as C2.
    assert (pool_call put) as P2 by (right; now exists i, path).
    destruct (reply W _ put) as [e|].
    + injection H as <- <-. exists [StoreRaw ""; put]. cbn [trace fc clock after].
      rewrite <- app_assoc.
      repeat split; auto using same_ensure. lia.
    + apply IH in H as (l & Ht & Hl & Hs & Hc). cbn [trace fc clock after] in *.
      exists (StoreRaw "" :: put :: l).
      split; [rewrite Ht, <- !app_assoc; reflexivity|].
      split; [auto|].
      split; [eapply same_trans; [apply same_ensure|exact Hs]|lia].
Qed.

Lemma createDiskPool_from_ok k :
  forall i s s',
    createDiskPool_from W k i s = Some (None, s') ->
    exists paths,
      List.length paths = k /\ declared W (trace s) i paths /\
      trace s' = trace s ++ flat_map pool_slot (combine (zseq i k) paths).
Proof.
  induction k as [|k IH]; intros i s s' H.
  - injection H as <-. exists []. rewrite app_nil_r.
    repeat split. constructor.
  - cbn [createDiskPool_from] in H.
    unfold bind at 1, perform at 1 in H; cbn [trace fc clock after] in H.
    destruct (store_Raw W (trace s)) as [url|e] eqn:R; [|discriminate].
    destruct (url_Parse W url) as [path|e] eqn:U; [|discriminate].
    rewrite bind_client in H. unfold bind at 1 in H. rewrite api_run in H.
    cbn [trace fc clock after] in H.
    destruct (reply W _ _) as [e|] eqn:A; [discriminate|].
    apply IH in H as (paths & Hn & Hd & Ht). cbn [trace fc clock after] in *.
    exists (path :: paths).
    split; [simpl; now rewrite Hn|].
    split.
    + econstructor; eauto. unfold pool_slot; cbn [fst snd].
      now rewrite <- app_assoc in Hd.
    + rewrite Ht. cbn [zseq combine flat_map pool_slot fst snd].
      now rewrite <- !app_assoc.
Qed.

Lemma createDiskPool_from_total k :
  forall i s, exists r s', createDiskPool_from W k i s = Some (r, s').
Proof.
  induction k as [|k IH]; intros i s; [now eexists _, _|].
  cbn [createDiskPool_from].
  unfold bind at 1, perform at 1; cbn [trace fc clock after].
  destruct (store_Raw W (trace s)) as [url|e]; [|now eexists _, _].
  destruct (url_Parse W url) as [path|e]; [|now eexists _, _].
  rewrite bind_client. unfold bind at 1. rewrite api_run.
  destruct (reply W _ _) as [e|]; [now eexists _, _|].
  apply IH.
Qed.

Lemma pool_call_not_action l :
  Forall pool_call l -> existsb is_action l = false.
Proof.
  induction 1 as [|c l [->|(i & p & ->)] _ IH]; simpl; auto.
Qed.

Lemma pool_ids :
  map fcDriveIndexToID pool_indices
  = ["drive_0"; "drive_1"; "drive_2"; "drive_3";
     "drive_4"; "drive_5"; "drive_6"; "drive_7"].
Proof. reflexivity. Qed.

Lemma pool_ids_distinct : NoDup (map fcDriveIndexToID pool_indices).
Proof.
  rewrite pool_ids.
  repeat (constructor; [simpl; intuition discriminate|]). constructor.
Qed.

(** *** addDevice and the flush of the queue *)

Lemma addDevice_notReady d t s :
  state (fc s) = notReady ->
  addDevice W d t s
  = Some (None,
          mkSys (set_pendingDevices (pendingDevices (fc s) ++ [mkDevice d t])
                                    (fc s))
                (trace s) (clock s)).
Proof.
  intros N. unfold addDevice, bind, get_fc. now rewrite N.
Qed.

Lemma fcAddNetDevice_run e s :
  let c := PutGuestNetworkInterfaceByID (ep_Name e) false (ep_HardwareAddr e)
                                        (ep_TAPIfaceName e) in
  fcAddNetDevice W e s = Some (reply W (trace s) c, after W c (ensure (fc s)) s).
Proof. unfold fcAddNetDevice. now rewrite bind_client. Qed.

Lemma fcAddBlockDrive_run b s :
  let c := PutGuestDriveByID (ID b) false false (File b) in
  fcAddBlockDrive W b s = Some (reply W (trace s) c, after W c (ensure (fc s)) s).
Proof. unfold fcAddBlockDrive. now rewrite bind_client. Qed.

Lemma fcAddVsock_run v s :
  let c := PutGuestVsockByID "root" (contextID v) in
  let s1 := after W c (ensure (fc s)) s in
  fcAddVsock W v s
  = match reply W (trace s) c with
    | Some e => Some (Some e, s1)
    | None => Some (None, after W (CloseFd (vhostFd v)) (ensure (fc s)) s1)
    end.
Proof.
  unfold fcAddVsock. rewrite bind_client. unfold bind at 1. rewrite api_run.
  cbn [trace fc clock after]. destruct (reply W (trace s) _); reflexivity.
Qed.

Lemma addDevice_ready d t s r s' :
  state (fc s) <> notReady ->
  addDevice W d t s = Some (r, s') ->
  same (fc s) (fc s') /\ clock s <= clock s' /\
  exists l, trace s' = trace s ++ l /\
            (r = None -> l = dispatch (mkDevice d t)).
Proof.
  intros N H. unfold addDevice, bind at 1, get_fc at 1 in H.
  assert (match d with
          | DevEndpoint v => fcAddNetDevice W v
          | DevBlockDrive v => fcAddBlockDrive W v
          | DevVSOCK v => fcAddVsock W v
          | _ => ret None
          end s = Some (r, s')) as H'
    by (destruct (state (fc s)); [congruence|exact H|exact H]).
  clear H. unfold dispatch; cbn [dev].
  destruct d as [e|b|b|v|tag].
  - rewrite fcAddNetDevice_run in H'. injection H' as <- <-.
    cbn [trace fc clock after].
    match goal with |- context [cost W ?h ?c] =>
      pose proof (cost_nonneg h c) end.
    repeat split; auto using same_ensure; [lia|]. eexists; split; eauto.
  - rewrite fcAddBlockDrive_run in H'. injection H' as <- <-.
    cbn [trace fc clock after].
    match goal with |- context [cost W ?h ?c] =>
      pose proof (cost_nonneg h c) end.
    repeat split; auto using same_ensure; [lia|]. eexists; split; eauto.
  - injection H' as <- <-.
    repeat split; auto using same_refl; [lia|].
    exists []. now rewrite app_nil_r.
  - rewrite fcAddVsock_run in H'. cbv zeta in H'.
    pose proof (cost_nonneg (trace s) (PutGuestVsockByID "root" (contextID v))).
    pose proof (cost_nonneg
                  (trace s ++ [PutGuestVsockByID "root" (contextID v)])
                  (CloseFd (vhostFd v))).
    destruct (reply W (trace s) _) as [e|]; injection H' as <- <-;
      cbn [trace fc clock after].
    + repeat split; auto using same_ensure; [lia|].
      eexists; split; [reflexivity|discriminate].
    + repeat split; auto using same_ensure; [lia|].
      eexists; split; [rewrite <- app_assoc; reflexivity|reflexivity].
  - injection H' as <- <-.
    repeat split; auto using same_refl; [lia|].
    exists []. now rewrite app_nil_r.
Qed.

Lemma flushPending_ok ds :
  forall s s',
    state (fc s) <> notReady ->
    flushPending W ds s = Some (None, s') ->
    trace s' = trace s ++ flat_map dispatch ds /\
    same (fc s) (fc s') /\ clock s <= clock s'.
Proof.
  induction ds as [|d ds IH]; intros s s' N H.
  - injection H as <-. rewrite app_nil_r.
    repeat split; auto using same_refl. lia.
  - cbn [flushPending] in H. unfold bind at 1 in H.
    destruct (addDevice W (dev d) (devType d) s) as [[r s1]|] eqn:A;
      [|discriminate].
    apply addDevice_ready in A as (Hs & Hc & l & Ht & Hl); [|exact N].
    destruct r as [e|]; [discriminate|].
    specialize (Hl eq_refl). subst l.
    apply IH in H as (Ht' & Hs' & Hc').
    + split; [|split; [eapply same_trans; eauto|lia]].
      rewrite Ht', Ht, <- app_assoc. cbn [flat_map].
      now destruct d.
    + apply same_state in Hs. congruence.
Qed.

(** *** startSandbox *)

Lemma fcSetVMBaseConfig_run mem vcpus ht s :
  let c := PutMachineConfiguration ht mem vcpus in
  fcSetVMBaseConfig W mem vcpus ht s
  = Some (reply W (trace s) c, after W c (ensure (fc s)) s).
Proof. unfold fcSetVMBaseConfig. now rewrite bind_client. Qed.

Lemma fcSetBootSource_run path params s :
  let c := PutGuestBootSource path params in
  fcSetBootSource W path params s
  = Some (reply W (trace s) c, after W c (ensure (fc s)) s).
Proof. unfold fcSetBootSource. now rewrite bind_client. Qed.

Lemma fcSetVMRootfs_run path s :
  let c := PutGuestDriveByID "rootfs" true false path in
  fcSetVMRootfs W path s
  = Some (reply W (trace s) c, after W c (ensure (fc s)) s).
Proof. unfold fcSetVMRootfs. now rewrite bind_client. Qed.

Lemma fcStartVM_spec s r s' :
  fcStartVM W s = Some (r, s') ->
  trace s' = trace s ++ [start_call] /\
  r = reply W (trace s) start_call /\
  clock s <= clock s' /\
  same (match r with None => set_state vmReady (fc s) | Some _ => fc s end)
       (fc s').
Proof.
  unfold fcStartVM; intros H.
  unfold bind at 1, newFireClient at 1, bind at 1, get_fc at 1, ret at 1 in H.
  unfold bind at 1, modify_fc at 1 in H; cbn [trace fc clock after] in H.
  rewrite bind_client in H; cbn [trace fc clock after] in H.
  unfold bind at 1 in H. rewrite api_run in H.
  cbn [trace fc clock after] in H. fold start_call in H.
  pose proof (cost_nonneg (trace s) start_call) as C.
  destruct (reply W (trace s) start_call) as [e|].
  - injection H as <- <-. cbn [trace fc clock after].
    split; [reflexivity|]. split; [reflexivity|]. split; [lia|]. reflexivity.
  - unfold bind at 1, state_set, modify_fc at 1 in H.
    injection H as <- <-. cbn [trace fc clock after].
    split; [reflexivity|]. split; [reflexivity|]. split; [lia|]. reflexivity.
Qed.

Lemma startSandbox_body_success fuel timeout s ev s' :
  startSandbox_body root W fuel timeout s = Some ((None, ev), s') ->
  state (fc s) <> notReady ->
  let cfg := config (fc s) in
  ev = None /\
  exists kernelPath image sp rp sp' waits,
    KernelAssetPath cfg = Ok kernelPath /\
    rootfs_image cfg = Ok image /\
    trace sp = trace s ++ configure_calls root cfg kernelPath image /\
    createDiskPool W sp = Some (rp, sp') /\
    trace s' = trace sp' ++ flat_map dispatch (pendingDevices (fc s))
                         ++ start_call :: waits /\
    Forall vmm_poll waits /\
    same (set_state vmReady (fc s)) (fc s').
Proof.
  intros B N cfg. unfold startSandbox_body in B.
  unfold bind at 1, get_fc at 1 in B. fold cfg in B.
  unfold bind at 1 in B. rewrite fcSetVMBaseConfig_run in B. cbv zeta in B.
  destruct (reply W (trace s) _) as [e|]; [discriminate|].
  destruct (KernelAssetPath cfg) as [kernelPath|e] eqn:K; [|discriminate].
  unfold bind at 1 in B. rewrite fcSetBootSource_run in B. cbv zeta in B.
  assert (exists image, rootfs_image cfg = Ok image /\
            (x <- (fcSetVMRootfs W image ;;; createDiskPool W ;;;
                   f' <- get_fc ;;
                   e2 <- flushPending W (pendingDevices f') ;;
                   match e2 with
                   | Some e => ret (Some e, Some e)
                   | None =>
                       e3 <- fcStartVM W ;;
                       match e3 with
                       | Some e => ret (Some e, None)
                       | None => e4 <- waitVMM W fuel timeout ;; ret (e4, None)
                       end
                   end) ;; ret x)
              (after W (PutGuestBootSource kernelPath
                          (strings_Join
                             (SerializeParams
                                (KernelParams cfg ++ fcKernelParams root) "=")
                             " "))
                     (ensure (fc (after W (PutMachineConfiguration false
                                    (MemorySize cfg) (NumVCPUs cfg))
                                    (ensure (fc s)) s)))
                     (after W (PutMachineConfiguration false
                                 (MemorySize cfg) (NumVCPUs cfg))
                            (ensure (fc s)) s))
            = Some ((None, ev), s')) as (image & RI & B').
  { unfold rootfs_image.
    destruct (InitrdAssetPath cfg) as [image|e]; [|discriminate].
    destruct (String.eqb image "").
    - destruct (ImageAssetPath cfg) as [image'|e]; [|discriminate].
      exists image'. split; [reflexivity|].
      unfold bind at 1. rewrite B. reflexivity.
    - exists image. split; [reflexivity|].
      unfold bind at 1. rewrite B. reflexivity. }
  clear B. cbn [trace fc clock after] in B'.
  unfold bind at 1 in B'.
  unfold bind at 1 in B'. rewrite fcSetVMRootfs_run in B'. cbv zeta in B'.
  cbn [trace fc clock after] in B'. rewrite !ensure_ensure in B'.
  unfold bind at 1 in B'.
  match type of B' with
  | context [createDiskPool W ?s0] =>
      set (sp := s0) in *;
      destruct (createDiskPool W sp) as [[rp sp']|] eqn:P; [|discriminate]
  end.
  unfold bind at 1, get_fc at 1 in B'. unfold bind at 1 in B'.
  pose proof (createDiskPool_from_frame _ _ _ _ _ P) as (lp & _ & _ & Hsp & _).
  assert (same (fc s) (fc sp')) as Hs0.
  { eapply same_trans; [|exact Hsp]. subst sp; cbn [fc]. apply same_ensure. }
  destruct (flushPending W _ sp') as [[e2 s2]|] eqn:F; [|discriminate].
  destruct e2 as [e|]; [discriminate|].
  apply flushPending_ok in F as (Ht2 & Hs2 & _);
    [|apply same_state in Hs0; congruence].
  unfold bind at 1 in B'.
  destruct (fcStartVM W s2) as [[e3 s3]|] eqn:S; [|discriminate].
  destruct e3 as [e|]; [discriminate|].
  apply fcStartVM_spec in S as (Ht3 & _ & _ & Hs3).
  unfold bind at 1 in B'.
  destruct (waitVMM W fuel timeout s3) as [[e4 s4]|] eqn:Wt; [|discriminate].
  apply waitVMM_frame in Wt as (waits & Ht4 & Hw & Hs4 & _).
  unfold ret in B'. injection B' as -> <- <-.
  split; [reflexivity|].
  exists kernelPath, image, sp, rp, sp', waits.
  split; [reflexivity|]. split; [exact RI|].
  split; [subst sp; cbn [trace after]; unfold configure_calls;
          now rewrite <- !app_assoc|].
  split; [exact P|].
  split.
  { rewrite Ht4, Ht3, Ht2, <- !app_assoc.
    apply same_pendingDevices in Hs0. now rewrite Hs0. }
  split; [exact Hw|].
  eapply same_trans; [|exact Hs4]. eapply same_trans; [|exact Hs3].
  apply same_set_state. eapply same_trans; eauto.
Qed.

Lemma startSandbox_success fuel timeout s s' :
  startSandbox root W fuel timeout s = Some (None, s') ->
  let cfg := config (fc s) in
  exists pid polls kernelPath image sp rp sp' waits,
    cmd_Start W (trace s) = Ok pid /\
    Forall vmm_poll polls /\
    KernelAssetPath cfg = Ok kernelPath /\
    rootfs_image cfg = Ok image /\
    trace sp = trace s ++ spawn_call (fc s) :: polls
                       ++ StoreStore (mkInfo pid)
                       :: configure_calls root cfg kernelPath image /\
    createDiskPool W sp = Some (rp, sp') /\
    trace s' = trace sp' ++ flat_map dispatch (pendingDevices (fc s))
                         ++ start_call :: waits /\
    Forall vmm_poll waits /\
    state (fc s') = vmReady /\
    pendingDevices (fc s') = pendingDevices (fc s).
Proof.
  intros H cfg. unfold startSandbox in H. unfold bind at 1 in H.
  destruct (fcInit W fuel fcTimeout s) as [[e0 s1]|] eqn:I; [|discriminate].
  destruct e0 as [e|]; [discriminate|].
  apply fcInit_spec in I.
  destruct (cmd_Start W (trace s)) as [pid|e]; [|now destruct I].
  cbv zeta in I.
  destruct I as (polls & Hp & _ & [([?|[? ?]] & _)|(Ht1 & Hs1 & _ & _)]);
    try discriminate.
  unfold bind at 1 in H.
  destruct (startSandbox_body root W fuel timeout s1) as [[[rv ev] s2]|] eqn:B;
    [|discriminate].
  cbn [fst snd] in H.
  assert (rv = None) as ->.
  { destruct ev; [|now injection H].
    unfold bind in H. destruct (fcEnd W fuel s2) as [[? ?]|]; [|discriminate].
    now injection H. }
  assert (state (fc s1) = apiReady) as A1
    by (apply same_state in Hs1; exact Hs1).
  assert (config (fc s1) = cfg) as C1
    by (apply same_config in Hs1; exact Hs1).
  assert (pendingDevices (fc s1) = pendingDevices (fc s)) as P1
    by (apply same_pendingDevices in Hs1; exact Hs1).
  apply startSandbox_body_success in B; [|congruence].
  cbv zeta in B. rewrite C1, P1 in B.
  destruct B as (-> & kernelPath & image & sp & rp & sp' & waits
                 & K & RI & Ht & P & Ht' & Hw & Hs).
  injection H as <-.
  exists pid, polls, kernelPath, image, sp, rp, sp', waits.
  repeat split; auto.
  - rewrite Ht, Ht1, <- !app_assoc. cbn [app]. now rewrite <- app_assoc.
  - apply same_state in Hs. exact Hs.
  - apply same_pendingDevices in Hs. cbn in Hs. congruence.
Qed.

(** *** Termination *)

Lemma addDevice_total d t s : exists r s', addDevice W d t s = Some (r, s').
Proof.
  unfold addDevice, bind at 1, get_fc at 1.
  destruct (state (fc s)); [now eexists _, _| |];
    (destruct d as [e|b|b|v|tag];
     [rewrite fcAddNetDevice_run|rewrite fcAddBlockDrive_run|
      |rewrite fcAddVsock_run; cbv zeta; destruct (reply W _ _)|];
     now eexists _, _).
Qed.

Lemma flushPending_total ds :
  forall s, exists r s', flushPending W ds s = Some (r, s').
Proof.
  induction ds as [|d ds IH]; intros s; [now eexists _, _|].
  cbn [flushPending]. unfold bind at 1.
  destruct (addDevice_total (dev d) (devType d) s) as (r & s1 & ->).
  destruct r; [now eexists _, _|apply IH].
Qed.

Lemma fcStartVM_total s : exists r s', fcStartVM W s = Some (r, s').
Proof.
  unfold fcStartVM.
  unfold bind at 1, newFireClient at 1, bind at 1, get_fc at 1, ret at 1.
  unfold bind at 1, modify_fc at 1.
  rewrite bind_client. unfold bind at 1. rewrite api_run.
  destruct (reply W _ _); now eexists _, _.
Qed.


Lemma startSandbox_body_total fuel timeout s :
  (Z.to_nat (100 * (timeout + 1)) < fuel)%nat ->
  exists out s', startSandbox_body root W fuel timeout s = Some (out, s').
Proof.
  intros F. unfold startSandbox_body.
  unfold bind at 1, get_fc at 1.
  unfold bind at 1. rewrite fcSetVMBaseConfig_run. cbv zeta.
  destruct (reply W _ _); [now eexists _, _|].
  destruct (KernelAssetPath _); [|now eexists _, _].
  unfold bind at 1. rewrite fcSetBootSource_run. cbv zeta.
  destruct (InitrdAssetPath _) as [image|]; [|now eexists _, _].
  destruct (if String.eqb image "" then _ else _) as [image'|];
    [|now eexists _, _].
  unfold bind at 1. rewrite fcSetVMRootfs_run. cbv zeta.
  unfold bind at 1.
  match goal with
  | |- context [createDiskPool W ?s0] =>
      destruct (createDiskPool_from_total (Z.to_nat fcDiskPoolSize) 0 s0)
        as (rp & sp' & P)
  end.
  unfold createDiskPool. rewrite P.
  unfold bind at 1, get_fc at 1. unfold bind at 1.
  destruct (flushPending_total (pendingDevices (fc sp')) sp')
    as (r2 & s2 & ->).
  destruct r2; [now eexists _, _|].
  unfold bind at 1.
  destruct (fcStartVM_total s2) as (r3 & s3 & ->).
  destruct r3; [now eexists _, _|].
  unfold bind at 1.
  destruct (waitVMM_total fuel timeout s3 F) as (r4 & s4 & ->).
  now eexists _, _.
Qed.

(** Fuel for the eleven seconds of [fcInit], for the caller's timeout and
    for the fifteen seconds of [fcEnd] sees [startSandbox] through. *)
Lemma startSandbox_total fuel timeout s :
  (1100 < fuel)%nat ->
  (Z.to_nat (100 * (timeout + 1)) < fuel)%nat ->
  exists r s', startSandbox root W fuel timeout s = Some (r, s').
Proof.
  intros F1 F2. unfold startSandbox. unfold bind at 1.
  destruct (fcInit_total fuel fcTimeout s) as (r & s1 & ->);
    [unfold fcTimeout; lia|].
  destruct r; [now eexists _, _|].
  unfold bind at 1.
  destruct (startSandbox_body_total fuel timeout s1 F2) as (out & s2 & ->).
  destruct (snd out); [|now eexists _, _].
  unfold bind at 1.
  destruct (fcEnd_total fuel s2) as (r & s3 & ->); [lia|].
  now eexists _, _.
Qed.

(** *** The claims about the boot sequence *)

Lemma existsb_Forall_false {A} (P : A -> Prop) (f : A -> bool) :
  (forall a, P a -> f a = false) ->
  forall l, Forall P l -> existsb f l = false.
Proof.
  intros Hf l; induction 1 as [|a l Ha _ IH]; simpl; [reflexivity|].
  now rewrite (Hf a Ha).
Qed.

Lemma dispatch_calls (f : call -> bool) ds :
  (forall a b c d, f (PutGuestNetworkInterfaceByID a b c d) = false) ->
  (forall a b c d, f (PutGuestDriveByID a b c d) = false) ->
  (forall a b, f (PutGuestVsockByID a b) = false) ->
  (forall a, f (CloseFd a) = false) ->
  existsb f (flat_map dispatch ds) = false.
Proof.
  intros N D V C. induction ds as [|[d t] ds IH]; [reflexivity|].
  cbn [flat_map]. rewrite existsb_app, IH, orb_false_r.
  unfold dispatch; cbn [dev]. destruct d; simpl; rewrite ?N, ?D, ?V, ?C; auto.
Qed.

(** C6, as amended.  While readiness is NotReady, [addDevice] puts the
    device at the end of the pending queue and returns success; the trace,
    the clock, readiness and the rest of the driver are untouched.  So a
    call of [addDevice] that reaches the outside was made with readiness
    other than NotReady.  In a successful [startSandbox], whose [fcInit]
    has brought readiness to ApiReady, the calls between the disk pool and
    the start action are exactly the dispatches of the queued devices, each
    once, in queue order; a device added last is dispatched last.
    [hotplugAddDevice] of a block drive looks at no readiness: it patches
    the slot in every state. *)
Theorem pending_devices_queued_then_flushed :
  (forall d t s,
      state (fc s) = notReady ->
      exists s',
        addDevice W d t s = Some (None, s') /\
        pendingDevices (fc s') = pendingDevices (fc s) ++ [mkDevice d t] /\
        trace s' = trace s /\ clock s' = clock s /\
        state (fc s') = notReady /\
        info (fc s') = info (fc s) /\ config (fc s') = config (fc s) /\
        socketPath (fc s') = socketPath (fc s)) /\
  (forall d t s r s',
      addDevice W d t s = Some (r, s') ->
      trace s' <> trace s -> state (fc s) <> notReady) /\
  (forall fuel timeout s s',
      startSandbox root W fuel timeout s = Some (None, s') ->
      exists pid polls kernelPath image pool waits,
        trace s'
        = trace s
            ++ (spawn_call (fc s) :: polls
                  ++ StoreStore (mkInfo pid)
                  :: configure_calls root (config (fc s)) kernelPath image)
            ++ pool
            ++ flat_map dispatch (pendingDevices (fc s))
            ++ start_call :: waits /\
        Forall vmm_poll polls /\ Forall pool_call pool /\
        Forall vmm_poll waits /\
        state (fc s') = vmReady) /\
  (forall d t s s1 fuel timeout s',
      state (fc s) = notReady ->
      addDevice W d t s = Some (None, s1) ->
      startSandbox root W fuel timeout s1 = Some (None, s') ->
      exists before waits,
        trace s'
        = trace s ++ before
            ++ flat_map dispatch (pendingDevices (fc s))
            ++ dispatch (mkDevice d t)
            ++ start_call :: waits /\
        Forall vmm_poll waits) /\
  (forall drive s,
      exists r s' l,
        hotplugAddDevice W (DevBlockDrivePtr drive) blockDev s
        = Some (Returned r, s') /\
        trace s'
        = trace s
            ++ PatchGuestDriveByID (fcDriveIndexToID (Index drive)) (File drive)
            :: l).
Proof.
  assert (forall fuel timeout s s',
      startSandbox root W fuel timeout s = Some (None, s') ->
      exists pid polls kernelPath image pool waits,
        trace s'
        = trace s
            ++ (spawn_call (fc s) :: polls
                  ++ StoreStore (mkInfo pid)
                  :: configure_calls root (config (fc s)) kernelPath image)
            ++ pool
            ++ flat_map dispatch (pendingDevices (fc s))
            ++ start_call :: waits /\
        Forall vmm_poll polls /\ Forall pool_call pool /\
        Forall vmm_poll waits /\
        state (fc s') = vmReady) as Boot.
  { intros fuel timeout s s' H.
    apply startSandbox_success in H
      as (pid & polls & kernelPath & image & sp & rp & sp' & waits & _ & Hp
          & _ & _ & Ht & P & Ht' & Hw & Hv & _).
    apply createDiskPool_from_frame in P as (pool & Hpt & Hpl & _ & _).
    exists pid, polls, kernelPath, image, pool, waits.
    repeat split; auto.
    rewrite Ht', Hpt, Ht, <- !app_assoc. reflexivity. }
  split; [|split; [|split; [exact Boot|split]]].
  - intros d t s N. rewrite addDevice_notReady by exact N.
    eexists. split; [reflexivity|]. cbn. repeat split. exact N.
  - intros d t s r s' H T N. rewrite addDevice_notReady in H by exact N.
    injection H as _ <-. now apply T.
  - intros d t s s1 fuel timeout s' N A H.
    rewrite addDevice_notReady in A by exact N. injection A as <-.
    apply Boot in H
      as (pid & polls & kernelPath & image & pool & waits & Ht & _ & _ & Hw & _).
    cbn [fc trace pendingDevices set_pendingDevices] in Ht.
    rewrite flat_map_app in Ht. cbn [flat_map] in Ht.
    rewrite app_nil_r in Ht.
    exists ((spawn_call (fc s) :: polls
               ++ StoreStore (mkInfo pid)
               :: configure_calls root (config (fc s)) kernelPath image)
              ++ pool), waits.
    split; [|exact Hw].
    rewrite Ht, <- !app_assoc. reflexivity.
  - intros drive s. rewrite hotplugAddDevice_block.
    pose proof (fcUpdateBlockDrive_run drive s) as R; cbv zeta in R.
    rewrite R.
    destruct (reply W (trace s) _) as [e|].
    + eexists _, _, []. split; reflexivity.
    + destruct (observed_running W _).
      * eexists _, _, [_; _]. split; [reflexivity|]. cbn [trace after].
        rewrite <- !app_assoc. reflexivity.
      * eexists _, _, [_]. split; [reflexivity|]. cbn [trace after].
        rewrite <- !app_assoc. reflexivity.
Qed.

Lemma SerializeParams_app a b delim :
  SerializeParams (a ++ b) delim
  = SerializeParams a delim ++ SerializeParams b delim.
Proof. apply map_app. Qed.

(** C8.  The kernel command line is the caller's parameters followed by
    the backend's, each rendered as key, equals sign, value, joined by single
    spaces; and in a successful [startSandbox] the one boot-source call
    carries the resolved kernel path and that command line. *)
Theorem kernel_command_line_order :
  (forall cfg,
      cmdline root cfg
      = strings_Join (map key_value (KernelParams cfg)
                        ++ map key_value (fcKernelParams root)) " ") /\
  (forall fuel timeout s s',
      startSandbox root W fuel timeout s = Some (None, s') ->
      exists before kernelPath rest,
        KernelAssetPath (config (fc s)) = Ok kernelPath /\
        trace s'
        = trace s ++ before
            ++ PutGuestBootSource kernelPath (cmdline root (config (fc s)))
            :: rest /\
        existsb is_boot_source (before ++ rest) = false).
Proof.
  split.
  - intros cfg. unfold cmdline. now rewrite SerializeParams_app.
  - intros fuel timeout s s' H.
    apply startSandbox_success in H
      as (pid & polls & kernelPath & image & sp & rp & sp' & waits & _ & Hp
          & K & _ & Ht & P & Ht' & Hw & _ & _).
    apply createDiskPool_from_frame in P as (pool & Hpt & Hpl & _ & _).
    set (cfg := config (fc s)) in *.
    exists (spawn_call (fc s) :: polls
              ++ [StoreStore (mkInfo pid);
                  PutMachineConfiguration false (MemorySize cfg) (NumVCPUs cfg)]),
      kernelPath,
      (PutGuestDriveByID "rootfs" true false image :: pool
         ++ flat_map dispatch (pendingDevices (fc s)) ++ start_call :: waits).
    split; [exact K|]. split.
    + rewrite Ht', Hpt, Ht. unfold configure_calls, cmdline.
      rewrite <- !app_assoc. cbn [app]. rewrite <- !app_assoc. reflexivity.
    + assert (forall l, Forall vmm_poll l -> existsb is_boot_source l = false)
        as Q by (apply existsb_Forall_false; now intros c [->| ->]).
      cbn [app existsb is_boot_source spawn_call].
      rewrite !existsb_app. cbn [existsb is_boot_source start_call].
      rewrite !existsb_app. cbn [existsb is_boot_source start_call].
      rewrite (Q _ Hp), (Q _ Hw).
      assert (existsb is_boot_source pool = false) as ->.
      { revert Hpl. apply existsb_Forall_false.
        intros c [->|(i & p & ->)]; reflexivity. }
      rewrite dispatch_calls by reflexivity. reflexivity.
Qed.

(** When [createDiskPool] returns success it has made, for each of
    the indices 0 to 7 in turn, one fresh scratch-file request followed by
    the declaration of a writable, non-root drive on that file; the eight
    ids are drive_0 to drive_7 and are pairwise distinct.  In a successful
    [startSandbox] the run of [createDiskPool] comes before the start
    action: no action is issued before or during it. *)
Theorem disk_pool_declared_before_start :
  (forall s s',
      createDiskPool W s = Some (None, s') ->
      exists paths,
        List.length paths = 8%nat /\
        declared W (trace s) 0 paths /\
        trace s'
        = trace s ++ flat_map pool_slot (combine pool_indices paths)) /\
  map fcDriveIndexToID pool_indices
  = ["drive_0"; "drive_1"; "drive_2"; "drive_3";
     "drive_4"; "drive_5"; "drive_6"; "drive_7"] /\
  NoDup (map fcDriveIndexToID pool_indices) /\
  (forall fuel timeout s s',
      startSandbox root W fuel timeout s = Some (None, s') ->
      exists before sp rp sp' pool rest,
        trace sp = trace s ++ before /\
        createDiskPool W sp = Some (rp, sp') /\
        trace sp' = trace sp ++ pool /\
        trace s' = trace s ++ before ++ pool ++ rest /\
        existsb is_action (before ++ pool) = false /\
        In start_call rest).
Proof.
  split; [|split; [exact pool_ids|split; [exact pool_ids_distinct|]]].
  - intros s s' H. apply createDiskPool_from_ok in H. exact H.
  - intros fuel timeout s s' H.
    apply startSandbox_success in H
      as (pid & polls & kernelPath & image & sp & rp & sp' & waits & _ & Hp
          & _ & _ & Ht & P & Ht' & _ & _ & _).
    pose proof (createDiskPool_from_frame _ _ _ _ _ P)
      as (pool & Hpt & Hpl & _ & _).
    eexists _, sp, rp, sp', pool, _.
    split; [exact Ht|]. split; [exact P|]. split; [exact Hpt|].
    split; [rewrite Ht', Hpt, Ht, <- !app_assoc; reflexivity|].
    split.
    + cbn [app existsb is_action spawn_call].
      rewrite !existsb_app. cbn [existsb is_action configure_calls].
      rewrite (vmm_poll_not_action _ Hp), (pool_call_not_action _ Hpl).
      reflexivity.
    + apply in_or_app. right. now left.
Qed.


(** C10.  [pauseSandbox], [resumeSandbox] and [saveSandbox] return
    success in every state, make no call and change nothing. *)
Theorem lifecycle_noops (s : Sys) :
  pauseSandbox s = Some (None, s) /\
  resumeSandbox s = Some (None, s) /\
  saveSandbox s = Some (None, s).
Proof. repeat split. Qed.

End Specs.

(** ** Examples *)

Example drive_3 : fcDriveIndexToID 3 = "drive_3".
Proof. reflexivity. Qed.

Example cmdline_root :
  strings_Join
    (SerializeParams ([mkParam "root" "/dev/vda1"] ++ fcKernelParams []) "=")
    " "
  = "root=/dev/vda1 pci=off reboot=k panic=1 iommu=off 8250.nr_uarts=0 net.ifnames=0 random.trust_cpu=on acpi=off".
Proof. reflexivity. Qed.

Example calm_boot :
  option_map (fun rs => (fst rs, trace (snd rs)))
             (startSandbox root_params calm 5 5 (fresh queue0))
  = Some (None,
          [ CmdStart "/usr/bin/firecracker"
              ["--api-sock"; "/run/vc/sbs/sb/firecracker.sock"];
            DescribeInstance;
            StoreStore (mkInfo 4242);
            PutMachineConfiguration false 2048 2;
            PutGuestBootSource "/usr/share/kata/vmlinux"
              (cmdline root_params cfg0);
            PutGuestDriveByID "rootfs" true false "/usr/share/kata/rootfs.img";
            StoreRaw ""; PutGuestDriveByID "drive_0" false false "/run/vc/raw";
            StoreRaw ""; PutGuestDriveByID "drive_1" false false "/run/vc/raw";
            StoreRaw ""; PutGuestDriveByID "drive_2" false false "/run/vc/raw";
            StoreRaw ""; PutGuestDriveByID "drive_3" false false "/run/vc/raw";
            StoreRaw ""; PutGuestDriveByID "drive_4" false false "/run/vc/raw";
            StoreRaw ""; PutGuestDriveByID "drive_5" false false "/run/vc/raw";
            StoreRaw ""; PutGuestDriveByID "drive_6" false false "/run/vc/raw";
            StoreRaw ""; PutGuestDriveByID "drive_7" false false "/run/vc/raw";
            PutGuestNetworkInterfaceByID "eth0" false "02:00:ca:fe:00:01" "tap0";
            PutGuestDriveByID "blk0" false false "/dev/loop3";
            PutGuestVsockByID "root" 3; CloseFd 11;
            CreateSyncAction "InstanceStart" "";
            DescribeInstance ]).
Proof. vm_compute. reflexivity. Qed.

Example stubborn_process_is_killed :
  option_map (fun rs => (fst rs, existsb is_sigkill (trace (snd rs)),
                         clock (snd rs)))
             (fcEnd calm 301 booted)
  = Some (None, true, 15 * Second).
Proof. vm_compute. reflexivity. Qed.

Example negative_timeout :
  waitVMM deaf 0 (-1) (fresh []) = Some (Some (ErrInvalidTimeout (-1)), fresh []).
Proof. reflexivity. Qed.

(** ** The claims on concrete runs *)

(** C1.  [startSandbox] run on six worlds that differ from [calm] in
    one failing step.  A refused boot source (step 4), a refused rootfs
    drive (step 5) and a failing scratch-file allocator (step 6, no pool
    drive declared) do not abort the sequence: the start action is issued
    and success is returned.  A failure of step 1 (the API never answers,
    the process being spawned), of the machine configuration (step 2) and
    of the start action (step 8) is returned to the caller, but no signal
    is ever sent: the cleanup does not run. *)
Theorem startSandbox_failures_mishandled :
  (exists s',
      startSandbox root_params (rejecting is_boot_source) 1200 5 (fresh queue0)
      = Some (None, s') /\
      existsb is_start (trace s') = true /\
      existsb is_kill (trace s') = false) /\
  (exists s',
      startSandbox root_params (rejecting is_rootfs) 1200 5 (fresh queue0)
      = Some (None, s') /\
      existsb is_start (trace s') = true /\
      existsb is_kill (trace s') = false) /\
  (exists s',
      startSandbox root_params no_scratch 1200 5 (fresh queue0)
      = Some (None, s') /\
      existsb is_pool_drive (trace s') = false /\
      existsb is_start (trace s') = true /\
      existsb is_kill (trace s') = false) /\
  (exists e s',
      startSandbox root_params deaf 1200 5 (fresh queue0)
      = Some (Some e, s') /\
      firecrackerd (fc s') = Some 4242 /\
      existsb is_kill (trace s') = false) /\
  (exists e s',
      startSandbox root_params (rejecting is_machine_config) 1200 5
                   (fresh queue0)
      = Some (Some e, s') /\
      existsb is_kill (trace s') = false) /\
  (exists e s',
      startSandbox root_params (rejecting is_start) 1200 5 (fresh queue0)
      = Some (Some e, s') /\
      existsb is_kill (trace s') = false).
Proof.
  repeat split.
  all: try (eexists; split; [vm_compute; reflexivity|]; repeat split; vm_compute; reflexivity).
  all: try (eexists _, _; split; [vm_compute; reflexivity|]; repeat split; vm_compute; reflexivity).
Qed.

(** C5.  Against an API that never answers, with calls that take no
    time and exact sleeps, [waitVMM] with a timeout of 5 returns the
    timeout error after 601 polls and exactly 6 seconds, which is not
    within 5 seconds and one poll interval: the elapsed time is truncated
    to whole seconds and must exceed the timeout. *)
Theorem waitVMM_five_seconds_takes_six :
  exists cause s',
    waitVMM deaf 700 5 (fresh []) = Some (Some (ErrConnectTimeout 5 cause), s') /\
    clock s' - clock (fresh []) = 6 * Second /\
    ~ clock s' - clock (fresh []) <= 5 * Second + 10 * Millisecond /\
    List.length (filter is_describe (trace s')) = 601%nat.
Proof.
  eexists _, _. split; [vm_compute; reflexivity|].
  split; [vm_compute; reflexivity|].
  split; [vm_compute; intros H; now apply H|vm_compute; reflexivity].
Qed.

(** C2, counterexample.  The API never answers: the wait of [fcInit]
    fails, the pid 4242 is in the driver's memory, and the store has not
    been written. *)
Lemma fcInit_wait_fails_nothing_stored :
  exists cause s',
    fcInit deaf 1200 fcTimeout (fresh [])
    = Some (Some (ErrConnectTimeout fcTimeout cause), s') /\
    PID (info (fc s')) = 4242 /\
    existsb is_store (trace s') = false.
Proof.
  eexists _, _. split; [vm_compute; reflexivity|].
  split; vm_compute; reflexivity.
Qed.

(** C2, witness: [fcInit] in the calm world. *)
Lemma fcInit_stores_pid_after_wait_witness :
  (Z.to_nat (100 * (fcTimeout + 1)) < 1101)%nat /\
  cmd_Start calm (trace (fresh [])) = Ok 4242 /\
  exists r s',
    fcInit calm 1101 fcTimeout (fresh []) = Some (r, s') /\
    PID (info (fc s')) = 4242.
Proof.
  split; [vm_compute; lia|]. split; [reflexivity|].
  destruct (fcInit_stores_pid_after_wait calm 1101 fcTimeout (fresh []) 4242)
    as (r & s' & polls & H & P & _); [vm_compute; lia|reflexivity|].
  exists r, s'. split; [exact H|exact P].
Defined.

(** C3, counterexample.  A hotplug add with pool index 8, beyond the
    pool, is patched and rescanned like any other and returns success. *)
Lemma hotplug_index_8_accepted :
  fcDiskPoolSize <= 8 /\
  exists s',
    hotplugAddDevice calm (DevBlockDrivePtr (mkBlockDrive "/dev/loop9" "blk9" 8))
                     blockDev booted
    = Some (Returned None, s') /\
    trace s' = [PatchGuestDriveByID "drive_8" "/dev/loop9"; DescribeInstance;
                CreateSyncAction "BlockDeviceRescan" "drive_8"].
Proof.
  split; [vm_compute; discriminate|].
  eexists. split; vm_compute; reflexivity.
Qed.

(** C4, counterexample.  The process dies on SIGTERM: the first poll
    sees it gone, [fcEnd] returns success, and SIGKILL is never sent. *)
Lemma fcEnd_death_observed_no_sigkill :
  exists s',
    fcEnd obedient 400 booted = Some (None, s') /\
    trace s' = [Kill 4242 0; Kill 4242 SIGTERM; Kill 4242 0] /\
    existsb is_sigkill (trace s') = false.
Proof.
  eexists. split; [vm_compute; reflexivity|].
  split; vm_compute; reflexivity.
Qed.

(** C4, witness: [fcEnd] on a process that dies on SIGTERM. *)
Lemma fcEnd_live_process_witness :
  (300 < 301)%nat /\
  reply obedient (trace booted) (Kill 4242 0) = None /\
  reply obedient (trace booted ++ [Kill 4242 0]) (Kill 4242 SIGTERM) = None /\
  exists r s', fcEnd obedient 301 booted = Some (r, s').
Proof.
  split; [lia|]. split; [reflexivity|]. split; [reflexivity|].
  destruct (fcEnd_live_process obedient 301 booted)
    as (r & s' & n & H & _); [lia|reflexivity|reflexivity|].
  exists r, s'. exact H.
Defined.

(** C6, counterexample.  A hotplug add on a driver that is NotReady
    reaches the API: the drive is patched and rescanned, and readiness is
    still NotReady afterwards.  And two boots in a row dispatch the queue
    twice: the vsock of the queue is declared two times. *)
Lemma hotplug_reaches_api_while_not_ready :
  (state (fc (fresh [])) = notReady /\
   exists s',
     hotplugAddDevice calm (DevBlockDrivePtr drive3) blockDev (fresh [])
     = Some (Returned None, s') /\
     state (fc s') = notReady /\
     trace s' = [PatchGuestDriveByID "drive_3" "/dev/loop7"; DescribeInstance;
                 CreateSyncAction "BlockDeviceRescan" "drive_3"]) /\
  (exists s1 s2,
      startSandbox root_params calm 5 5 (fresh queue0) = Some (None, s1) /\
      startSandbox root_params calm 5 5 s1 = Some (None, s2) /\
      filter is_vsock (trace s2)
      = [PutGuestVsockByID "root" 3; PutGuestVsockByID "root" 3]).
Proof.
  split.
  - split; [reflexivity|].
    eexists. split; [vm_compute; reflexivity|].
    split; vm_compute; reflexivity.
  - eexists _, _. split; [vm_compute; reflexivity|].
    split; vm_compute; reflexivity.
Qed.

(** C6, witness: three devices are added to a fresh driver, whose queue
    is empty, and the driver is booted in the calm world. *)
Lemma pending_devices_queued_then_flushed_witness :
  state (fc (fresh [])) = notReady /\
  exists s1 s',
    (addDevice calm net0 (otherDev 2) ;;;
     addDevice calm blk0 blockDev ;;;
     addDevice calm vsock0 (otherDev 5)) (fresh []) = Some (None, s1) /\
    trace s1 = [] /\
    startSandbox root_params calm 5 5 s1 = Some (None, s') /\
    state (fc s') = vmReady /\
    exists before waits,
      trace s'
      = before
          ++ [PutGuestNetworkInterfaceByID "eth0" false "02:00:ca:fe:00:01"
                                           "tap0";
              PutGuestDriveByID "blk0" false false "/dev/loop3";
              PutGuestVsockByID "root" 3; CloseFd 11]
          ++ start_call :: waits.
Proof.
  split; [reflexivity|].
  destruct (pending_devices_queued_then_flushed root_params calm)
    as (_ & _ & _ & F & _).
  edestruct (F vsock0 (otherDev 5)
               (fresh [mkDevice net0 (otherDev 2); mkDevice blk0 blockDev])
               (fresh queue0) 5%nat 5)
    as (before & waits & T & _);
    [reflexivity|vm_compute; reflexivity|vm_compute; reflexivity|].
  exists (fresh queue0). eexists.
  split; [vm_compute; reflexivity|]. split; [reflexivity|].
  split; [vm_compute; reflexivity|]. split; [vm_compute; reflexivity|].
  exists before, waits. exact T.
Defined.

(** C7 on two runs: the slot of index 3 is drive_3; the rescan is issued
    in the Running state and not in the Starting state. *)
Lemma fcUpdateBlockDrive_patch_then_rescan_witness :
  (exists s',
      fcUpdateBlockDrive calm drive3 booted = Some (None, s') /\
      trace s' = [PatchGuestDriveByID "drive_3" "/dev/loop7"; DescribeInstance;
                  CreateSyncAction "BlockDeviceRescan" "drive_3"]) /\
  (exists s',
      fcUpdateBlockDrive starting drive3 booted = Some (None, s') /\
      trace s' = [PatchGuestDriveByID "drive_3" "/dev/loop7";
                  DescribeInstance]).
Proof.
  split.
  - destruct (fcUpdateBlockDrive_patch_then_rescan calm drive3 booted)
      as (_ & _ & r & s' & l & H & T & L & R & _).
    exists s'. split; [rewrite H, R; reflexivity|].
    rewrite T, L. reflexivity.
  - destruct (fcUpdateBlockDrive_patch_then_rescan starting drive3 booted)
      as (_ & _ & r & s' & l & H & T & L & R & _).
    exists s'. split; [rewrite H, R; reflexivity|].
    rewrite T, L. reflexivity.
Defined.

(** C8, witness: the command line of a boot in the calm world. *)
Lemma kernel_command_line_order_witness :
  cmdline root_params cfg0
  = "console=hvc0 root=/dev/vda1 pci=off reboot=k panic=1 iommu=off 8250.nr_uarts=0 net.ifnames=0 random.trust_cpu=on acpi=off" /\
  exists s',
    startSandbox root_params calm 5 5 (fresh queue0) = Some (None, s') /\
    exists before rest,
      trace s'
      = before ++ PutGuestBootSource "/usr/share/kata/vmlinux"
                    (cmdline root_params cfg0) :: rest /\
      existsb is_boot_source (before ++ rest) = false.
Proof.
  destruct (kernel_command_line_order root_params calm) as (E & F).
  split; [rewrite E; reflexivity|].
  eexists. split; [vm_compute; reflexivity|].
  edestruct (F 5%nat 5 (fresh queue0))
    as (before & kernelPath & rest & K & T & B); [vm_compute; reflexivity|].
  injection K as <-.
  exists before, rest. split; [exact T|exact B].
Defined.

(** The disk pool in the calm world. *)
Lemma disk_pool_declared_before_start_witness :
  (exists s' paths,
      createDiskPool calm booted = Some (None, s') /\
      List.length paths = 8%nat /\
      trace s' = flat_map pool_slot (combine pool_indices paths)) /\
  (exists s' before pool rest,
      startSandbox root_params calm 5 5 (fresh queue0) = Some (None, s') /\
      trace s' = before ++ pool ++ rest /\
      existsb is_action (before ++ pool) = false /\
      In start_call rest).
Proof.
  destruct (disk_pool_declared_before_start root_params calm)
    as (P & _ & _ & F).
  split.
  - eexists. edestruct (P booted) as (paths & L & _ & T);
      [vm_compute; reflexivity|].
    exists paths. split; [vm_compute; reflexivity|]. split; [exact L|exact T].
  - eexists. edestruct (F 5%nat 5 (fresh queue0))
      as (before & sp & rp & sp' & pool & rest & _ & _ & _ & T & A & I);
      [vm_compute; reflexivity|].
    exists before, pool, rest.
    split; [vm_compute; reflexivity|]. repeat split; assumption.
Defined.

(** C9.  [createDiskPool] run against an allocator that fails from
    its fourth request on returns that error with the three drives drive_0
    to drive_2 declared.  [startSandbox] in that world ignores the error:
    the boot goes on, the start action is issued and success is returned
    with three pool drives instead of eight, and no cleanup.  With an
    allocator that always fails the boot succeeds with no pool drive. *)
Theorem boot_with_partial_disk_pool :
  (exists e s',
      createDiskPool scratch_runs_out booted = Some (Some e, s') /\
      filter is_pool_drive (trace s')
      = [PutGuestDriveByID "drive_0" false false "/run/vc/raw";
         PutGuestDriveByID "drive_1" false false "/run/vc/raw";
         PutGuestDriveByID "drive_2" false false "/run/vc/raw"]) /\
  (exists s',
      startSandbox root_params scratch_runs_out 1200 5 (fresh queue0)
      = Some (None, s') /\
      state (fc s') = vmReady /\
      filter is_pool_drive (trace s')
      = [PutGuestDriveByID "drive_0" false false "/run/vc/raw";
         PutGuestDriveByID "drive_1" false false "/run/vc/raw";
         PutGuestDriveByID "drive_2" false false "/run/vc/raw"] /\
      existsb is_start (trace s') = true /\
      existsb is_kill (trace s') = false) /\
  (exists s',
      startSandbox root_params no_scratch 1200 5 (fresh queue0)
      = Some (None, s') /\
      state (fc s') = vmReady /\
      filter is_pool_drive (trace s') = [] /\
      existsb is_start (trace s') = true).
Proof.
  split; [|split].
  - eexists _, _. split; vm_compute; reflexivity.
  - eexists. split; [vm_compute; reflexivity|].
    repeat split; vm_compute; reflexivity.
  - eexists. split; [vm_compute; reflexivity|].
    repeat split; vm_compute; reflexivity.
Qed.

(** * The rest of the driver *)

(** *** Decimal numbers *)

Lemma of_uint_acc_le d :
  forall acc, (acc <= Pos.of_uint_acc d acc)%positive.
Proof.
  induction d as [|d IH|d IH|d IH|d IH|d IH|d IH|d IH|d IH|d IH|d IH];
    intros acc; cbn [Pos.of_uint_acc]; [lia|..];
    (etransitivity; [|apply IH]); lia.
Qed.

Lemma ParseUint_loop_acc cutoff maxVal d :
  forall acc,
    maxVal < cutoff ->
    Z.pos (Pos.of_uint_acc d acc) <= maxVal ->
    ParseUint_loop cutoff maxVal (NilEmpty.string_of_uint d) (Z.pos acc)
    = inr (Z.pos (Pos.of_uint_acc d acc)).
Proof.
  induction d as [|d IH|d IH|d IH|d IH|d IH|d IH|d IH|d IH|d IH|d IH];
    intros acc C B; cbn [Pos.of_uint_acc NilEmpty.string_of_uint] in *;
    [reflexivity|..];
    (cbn [ParseUint_loop]; 
     match goal with
     | |- context [Z.of_nat (nat_of_ascii ?c)] =>
         let v := eval vm_compute in (Z.of_nat (nat_of_ascii c)) in
         change (Z.of_nat (nat_of_ascii c)) with v
     end;
     cbn [Z.leb Z.compare Pos.compare Pos.compare_cont andb];
     match goal with
     | H : Z.pos (Pos.of_uint_acc d ?a) <= _ |- _ =>
         pose proof (of_uint_acc_le d a) as M
     end;

     destruct (Z.leb_spec cutoff (Z.pos acc)); [lia|];
     match goal with
     | |- context [maxVal <? ?n1] => destruct (Z.ltb_spec maxVal n1); [lia|]
     end;
     match goal with
     | |- ParseUint_loop _ _ _ ?n1 = inr (Z.pos (Pos.of_uint_acc d ?a)) =>
         replace n1 with (Z.pos a) by lia
     end;
     apply IH; assumption).
Qed.

Lemma ParseUint_loop_digits cutoff maxVal d :
  maxVal < cutoff ->
  Z.of_N (Pos.of_uint d) <= maxVal ->
  ParseUint_loop cutoff maxVal (NilEmpty.string_of_uint d) 0
  = inr (Z.of_N (Pos.of_uint d)).
Proof.
  intros C.
  induction d as [|d IH|d IH|d IH|d IH|d IH|d IH|d IH|d IH|d IH|d IH];
    intros B; cbn [Pos.of_uint NilEmpty.string_of_uint Z.of_N] in *;
    [reflexivity|..];
    (cbn [ParseUint_loop];
     match goal with
     | |- context [Z.of_nat (nat_of_ascii ?c)] =>
         let v := eval vm_compute in (Z.of_nat (nat_of_ascii c)) in
         change (Z.of_nat (nat_of_ascii c)) with v
     end;
     cbn [Z.leb Z.compare Pos.compare Pos.compare_cont andb];
     pose proof (N2Z.is_nonneg (Pos.of_uint d)) as P;
     destruct (Z.leb_spec cutoff 0); [lia|];
     cbn [Z.mul Z.add Z.sub Z.opp Z.pos_sub Pos.add Pos.succ Pos.pred_double
          Z.succ_double Z.pred_double Z.double]).
  - destruct (Z.ltb_spec maxVal 0); [lia|]. exact (IH B).
  - pose proof (of_uint_acc_le d 1).
    destruct (Z.ltb_spec maxVal 1); [lia|]. now apply ParseUint_loop_acc.
  - pose proof (of_uint_acc_le d 2).
    destruct (Z.ltb_spec maxVal 2); [lia|]. now apply ParseUint_loop_acc.
  - pose proof (of_uint_acc_le d 3).
    destruct (Z.ltb_spec maxVal 3); [lia|]. now apply ParseUint_loop_acc.
  - pose proof (of_uint_acc_le d 4).
    destruct (Z.ltb_spec maxVal 4); [lia|]. now apply ParseUint_loop_acc.
  - pose proof (of_uint_acc_le d 5).
    destruct (Z.ltb_spec maxVal 5); [lia|]. now apply ParseUint_loop_acc.
  - pose proof (of_uint_acc_le d 6).
    destruct (Z.ltb_spec maxVal 6); [lia|]. now apply ParseUint_loop_acc.
  - pose proof (of_uint_acc_le d 7).
    destruct (Z.ltb_spec maxVal 7); [lia|]. now apply ParseUint_loop_acc.
  - pose proof (of_uint_acc_le d 8).
    destruct (Z.ltb_spec maxVal 8); [lia|]. now apply ParseUint_loop_acc.
  - pose proof (of_uint_acc_le d 9).
    destruct (Z.ltb_spec maxVal 9); [lia|]. now apply ParseUint_loop_acc.
Qed.

Lemma string_of_uint_head d :
  exists c s, NilZero.string_of_uint d = String c s /\
              Ascii.eqb c "+" = false /\ Ascii.eqb c "-" = false.
Proof.
  destruct d; unfold NilZero.string_of_uint;
    cbn [NilEmpty.string_of_uint]; eexists _, _; repeat split.
Qed.

Lemma ParseUint_string_of_uint d :
  Z.of_uint d <= 2 ^ 32 - 1 ->
  ParseUint (NilZero.string_of_uint d) 32 = inr (Z.of_uint d).
Proof.
  intros B. unfold Z.of_uint in *.
  assert (ParseUint (NilZero.string_of_uint d) 32
          = ParseUint_loop (maxUint64 / 10 + 1) (2 ^ 32 - 1)
                           (NilZero.string_of_uint d) 0) as ->.
  { destruct (string_of_uint_head d) as (c & s & -> & _). reflexivity. }
  destruct d as [|d|d|d|d|d|d|d|d|d|d];
    [reflexivity|..];
    (apply ParseUint_loop_digits; [reflexivity|assumption]).
Qed.

Lemma ParseInt_string_of_int d :
  - 2 ^ 31 <= Z.of_int d < 2 ^ 31 ->
  ParseInt (NilZero.string_of_int d) 32 = inr (Z.of_int d).
Proof.
  intros B. destruct d as [d|d]; cbn [Z.of_int NilZero.string_of_int] in *.
  - destruct (string_of_uint_head d) as (c & s & E & P & M).
    unfold ParseInt. rewrite E, P, M. cbn [orb negb andb]. rewrite <- E.
    rewrite ParseUint_string_of_uint by lia.
    destruct (Z.leb_spec (2 ^ (32 - 1)) (Z.of_uint d)); [|reflexivity].
    change (2 ^ (32 - 1)) with (2 ^ 31) in *. lia.
  - unfold ParseInt.
    change (Ascii.eqb "-" "-") with true.
    change (Ascii.eqb "-" "+") with false. cbn [orb negb andb].
    assert (0 <= Z.of_uint d) by (unfold Z.of_uint; lia).
    rewrite ParseUint_string_of_uint by lia.
    destruct (Z.ltb_spec (2 ^ (32 - 1)) (Z.of_uint d)); [|reflexivity].
    change (2 ^ (32 - 1)) with (2 ^ 31) in *. lia.
Qed.

(** *** The round trip of a vCPU index *)

Theorem ParseInt_Itoa (i : Z) :
  - 2 ^ 31 <= i < 2 ^ 31 -> ParseInt (Itoa i) 32 = inr i.
Proof.
  intros B. unfold Itoa.
  rewrite ParseInt_string_of_int; rewrite DecimalZ.of_to; [reflexivity|exact B].
Qed.

(** *** Splitting a command name *)

Lemma index_no_f s :
  all_chars not_f s = true -> String.index 0 "fc_vcpu" s = None.
Proof.
  induction s as [|c s IH]; intros H; [reflexivity|].
  cbn [all_chars] in H. apply andb_prop in H as [Hc Hs].
  cbn [String.index String.prefix].
  destruct (ascii_dec "f" c) as [<-|_]; [discriminate|].
  now rewrite (IH Hs).
Qed.

Lemma string_of_uint_no_f d : all_chars not_f (NilEmpty.string_of_uint d) = true.
Proof.
  induction d; cbn [NilEmpty.string_of_uint all_chars]; auto.
Qed.

Lemma Itoa_no_f i : all_chars not_f (Itoa i) = true.
Proof.
  unfold Itoa.
  destruct (Z.to_int i) as [d|d]; cbn [NilZero.string_of_int all_chars];
    destruct d; unfold NilZero.string_of_uint; try reflexivity;
    apply (string_of_uint_no_f (_ d)) || 
    (cbn [NilEmpty.string_of_uint all_chars]; apply string_of_uint_no_f).
Qed.

Lemma prefix_nil s : String.prefix "" s = true.
Proof. now destruct s. Qed.

Lemma substring_all s : substring 0 (String.length s) s = s.
Proof. induction s; cbn; congruence. Qed.

Lemma genSplit_nonempty fuel s sep : genSplit fuel s sep <> [].
Proof.
  destruct fuel; cbn [genSplit]; [discriminate|].
  destruct (String.index 0 sep s); discriminate.
Qed.

Lemma genSplit_step fuel s sep :
  genSplit (S fuel) s sep
  = match String.index 0 sep s with
    | None => [s]
    | Some m =>
        let cut := (m + String.length sep)%nat in
        substring 0 cut s
          :: genSplit fuel (substring cut (String.length s - cut) s) sep
    end.
Proof. reflexivity. Qed.

Lemma index_vcpu_head t : String.index 0 "fc_vcpu" ("fc_vcpu" +++ t) = Some 0%nat.
Proof.
  cbn [String.append String.index String.prefix].
  repeat match goal with
         | |- context [ascii_dec ?a ?a] =>
             destruct (ascii_dec a a) as [_|N]; [|now elim N]
         end.
  now rewrite prefix_nil.
Qed.

Lemma SplitAfter_vcpu_head t :
  SplitAfter ("fc_vcpu" +++ t) "fc_vcpu"
  = "fc_vcpu" :: genSplit (6 + String.length t) t "fc_vcpu".
Proof.
  unfold SplitAfter.
  change (String.length ("fc_vcpu" +++ t)) with (S (6 + String.length t)).
  rewrite genSplit_step, index_vcpu_head. cbv zeta.
  change (0 + String.length "fc_vcpu")%nat with 7%nat.
  assert (substring 0 7 ("fc_vcpu" +++ t) = "fc_vcpu") as ->
    by (cbn; now destruct t).
  assert (substring 7 (String.length ("fc_vcpu" +++ t) - 7) ("fc_vcpu" +++ t)
          = t)
    as -> by (cbn [String.append String.length Nat.add Nat.sub substring];
              rewrite Nat.sub_0_r; apply substring_all).
  reflexivity.
Qed.

Lemma SplitAfter_vcpu_once t :
  String.index 0 "fc_vcpu" t = None ->
  SplitAfter ("fc_vcpu" +++ t) "fc_vcpu" = ["fc_vcpu"; t].
Proof.
  intros H. rewrite SplitAfter_vcpu_head.
  change (6 + String.length t)%nat with (S (5 + String.length t)).
  now rewrite genSplit_step, H.
Qed.

Lemma SplitAfter_vcpu_again t :
  String.index 0 "fc_vcpu" t <> None ->
  exists a b c rest, SplitAfter ("fc_vcpu" +++ t) "fc_vcpu" = a :: b :: c :: rest.
Proof.
  intros H. rewrite SplitAfter_vcpu_head.
  change (6 + String.length t)%nat with (S (5 + String.length t)).
  rewrite genSplit_step.
  destruct (String.index 0 "fc_vcpu" t) as [m|]; [|congruence]. cbv zeta.
  match goal with
  | |- context [genSplit ?f ?s ?sep] =>
      pose proof (genSplit_nonempty f s sep) as N;
      destruct (genSplit f s sep) as [|c rest]; [congruence|]
  end.
  now eexists _, _, _, _.
Qed.

Lemma HasPrefix_vcpu t : HasPrefix ("fc_vcpu" +++ t) "fc_vcpu" = true.
Proof.
  unfold HasPrefix. cbn [String.append String.prefix].
  repeat match goal with
         | |- context [ascii_dec ?a ?a] =>
             destruct (ascii_dec a a) as [_|N]; [|now elim N]
         end.
  apply prefix_nil.
Qed.

(** *** ParseInt stays within 32 bits *)

Lemma ParseUint_loop_ge cutoff maxVal s :
  forall n v, 0 <= n -> ParseUint_loop cutoff maxVal s n = inr v -> n <= v.
Proof.
  induction s as [|c s IH]; intros n v N H; cbn [ParseUint_loop] in H.
  - injection H as <-. lia.
  - destruct (_ && _) eqn:D; [|discriminate].
    apply andb_prop in D as [D1 D2]. apply Z.leb_le in D1.
    destruct (cutoff <=? n); [discriminate|].
    destruct (maxVal <? _); [discriminate|].
    apply IH in H; lia.
Qed.

Lemma ParseInt_range s v :
  ParseInt s 32 = inr v -> - 2 ^ 31 <= v < 2 ^ 31.
Proof.
  unfold ParseInt. destruct s as [|c s]; [discriminate|].
  set (body := if (Ascii.eqb c "+" || Ascii.eqb c "-")%bool then s else _).
  destruct (ParseUint body 32) as [[|]|un] eqn:P; [discriminate| |].
  - change (2 ^ (32 - 1)) with 2147483648.
    change (2 ^ 32 - 1) with 4294967295.
    destruct (Ascii.eqb c "-"); cbn; discriminate.
  - assert (0 <= un) as U.
    { unfold ParseUint in P. destruct body; [discriminate|].
      apply ParseUint_loop_ge in P; lia. }
    change (2 ^ (32 - 1)) with (2 ^ 31).
    destruct (Ascii.eqb c "-"); cbn [negb andb].
    + destruct (Z.ltb_spec (2 ^ 31) un); [discriminate|].
      intros [= <-]. lia.
    + destruct (Z.leb_spec (2 ^ 31) un); [discriminate|].
      intros [= <-]. lia.
Qed.

(** *** getThreadIDs *)

Lemma getThreadIDs_loop_app good bs :
  vcpu_threads good bs ->
  forall rest m,
    getThreadIDs_loop (good ++ rest) m = getThreadIDs_loop rest (rev bs ++ m).
Proof.
  induction 1 as [|tid comm cs bs P _ IH|tid i cs bs R _ IH]; intros rest m.
  - reflexivity.
  - cbn [app getThreadIDs_loop proc_Comm]. rewrite P. cbn [negb]. apply IH.
  - cbn [app getThreadIDs_loop proc_Comm proc_PID].
    unfold vcpu_comm. rewrite HasPrefix_vcpu. cbn [negb].
    rewrite SplitAfter_vcpu_once by (apply index_no_f, Itoa_no_f).
    rewrite ParseInt_Itoa by exact R.
    rewrite IH. unfold vcpus_set. cbn [rev]. now rewrite <- app_assoc.
Qed.

Lemma vcpus_get_app m1 m2 i :
  vcpus_get (m1 ++ m2) i
  = match vcpus_get m1 i with Some v => Some v | None => vcpus_get m2 i end.
Proof.
  induction m1 as [|[k v] m1 IH]; cbn [app vcpus_get]; [reflexivity|].
  destruct (k =? i); [reflexivity|exact IH].
Qed.

Lemma vcpus_get_absent m i : ~ In i (map fst m) -> vcpus_get m i = None.
Proof.
  induction m as [|[k v] m IH]; cbn [map fst vcpus_get In]; intros N;
    [reflexivity|].
  destruct (Z.eqb_spec k i); [tauto|]. apply IH. tauto.
Qed.

(** X1.  When the process can be listed and every thread has a readable
    command name that either does not start with fc_vcpu or is fc_vcpu
    followed by the decimal numeral of an index that fits 32 bits,
    [getThreadIDs] returns without error, and the map it returns binds each
    such index to the id of the last thread that carries it, and binds no
    other index. *)
Theorem getThreadIDs_maps_vcpus newProc children f cs bs :
  newProc (PID (info f)) = None ->
  children (PID (info f)) = Ok cs ->
  vcpu_threads cs bs ->
  exists m,
    getThreadIDs newProc children f = (m, None) /\
    (forall before i tid later,
        bs = before ++ (i, tid) :: later -> ~ In i (map fst later) ->
        vcpus_get m i = Some tid) /\
    (forall i, ~ In i (map fst bs) -> vcpus_get m i = None).
Proof.
  intros N C V. exists (rev bs). unfold getThreadIDs. rewrite N, C.
  pose proof (getThreadIDs_loop_app cs bs V [] []) as L.
  rewrite !app_nil_r in L. split; [exact L|]. split.
  - intros before i tid later -> A.
    rewrite rev_app_distr. cbn [rev]. rewrite <- app_assoc, vcpus_get_app.
    rewrite vcpus_get_absent
      by (rewrite map_rev, <- in_rev; exact A).
    cbn [app vcpus_get]. now rewrite Z.eqb_refl.
  - intros i A. apply vcpus_get_absent. now rewrite map_rev, <- in_rev.
Qed.

(** X2.  [getThreadIDs] stops at the first thread whose command name
    cannot be read, or starts with fc_vcpu and goes on with something
    [strconv.ParseInt] does not accept as a 32-bit integer, or holds fc_vcpu
    a second time.  It returns the error of that case together with the map
    of the vCPU threads before it; the threads after it are not looked at. *)
Theorem getThreadIDs_aborts newProc children f good bs bad rest :
  newProc (PID (info f)) = None ->
  children (PID (info f)) = Ok (good ++ bad :: rest) ->
  vcpu_threads good bs ->
  ((exists e, proc_Comm bad = Err e) ->
   getThreadIDs newProc children f = (rev bs, Some InvalidThreadInfo)) /\
  (forall suffix err,
      proc_Comm bad = Ok ("fc_vcpu" +++ suffix) ->
      String.index 0 "fc_vcpu" suffix = None ->
      ParseInt suffix 32 = inl err ->
      getThreadIDs newProc children f
      = (rev bs, Some (InvalidThreadInfoWrap err ("fc_vcpu" +++ suffix)))) /\
  (forall suffix,
      proc_Comm bad = Ok ("fc_vcpu" +++ suffix) ->
      String.index 0 "fc_vcpu" suffix <> None ->
      getThreadIDs newProc children f
      = (rev bs, Some (InvalidThreadInfoOf ("fc_vcpu" +++ suffix)))).
Proof.
  intros N C V. unfold getThreadIDs. rewrite N, C.
  rewrite (getThreadIDs_loop_app good bs V), app_nil_r.
  cbn [getThreadIDs_loop]. repeat split.
  - intros [e ->]. reflexivity.
  - intros suffix err -> I P. rewrite HasPrefix_vcpu. cbn [negb].
    now rewrite SplitAfter_vcpu_once, P.
  - intros suffix -> I. rewrite HasPrefix_vcpu. cbn [negb].
    destruct (SplitAfter_vcpu_again suffix I) as (a & b & c & l & ->).
    reflexivity.
Qed.

Lemma prefix_append p :
  forall s, String.prefix p s = true -> exists t, s = p +++ t.
Proof.
  induction p as [|a p IH]; intros s H; [now exists s|].
  destruct s as [|b s]; [discriminate|]. cbn [String.prefix] in H.
  destruct (ascii_dec a b) as [->|]; [|discriminate].
  destruct (IH s H) as (t & ->). now exists t.
Qed.

Lemma genSplit_single fuel s sep b : genSplit fuel s sep = [b] -> b = s.
Proof.
  destruct fuel; cbn [genSplit]; [now intros [= ->]|].
  destruct (String.index 0 sep s); [|now intros [= ->]].
  intros [= _ E]. now apply genSplit_nonempty in E.
Qed.

Lemma getThreadIDs_loop_sound cs :
  forall m0 m e,
    getThreadIDs_loop cs m0 = (m, e) ->
    forall k v,
      In (k, v) m ->
      In (k, v) m0 \/
      exists c suffix,
        In c cs /\ proc_PID c = v /\
        proc_Comm c = Ok ("fc_vcpu" +++ suffix) /\
        ParseInt suffix 32 = inr k.
Proof.
  induction cs as [|c cs IH]; intros m0 m e H k v I.
  - injection H as <- <-. now left.
  - cbn [getThreadIDs_loop] in H.
    destruct (proc_Comm c) as [comm|err] eqn:Cm;
      [|injection H as <- <-; now left].
    destruct (HasPrefix comm "fc_vcpu") eqn:P; cbn [negb] in H.
    + apply prefix_append in P as (t & ->).
      rewrite SplitAfter_vcpu_head in H.
      destruct (genSplit _ t "fc_vcpu") as [|b [|x l]] eqn:G;
        try (injection H as <- <-; now left).
      apply genSplit_single in G. subst b.
      destruct (ParseInt t 32) as [err|cpuID] eqn:Q;
        [injection H as <- <-; now left|].
      destruct (IH _ _ _ H k v I) as [[E|O]|(c' & sfx & Ic & Rest)].
      * injection E as <- <-. right. exists c, t.
        repeat split; auto. now left.
      * now left.
      * right. exists c', sfx. split; [now right|exact Rest].
    + destruct (IH _ _ _ H k v I) as [O|(c' & sfx & Ic & Rest)];
        [now left|].
      right. exists c', sfx. split; [now right|exact Rest].
Qed.

(** X3.  Whatever the outcome of [getThreadIDs], every binding of the
    map it returns comes from a thread of the listing: the thread id is
    that thread's, its command name is fc_vcpu followed by a suffix that
    [strconv.ParseInt] reads as the bound index, and the index fits 32
    bits.  No other thread leaves a trace in the map. *)
Theorem getThreadIDs_sound newProc children f m e k v :
  getThreadIDs newProc children f = (m, e) ->
  In (k, v) m ->
  - 2 ^ 31 <= k < 2 ^ 31 /\
  exists cs c suffix,
    children (PID (info f)) = Ok cs /\ In c cs /\ proc_PID c = v /\
    proc_Comm c = Ok ("fc_vcpu" +++ suffix) /\
    ParseInt suffix 32 = inr k.
Proof.
  unfold getThreadIDs. intros H I.
  destruct (newProc _); [injection H as <- <-; destruct I|].
  destruct (children _) as [cs|err]; [|injection H as <- <-; destruct I].
  destruct (getThreadIDs_loop_sound cs [] m e H k v I)
    as [[]|(c & sfx & Ic & Pv & Cm & Q)].
  split; [exact (ParseInt_range _ _ Q)|].
  exists cs, c, sfx. auto.
Qed.

Section Outcomes.

Variable root : list Param.
Variable W : World.

(** *** waitVMM *)

Lemma waitVMM_loop_rounds timeout t0 fuel :
  forall s r s',
    waitVMM_loop W fuel timeout t0 s = Some (r, s') ->
    t0 <= clock s ->
    exists n,
      trace s' = trace s ++ poll_rounds n /\
      (n = 0%nat \/
       (Z.of_nat n - 1) * (10 * Millisecond) + (clock s - t0)
       < (timeout + 1) * Second).
Proof.
  induction fuel as [|fuel IH]; intros s r s' H T0; [discriminate|].
  cbn [waitVMM_loop] in H. rewrite bind_client in H.
  unfold bind at 1, perform at 1 in H; cbn [trace fc clock after] in H.
  destruct (api_DescribeInstance W (trace s)) as [st|err].
  - injection H as <- <-. exists 0%nat. split; [reflexivity|now left].
  - unfold bind at 1, time_Since at 1 in H; cbn [trace fc clock after] in H.
    pose proof (cost_nonneg W (trace s) DescribeInstance) as C1.
    destruct (Seconds_int _ >? timeout) eqn:T.
    + injection H as <- <-. exists 0%nat. split; [reflexivity|now left].
    + unfold bind at 1, time_Sleep, perform in H;
        cbn [trace fc clock after] in H.
      pose proof (cost_Sleep W (trace s ++ [DescribeInstance])
                             (10 * Millisecond)) as C2.
      assert (~ (timeout + 1) * Second
                <= clock s + cost W (trace s) DescribeInstance - t0) as NT.
      { intros G. apply Seconds_int_gt in G; [congruence|lia]. }
      apply IH in H as (n & Ht & B); [|cbn [clock]; unfold Millisecond in *; lia].
      cbn [trace fc clock after] in Ht, B.
      exists (S n). split.
      * rewrite Ht, <- !app_assoc. reflexivity.
      * right. destruct B as [->|B]; unfold Millisecond, Second in *; lia.
Qed.

(** X4.  [waitVMM] with a timeout that is not negative returns, given
    fuel for a hundred polls per second of timeout and one to spare, and
    its calls are some number [n] of polls each followed by a 10 ms sleep,
    then a last poll; [n] is at most a hundred per second of
    [timeout + 1], whatever the API answers and however long it takes. *)
Theorem waitVMM_poll_bound fuel timeout s :
  0 <= timeout ->
  (Z.to_nat (100 * (timeout + 1)) < fuel)%nat ->
  exists r s' n,
    waitVMM W fuel timeout s = Some (r, s') /\
    trace s' = trace s ++ poll_rounds n /\
    Z.of_nat n <= 100 * (timeout + 1).
Proof.
  intros N F.
  destruct (waitVMM_total W fuel timeout s F) as (r & s' & H).
  exists r, s'. pose proof H as H0. unfold waitVMM in H.
  destruct (Z.ltb_spec timeout 0); [lia|].
  unfold bind, time_Now in H.
  apply waitVMM_loop_rounds in H as (n & Ht & B); [|lia].
  exists n. split; [exact H0|]. split; [exact Ht|].
  destruct B as [->|B]; unfold Millisecond, Second in *; lia.
Qed.


(** *** fcEnd *)

Lemma kill_poll_end_call pid l :
  Forall (kill_poll pid) l -> Forall (end_call pid) l.
Proof.
  apply Forall_impl. intros c [->| ->]; unfold end_call; auto.
Qed.

Lemma fcEnd_frame fuel s r s' :
  fcEnd W fuel s = Some (r, s') ->
  fc s' = fc s /\ clock s <= clock s' /\
  exists l, trace s' = trace s ++ Kill (PID (info (fc s))) 0 :: l /\
            Forall (end_call (PID (info (fc s)))) l.
Proof.
  intros H. unfold fcEnd in H.
  unfold bind at 1, get_fc at 1 in H. set (pid := PID (info (fc s))) in *.
  unfold bind at 1 in H. rewrite api_run in H.
  pose proof (cost_nonneg W (trace s) (Kill pid 0)) as C1.
  destruct (reply W (trace s) (Kill pid 0)) as [e|].
  { injection H as <- <-. cbn [trace fc clock after].
    split; [reflexivity|]. split; [lia|]. exists []. split; auto. }
  unfold bind at 1 in H. rewrite api_run in H. cbn [trace fc clock after] in H.
  pose proof (cost_nonneg W (trace s ++ [Kill pid 0]) (Kill pid SIGTERM)) as C2.
  destruct (reply W _ (Kill pid SIGTERM)) as [e|].
  { injection H as <- <-. cbn [trace fc clock after].
    split; [reflexivity|]. split; [lia|]. exists [Kill pid SIGTERM].
    split; [now rewrite <- app_assoc|].
    constructor; [unfold end_call; auto|constructor]. }
  unfold bind at 1, time_Now at 1 in H; cbn [trace fc clock after] in H.
  unfold bind at 1 in H.
  destruct (fcEnd_loop W fuel pid _ _) as [[v s1]|] eqn:L; [|discriminate].
  apply fcEnd_loop_spec in L as (l0 & Ht & Hl & Hf & Hc & _).
  cbn [trace fc clock after] in *.
  apply kill_poll_end_call in Hl.
  assert (Forall (end_call pid) (Kill pid SIGTERM :: l0 ++ [Kill pid 0])) as E1.
  { constructor; [unfold end_call; auto|]. apply Forall_app. split; [exact Hl|].
    constructor; [unfold end_call; auto|constructor]. }
  destruct v as [v|].
  - injection H as <- <-. split; [exact Hf|]. split; [lia|].
    eexists. split; [|exact E1]. rewrite Ht, <- !app_assoc. reflexivity.
  - rewrite api_run in H. injection H as <- <-. cbn [trace fc clock after].
    pose proof (cost_nonneg W (trace s1) (Kill pid SIGKILL)).
    split; [exact Hf|]. split; [lia|].
    exists (Kill pid SIGTERM :: (l0 ++ [Kill pid 0]) ++ [Kill pid SIGKILL]).
    split; [rewrite Ht, <- !app_assoc; reflexivity|].
    constructor; [unfold end_call; auto|]. apply Forall_app. split.
    + apply Forall_app. split; [exact Hl|].
      constructor; [unfold end_call; auto|constructor].
    + constructor; [unfold end_call; auto|constructor].
Qed.

(** X6.  [stopSandbox], given fuel for the grace period, returns.  Its
    first call is the probe of the recorded process; every other call is a
    signal 0, SIGTERM or SIGKILL to that same process or a 50 ms sleep; and
    the driver object is left as it was: readiness is not lowered, the
    recorded pid and the queue stay. *)
Theorem stopSandbox_leaves_driver fuel s :
  (300 < fuel)%nat ->
  exists r s' l,
    stopSandbox W fuel s = Some (r, s') /\
    fc s' = fc s /\
    trace s' = trace s ++ Kill (PID (info (fc s))) 0 :: l /\
    Forall (end_call (PID (info (fc s)))) l.
Proof.
  intros F. unfold stopSandbox.
  destruct (fcEnd_total W fuel s F) as (r & s' & H).
  destruct (fcEnd_frame _ _ _ _ H) as (Hf & _ & l & Ht & Hl).
  exists r, s', l. auto.
Qed.

(** X7.  The two early exits of [fcEnd], for any fuel.  When the probe
    of the recorded process fails, the process is taken to be gone: success
    is returned and the probe is the only call.  When the probe succeeds and
    the SIGTERM cannot be sent, that error is returned at once: there is no
    poll, no sleep and no SIGKILL. *)
Theorem fcEnd_early_exits fuel s :
  let pid := PID (info (fc s)) in
  (forall e,
      reply W (trace s) (Kill pid 0) = Some e ->
      exists s', fcEnd W fuel s = Some (None, s') /\
                 trace s' = trace s ++ [Kill pid 0] /\ fc s' = fc s) /\
  (forall e,
      reply W (trace s) (Kill pid 0) = None ->
      reply W (trace s ++ [Kill pid 0]) (Kill pid SIGTERM) = Some e ->
      exists s', fcEnd W fuel s = Some (Some e, s') /\
                 trace s' = trace s ++ [Kill pid 0; Kill pid SIGTERM] /\
                 fc s' = fc s).
Proof.
  intros pid. split.
  - intros e K. unfold fcEnd. unfold bind at 1, get_fc at 1. fold pid.
    unfold bind at 1. rewrite api_run, K. eexists. split; [reflexivity|].
    split; reflexivity.
  - intros e K0 K15. unfold fcEnd. unfold bind at 1, get_fc at 1. fold pid.
    unfold bind at 1. rewrite api_run, K0.
    unfold bind at 1. rewrite api_run. cbn [trace fc clock after].
    rewrite K15. eexists. split; [reflexivity|]. cbn [trace fc clock after].
    split; [now rewrite <- app_assoc|reflexivity].
Qed.

(** *** createDiskPool *)

Lemma createDiskPool_from_fails k :
  forall i s e s',
    createDiskPool_from W k i s = Some (Some e, s') ->
    exists paths last,
      (List.length paths < k)%nat /\
      declared W (trace s) i paths /\
      let made :=
        flat_map pool_slot (combine (zseq i (List.length paths)) paths) in
      pool_failure W (trace s ++ made) (i + Z.of_nat (List.length paths))
      = Some (last, e) /\
      trace s' = trace s ++ made ++ last.
Proof.
  induction k as [|k IH]; intros i s e s' H; [discriminate|].
  cbn [createDiskPool_from] in H.
  unfold bind at 1, perform at 1 in H; cbn [trace fc clock after] in H.
  assert (forall last,
             pool_failure W (trace s) i = Some (last, e) ->
             trace s' = trace s ++ last ->
             exists paths last,
               (List.length paths < S k)%nat /\
               declared W (trace s) i paths /\
               let made :=
                 flat_map pool_slot (combine (zseq i (List.length paths)) paths)
               in
               pool_failure W (trace s ++ made)
                            (i + Z.of_nat (List.length paths))
               = Some (last, e) /\
               trace s' = trace s ++ made ++ last) as Stop.
  { intros last F T. exists [], last. cbn [List.length zseq combine flat_map].
    cbv zeta. rewrite app_nil_r, Z.add_0_r. cbn [app].
    split; [lia|]. split; [constructor|]. split; assumption. }
  unfold pool_failure in Stop.
  destruct (store_Raw W (trace s)) as [url|e0] eqn:R.
  2: { injection H as <- <-. apply (Stop [StoreRaw ""]); reflexivity. }
  destruct (url_Parse W url) as [path|e0] eqn:U.
  2: { injection H as <- <-. apply (Stop [StoreRaw ""]); reflexivity. }
  rewrite bind_client in H. unfold bind at 1 in H. rewrite api_run in H.
  cbn [trace fc clock after] in H.
  destruct (reply W _ _) as [e0|] eqn:A.
  - injection H as <- <-. eapply Stop; [reflexivity|].
    cbn [trace after]. now rewrite <- app_assoc.
  - clear Stop.
    apply IH in H as (paths & last & Hn & Hd & Hf & Ht).
    cbn [trace fc clock after] in *.
    exists (path :: paths), last. cbn [List.length].
    split; [lia|]. split.
    { econstructor; eauto. unfold pool_slot; cbn [fst snd].
      now rewrite <- app_assoc in Hd. }
    cbn [zseq combine flat_map pool_slot fst snd].
    rewrite <- !app_assoc in Hf, Ht. cbn [app] in Hf, Ht.
    split.
    + rewrite <- Hf. f_equal; try lia; now rewrite <- ?app_assoc.
    + rewrite Ht. now rewrite <- !app_assoc.
Qed.

(** X8.  When [createDiskPool] fails it has declared the placeholder
    drives of the indices below some [j < 8], in order, and stopped in the
    iteration of index [j]: the allocator failed, its answer was no URL, or
    the declaration of drive [j] was refused.  That error is returned; the
    drives declared before stay declared, nothing is undone. *)
Theorem createDiskPool_fails_partway s e s' :
  createDiskPool W s = Some (Some e, s') ->
  exists paths last,
    (List.length paths < 8)%nat /\
    declared W (trace s) 0 paths /\
    let made :=
      flat_map pool_slot (combine (zseq 0 (List.length paths)) paths) in
    pool_failure W (trace s ++ made) (Z.of_nat (List.length paths))
    = Some (last, e) /\
    trace s' = trace s ++ made ++ last /\
    same (fc s) (fc s').
Proof.
  intros H. unfold createDiskPool in H.
  pose proof (createDiskPool_from_frame W _ _ _ _ _ H) as (_ & _ & _ & Hs & _).
  apply createDiskPool_from_fails in H as (paths & last & Hn & Hd & Hf & Ht).
  exists paths, last. split; [exact Hn|]. split; [exact Hd|].
  cbv zeta in *. rewrite Z.add_0_l in Hf. auto.
Qed.

(** *** addDevice *)

(** X9.  Once readiness has left NotReady, [addDevice] and
    [hotplugAddDevice] disagree on what a block drive is.  [addDevice]
    declares a drive passed by value under the drive's own id, and takes a
    pointer to a drive, like any value of a type it does not know, for an
    unknown device: it makes no call, queues nothing and returns success.
    [hotplugAddDevice] of a block device panics on the drive passed by
    value, before any call. *)
Theorem addDevice_and_hotplug_disagree_on_drives b t tag s :
  state (fc s) <> notReady ->
  let put := PutGuestDriveByID (ID b) false false (File b) in
  addDevice W (DevBlockDrive b) t s
  = Some (reply W (trace s) put, after W put (ensure (fc s)) s) /\
  addDevice W (DevBlockDrivePtr b) t s = Some (None, s) /\
  addDevice W (DevOther tag) t s = Some (None, s) /\
  hotplugAddDevice W (DevBlockDrive b) blockDev s = Some (Panicked, s).
Proof.
  intros N put.
  assert (forall d,
             addDevice W d t s
             = match d with
               | DevEndpoint v => fcAddNetDevice W v
               | DevBlockDrive v => fcAddBlockDrive W v
               | DevVSOCK v => fcAddVsock W v
               | _ => ret None
               end s) as R.
  { intros d. unfold addDevice, bind at 1, get_fc at 1.
    destruct (state (fc s)); [congruence|reflexivity|reflexivity]. }
  rewrite !R. split; [apply fcAddBlockDrive_run|repeat split].
Qed.

(** X10.  [fcAddVsock] always declares the vsock under the id root.  The
    vhost file descriptor is closed exactly when that declaration was
    accepted; the outcome of closing is ignored.  When the declaration is
    refused the error is returned and the descriptor is left open. *)
Theorem fcAddVsock_closes_fd_on_success_only v s :
  let put := PutGuestVsockByID "root" (contextID v) in
  exists s',
    fcAddVsock W v s = Some (reply W (trace s) put, s') /\
    trace s'
    = trace s ++ put :: match reply W (trace s) put with
                        | None => [CloseFd (vhostFd v)]
                        | Some _ => []
                        end /\
    same (fc s) (fc s').
Proof.
  intros put. rewrite fcAddVsock_run. cbv zeta. fold put.
  destruct (reply W (trace s) put); eexists; (split; [reflexivity|]);
    cbn [trace fc clock after]; rewrite <- ?app_assoc;
    (split; [reflexivity|apply same_ensure]).
Qed.

Lemma addDevice_refused d t s e s' :
  state (fc s) <> notReady ->
  addDevice W d t s = Some (Some e, s') ->
  exists c,
    dispatch_head (mkDevice d t) = Some c /\
    reply W (trace s) c = Some e /\
    trace s' = trace s ++ [c] /\
    same (fc s) (fc s').
Proof.
  intros N H. unfold addDevice, bind at 1, get_fc at 1 in H.
  assert (match d with
          | DevEndpoint v => fcAddNetDevice W v
          | DevBlockDrive v => fcAddBlockDrive W v
          | DevVSOCK v => fcAddVsock W v
          | _ => ret None
          end s = Some (Some e, s')) as H'
    by (destruct (state (fc s)); [congruence|exact H|exact H]).
  clear H. unfold dispatch_head, dispatch; cbn [dev hd_error].
  destruct d as [ep|b|b|v|tag]; try discriminate.
  - rewrite fcAddNetDevice_run in H'. injection H' as R <-.
    eexists. repeat split; eauto using same_ensure.
  - rewrite fcAddBlockDrive_run in H'. injection H' as R <-.
    eexists. repeat split; eauto using same_ensure.
  - rewrite fcAddVsock_run in H'. cbv zeta in H'.
    destruct (reply W (trace s) _) as [e0|] eqn:R; [|discriminate].
    injection H' as <- <-.
    eexists. repeat split; eauto using same_ensure.
Qed.

Lemma flushPending_fails ds :
  forall s e s',
    state (fc s) <> notReady ->
    flushPending W ds s = Some (Some e, s') ->
    exists before d rest c,
      ds = before ++ d :: rest /\
      dispatch_head d = Some c /\
      reply W (trace s ++ flat_map dispatch before) c = Some e /\
      trace s' = trace s ++ flat_map dispatch before ++ [c] /\
      same (fc s) (fc s').
Proof.
  induction ds as [|d ds IH]; intros s e s' N H; [discriminate|].
  cbn [flushPending] in H. unfold bind at 1 in H.
  destruct (addDevice W (dev d) (devType d) s) as [[r s1]|] eqn:A;
    [|discriminate].
  destruct r as [e0|].
  - injection H as <- <-.
    apply addDevice_refused in A as (c & Hh & Hr & Ht & Hs); [|exact N].
    exists [], d, ds, c. cbn [flat_map app]. rewrite app_nil_r.
    destruct d; auto.
  - pose proof (addDevice_ready W _ _ _ _ _ N A) as (Hs & _ & l & Ht & Hl).
    specialize (Hl eq_refl). subst l.
    apply IH in H as (before & d' & rest & c & -> & Hh & Hr & Ht' & Hs');
      [|apply same_state in Hs; congruence].
    exists (d :: before), d', rest, c. cbn [flat_map].
    rewrite Ht, <- app_assoc in Hr. rewrite Ht, <- !app_assoc in Ht'.
    replace (dispatch {| dev := dev d; devType := devType d |})
      with (dispatch d) in * by now destruct d.
    rewrite <- !app_assoc.
    repeat split; auto. eapply same_trans; eauto.
Qed.

(** X11.  The flush of the queue in [startSandbox] stops at the first
    device the API refuses: the devices before it have been dispatched in
    order, the refusal of the first call of its dispatch is the error
    returned, and none of the devices after it is dispatched. *)
Theorem flushPending_stops_at_first_refusal ds s e s' :
  state (fc s) <> notReady ->
  flushPending W ds s = Some (Some e, s') ->
  exists before d rest c,
    ds = before ++ d :: rest /\
    dispatch_head d = Some c /\
    reply W (trace s ++ flat_map dispatch before) c = Some e /\
    trace s' = trace s ++ flat_map dispatch before ++ [c].
Proof.
  intros N H.
  destruct (flushPending_fails ds s e s' N H)
    as (before & d & rest & c & E & Hh & Hr & Ht & _).
  exists before, d, rest, c. auto.
Qed.

(** *** startSandbox, whatever its outcome *)

Lemma dispatch_head_call (f : call -> bool) d c :
  (forall a b c d, f (PutGuestNetworkInterfaceByID a b c d) = false) ->
  (forall a b c d, f (PutGuestDriveByID a b c d) = false) ->
  (forall a b, f (PutGuestVsockByID a b) = false) ->
  dispatch_head d = Some c -> f c = false.
Proof.
  intros N D V. unfold dispatch_head, dispatch.
  destruct (dev d); cbn [hd_error]; intros H; try discriminate;
    injection H as <-; auto.
Qed.

Lemma vmm_poll_calls (f : call -> bool) l :
  f DescribeInstance = false -> (forall d, f (Sleep d) = false) ->
  Forall vmm_poll l -> existsb f l = false.
Proof.
  intros D S. apply existsb_Forall_false. now intros c [->| ->].
Qed.

Lemma pool_call_calls (f : call -> bool) l :
  (forall n, f (StoreRaw n) = false) ->
  (forall a b c d, f (PutGuestDriveByID a b c d) = false) ->
  Forall pool_call l -> existsb f l = false.
Proof.
  intros R D. apply existsb_Forall_false. now intros c [->|(i & p & ->)].
Qed.

Lemma end_call_not_start pid l :
  Forall (end_call pid) l -> existsb is_start l = false.
Proof.
  apply existsb_Forall_false. now intros c [->|[->|[->| ->]]].
Qed.

Lemma boot_tail_outcome fuel timeout image s rv ev s' :
  (fcSetVMRootfs W image ;;;
   createDiskPool W ;;;
   f' <- get_fc ;;
   e2 <- flushPending W (pendingDevices f') ;;
   match e2 with
   | Some e => ret (Some e, Some e)
   | None =>
       e3 <- fcStartVM W ;;
       match e3 with
       | Some e => ret (Some e, None)
       | None => e4 <- waitVMM W fuel timeout ;; ret (e4, None)
       end
   end) s = Some ((rv, ev), s') ->
  state (fc s) <> notReady ->
  exists l,
    trace s' = trace s ++ l /\ existsb is_kill l = false /\
    match ev with
    | Some e =>
        rv = Some e /\ same (fc s) (fc s') /\ existsb is_start l = false /\
        exists d c h,
          In d (pendingDevices (fc s)) /\ dispatch_head d = Some c /\
          reply W h c = Some e
    | None =>
        same (fc s) (fc s') /\ rv <> None \/
        same (set_state vmReady (fc s)) (fc s')
    end.
Proof.
  intros B N.
  unfold bind at 1 in B. rewrite fcSetVMRootfs_run in B. cbv zeta in B.
  unfold bind at 1 in B.
  match type of B with
  | context [createDiskPool W ?s0] =>
      set (sp := s0) in *;
      destruct (createDiskPool W sp) as [[rp sp']|] eqn:P; [|discriminate]
  end.
  unfold bind at 1, get_fc at 1 in B. unfold bind at 1 in B.
  pose proof (createDiskPool_from_frame W _ _ _ _ _ P)
    as (lp & Htp & Hlp & Hsp & _).
  assert (same (fc s) (fc sp')) as Hs0.
  { eapply same_trans; [|exact Hsp]. subst sp; cbn [fc after].
    apply same_ensure. }
  assert (state (fc sp') <> notReady) as N'
    by (apply same_state in Hs0; congruence).
  assert (trace sp' = trace s ++ PutGuestDriveByID "rootfs" true false image :: lp)
    as Ht0.
  { rewrite Htp. subst sp; cbn [trace after]. now rewrite <- app_assoc. }
  assert (existsb is_kill lp = false) as Kp
    by (apply pool_call_calls; auto).
  assert (existsb is_start lp = false) as Sp
    by (apply pool_call_calls; auto).
  destruct (flushPending W _ sp') as [[e2 s2]|] eqn:F; [|discriminate].
  destruct e2 as [e|].
  - injection B as <- <- <-.
    apply flushPending_fails in F
      as (before & d & rest & c & E & Hh & Hr & Ht & Hs); [|exact N'].
    exists (PutGuestDriveByID "rootfs" true false image
              :: lp ++ flat_map dispatch before ++ [c]).
    split; [rewrite Ht, Ht0, <- !app_assoc; reflexivity|].
    split.
    { cbn [existsb is_kill orb]. rewrite !existsb_app, Kp.
      rewrite dispatch_calls by reflexivity. cbn [existsb orb].
      now rewrite (dispatch_head_call is_kill d c). }
    split; [reflexivity|].
    split; [eapply same_trans; eauto|].
    split.
    { cbn [existsb is_start orb]. rewrite !existsb_app, Sp.
      rewrite dispatch_calls by reflexivity. cbn [existsb orb].
      now rewrite (dispatch_head_call is_start d c). }
    exists d, c, (trace sp' ++ flat_map dispatch before).
    split; [|split; assumption].
    apply same_pendingDevices in Hs0. rewrite <- Hs0, E.
    apply in_or_app. right. now left.
  - apply flushPending_ok in F as (Ht2 & Hs2 & _); [|exact N'].
    unfold bind at 1 in B.
    destruct (fcStartVM W s2) as [[e3 s3]|] eqn:S; [|discriminate].
    apply fcStartVM_spec in S as (Ht3 & _ & _ & Hs3).
    assert (same (fc s) (fc s2)) as Hs02 by (eapply same_trans; eauto).
    destruct e3 as [e|].
    + injection B as <- <- <-.
      exists (PutGuestDriveByID "rootfs" true false image
                :: lp ++ flat_map dispatch (pendingDevices (fc sp'))
                ++ [start_call]).
      split; [rewrite Ht3, Ht2, Ht0, <- !app_assoc; reflexivity|].
      split.
      { cbn [existsb is_kill orb]. rewrite !existsb_app, Kp.
        now rewrite dispatch_calls by reflexivity. }
      left. split; [eapply same_trans; eauto|discriminate].
    + unfold bind at 1 in B.
      destruct (waitVMM W fuel timeout s3) as [[e4 s4]|] eqn:Wt;
        [|discriminate].
      apply waitVMM_frame in Wt as (waits & Ht4 & Hw & Hs4 & _).
      unfold ret in B. injection B as <- <- <-.
      exists (PutGuestDriveByID "rootfs" true false image
                :: lp ++ flat_map dispatch (pendingDevices (fc sp'))
                ++ start_call :: waits).
      split; [rewrite Ht4, Ht3, Ht2, Ht0, <- !app_assoc; reflexivity|].
      split.
      { cbn [existsb is_kill orb]. rewrite !existsb_app, Kp.
        rewrite dispatch_calls by reflexivity. cbn [existsb is_kill orb].
        now apply vmm_poll_calls. }
      right. eapply same_trans; [|exact Hs4]. eapply same_trans; [|exact Hs3].
      now apply same_set_state.
Qed.

Lemma startSandbox_body_outcome fuel timeout s rv ev s' :
  startSandbox_body root W fuel timeout s = Some ((rv, ev), s') ->
  state (fc s) <> notReady ->
  let cfg := config (fc s) in
  exists l,
    trace s' = trace s ++ l /\ existsb is_kill l = false /\
    match ev with
    | Some e =>
        rv = Some e /\ same (fc s) (fc s') /\ existsb is_start l = false /\
        (KernelAssetPath cfg = Err e \/ rootfs_image cfg = Err e \/
         exists d c h,
           In d (pendingDevices (fc s)) /\ dispatch_head d = Some c /\
           reply W h c = Some e)
    | None =>
        same (fc s) (fc s') /\ rv <> None \/
        same (set_state vmReady (fc s)) (fc s')
    end.
Proof.
  intros B N cfg. unfold startSandbox_body in B.
  unfold bind at 1, get_fc at 1 in B. fold cfg in B.
  unfold bind at 1 in B. rewrite fcSetVMBaseConfig_run in B. cbv zeta in B.
  set (pmc := PutMachineConfiguration false (MemorySize cfg) (NumVCPUs cfg))
    in *.
  destruct (reply W (trace s) pmc) as [e|].
  { injection B as <- <- <-. exists [pmc]. cbn [trace fc after].
    split; [reflexivity|]. split; [reflexivity|].
    left. split; [apply same_ensure|discriminate]. }
  destruct (KernelAssetPath cfg) as [kernelPath|e] eqn:K.
  2: { injection B as <- <- <-. exists [pmc]. cbn [trace fc after].
       split; [reflexivity|]. split; [reflexivity|].
       split; [reflexivity|]. split; [apply same_ensure|].
       split; [reflexivity|now left]. }
  unfold bind at 1 in B. rewrite fcSetBootSource_run in B. cbv zeta in B.
  cbn [trace fc clock after] in B. rewrite ensure_ensure in B.
  set (pbs := PutGuestBootSource kernelPath _) in *.
  match type of B with
  | context [after W pbs (ensure (fc s)) ?s0] =>
      set (sb := after W pbs (ensure (fc s)) s0) in *
  end.
  assert (trace sb = trace s ++ [pmc; pbs]) as Tb
    by (subst sb; cbn [trace after]; now rewrite <- app_assoc).
  assert (same (fc s) (fc sb)) as Sb by apply same_ensure.
  assert (state (fc sb) <> notReady) as Nb
    by (apply same_state in Sb; congruence).
  assert (forall e, rootfs_image cfg = Err e ->
            Some ((Some e, Some e), sb) = Some ((rv, ev), s') ->
            exists l,
              trace s' = trace s ++ l /\ existsb is_kill l = false /\
              match ev with
              | Some e =>
                  rv = Some e /\ same (fc s) (fc s') /\
                  existsb is_start l = false /\
                  (Ok kernelPath = Err e \/ rootfs_image cfg = Err e \/
                   exists d c h,
                     In d (pendingDevices (fc s)) /\ dispatch_head d = Some c /\
                     reply W h c = Some e)
              | None =>
                  same (fc s) (fc s') /\ rv <> None \/
                  same (set_state vmReady (fc s)) (fc s')
              end) as Asset.
  { intros e RI E. injection E as <- <- <-. exists [pmc; pbs].
    split; [exact Tb|]. split; [reflexivity|].
    split; [reflexivity|]. split; [exact Sb|].
    split; [reflexivity|]. right. now left. }
  assert (forall image,
            (fcSetVMRootfs W image ;;;
             createDiskPool W ;;;
             f' <- get_fc ;;
             e2 <- flushPending W (pendingDevices f') ;;
             match e2 with
             | Some e => ret (Some e, Some e)
             | None =>
                 e3 <- fcStartVM W ;;
                 match e3 with
                 | Some e => ret (Some e, None)
                 | None => e4 <- waitVMM W fuel timeout ;; ret (e4, None)
                 end
             end) sb = Some ((rv, ev), s') ->
            exists l,
              trace s' = trace s ++ l /\ existsb is_kill l = false /\
              match ev with
              | Some e =>
                  rv = Some e /\ same (fc s) (fc s') /\
                  existsb is_start l = false /\
                  (Ok kernelPath = Err e \/ rootfs_image cfg = Err e \/
                   exists d c h,
                     In d (pendingDevices (fc s)) /\ dispatch_head d = Some c /\
                     reply W h c = Some e)
              | None =>
                  same (fc s) (fc s') /\ rv <> None \/
                  same (set_state vmReady (fc s)) (fc s')
              end) as Tail.
  { intros image T.
    apply boot_tail_outcome in T as (l & Ht & Hk & Hr); [|exact Nb].
    exists (pmc :: pbs :: l).
    split; [rewrite Ht, Tb, <- app_assoc; reflexivity|].
    split; [exact Hk|].
    destruct ev as [e|].
    - destruct Hr as (-> & Hs & Hst & d & c & h & Hi & Hh & Hre).
      split; [reflexivity|]. split; [eapply same_trans; eauto|].
      split; [exact Hst|]. right. right. exists d, c, h.
      apply same_pendingDevices in Sb. rewrite <- Sb. auto.
    - destruct Hr as [(Hs & Hn)|Hs].
      + left. split; [eapply same_trans; eauto|exact Hn].
      + right. eapply same_trans; [|exact Hs]. now apply same_set_state. }
  unfold rootfs_image in Asset, Tail |- *.
  destruct (InitrdAssetPath cfg) as [image|e].
  2: { apply (Asset e); [reflexivity|exact B]. }
  destruct (String.eqb image "").
  - destruct (ImageAssetPath cfg) as [image'|e].
    + apply (Tail image'). exact B.
    + apply (Asset e); [reflexivity|exact B].
  - apply (Tail image). exact B.
Qed.

Lemma startSandbox_outcome fuel timeout s r s' :
  startSandbox root W fuel timeout s = Some (r, s') ->
  match cmd_Start W (trace s) with
  | Err e => r = Some e /\ s' = after W (spawn_call (fc s)) (fc s) s
  | Ok pid =>
      let spawned :=
        set_firecrackerd (Some pid) (set_info (mkInfo pid) (fc s)) in
      exists l,
        trace s' = trace s ++ spawn_call (fc s) :: l /\
        (same spawned (fc s') /\ r <> None \/
         same (set_state apiReady spawned) (fc s') /\ r <> None \/
         same (set_state vmReady spawned) (fc s')) /\
        (existsb is_kill l = false \/
         exists e lb le,
           r = Some e /\ l = lb ++ Kill pid 0 :: le /\
           existsb is_kill lb = false /\ Forall (end_call pid) le /\
           existsb is_start l = false /\
           same (set_state apiReady spawned) (fc s') /\
           (KernelAssetPath (config (fc s)) = Err e \/
            rootfs_image (config (fc s)) = Err e \/
            exists d c h,
              In d (pendingDevices (fc s)) /\ dispatch_head d = Some c /\
              reply W h c = Some e))
  end.
Proof.
  intros H. unfold startSandbox in H. unfold bind at 1 in H.
  destruct (fcInit W fuel fcTimeout s) as [[e0 s1]|] eqn:I; [|discriminate].
  apply fcInit_spec in I.
  destruct (cmd_Start W (trace s)) as [pid|e].
  2: { destruct I as (-> & ->). injection H as <- <-. auto. }
  cbv zeta in I |- *.
  set (spawned := set_firecrackerd (Some pid) (set_info (mkInfo pid) (fc s)))
    in *.
  destruct I as (polls & Hp & _ & [(Hr & Ht & Hs)|(Ht & Hs & Hr & _)]).
  - assert (exists e, e0 = Some e) as (e & ->)
        by (destruct Hr as [->|(c & ->)]; eauto).
    injection H as <- <-. exists polls. split; [exact Ht|].
    split; [left; split; [exact Hs|discriminate]|].
    left. now apply vmm_poll_calls.
  - assert (existsb is_kill (polls ++ [StoreStore (mkInfo pid)]) = false) as K1.
    { rewrite existsb_app, (vmm_poll_calls is_kill) by auto. reflexivity. }
    assert (existsb is_start (polls ++ [StoreStore (mkInfo pid)]) = false)
      as S1.
    { rewrite existsb_app, (vmm_poll_calls is_start) by auto. reflexivity. }
    destruct e0 as [e|].
    { injection H as <- <-. exists (polls ++ [StoreStore (mkInfo pid)]).
      split; [exact Ht|].
      split; [right; left; split; [exact Hs|discriminate]|]. now left. }
    unfold bind at 1 in H.
    destruct (startSandbox_body root W fuel timeout s1) as [[[rv ev] s2]|] eqn:B;
      [|discriminate].
    cbn [fst snd] in H.
    assert (state (fc s1) = apiReady) as A1
      by (apply same_state in Hs; exact Hs).
    assert (config (fc s1) = config (fc s)) as C1
      by (apply same_config in Hs; exact Hs).
    assert (pendingDevices (fc s1) = pendingDevices (fc s)) as P1
      by (apply same_pendingDevices in Hs; exact Hs).
    apply startSandbox_body_outcome in B; [|congruence].
    cbv zeta in B. rewrite C1, P1 in B.
    destruct B as (lb & Htb & Kb & Ob).
    destruct ev as [e|].
    + destruct Ob as (-> & Hsb & Sb & Cause).
      unfold bind at 1 in H.
      destruct (fcEnd W fuel s2) as [[re s3]|] eqn:E; [|discriminate].
      injection H as <- <-.
      apply fcEnd_frame in E as (Hf & _ & le & Hte & Hle).
      assert (PID (info (fc s2)) = pid) as Pid.
      { apply same_info in Hsb. apply same_info in Hs.
        rewrite Hsb, Hs. reflexivity. }
      rewrite Pid in Hte, Hle.
      exists ((polls ++ [StoreStore (mkInfo pid)] ++ lb) ++ Kill pid 0 :: le).
      split.
      { rewrite Hte, Htb, Ht, <- !app_assoc. cbn [app].
        now rewrite <- !app_assoc. }
      assert (same (set_state apiReady spawned) (fc s3)) as Hs3
        by (rewrite Hf; eapply same_trans; eauto).
      split; [right; left; split; [exact Hs3|discriminate]|].
      right. exists e, (polls ++ [StoreStore (mkInfo pid)] ++ lb), le.
      split; [reflexivity|]. split; [reflexivity|].
      split.
      { rewrite app_assoc, existsb_app, K1, Kb. reflexivity. }
      split; [exact Hle|].
      split.
      { rewrite existsb_app. cbn [existsb is_start orb].
        rewrite (end_call_not_start pid le Hle).
        rewrite app_assoc, existsb_app, S1, Sb. reflexivity. }
      split; [exact Hs3|exact Cause].
    + injection H as <- <-.
      exists (polls ++ [StoreStore (mkInfo pid)] ++ lb).
      split.
      { rewrite Htb, Ht, <- !app_assoc. cbn [app].
        now rewrite <- !app_assoc. }
      split.
      * destruct Ob as [(Hsb & Hn)|Hsb].
        -- right. left. split; [eapply same_trans; eauto|exact Hn].
        -- right. right. eapply same_trans; [|exact Hsb].
           now apply (same_set_state vmReady) in Hs.
      * left. rewrite app_assoc, existsb_app, K1, Kb. reflexivity.
Qed.

(** X12.  [startSandbox], given fuel for its waits and for the grace
    period of the cleanup, returns, whatever the outside answers; and
    whatever the outcome, the pending queue and the configuration of the
    driver are what they were: a flushed queue is not emptied.  Readiness
    is never lowered to NotReady, and it is VmReady after a success. *)
Theorem startSandbox_keeps_queue fuel timeout s :
  (1100 < fuel)%nat ->
  (Z.to_nat (100 * (timeout + 1)) < fuel)%nat ->
  exists r s',
    startSandbox root W fuel timeout s = Some (r, s') /\
    pendingDevices (fc s') = pendingDevices (fc s) /\
    config (fc s') = config (fc s) /\
    (state (fc s') = notReady -> state (fc s) = notReady /\ r <> None) /\
    (r = None -> state (fc s') = vmReady).
Proof.
  intros F1 F2.
  destruct (startSandbox_total root W fuel timeout s F1 F2) as (r & s' & H).
  exists r, s'. split; [exact H|].
  apply startSandbox_outcome in H.
  destruct (cmd_Start W (trace s)) as [pid|e].
  - cbv zeta in H.
    destruct H as (l & _ & [(Hs & Hn)|[(Hs & Hn)|Hs]] & _);
      pose proof (same_pendingDevices _ _ Hs) as P;
      pose proof (same_config _ _ Hs) as C;
      pose proof (same_state _ _ Hs) as St;
      cbn in P, C, St; repeat split; auto; congruence.
  - destruct H as (-> & ->). cbn [fc after].
    repeat split; auto; discriminate.
Qed.

(** X13.  Every signal sent in the course of a [startSandbox] goes to
    the process this very call has spawned: when the spawn fails no signal
    is sent at all, and a process recorded from an earlier start is never
    signalled. *)
Theorem startSandbox_signals_only_its_process fuel timeout s r s' l :
  startSandbox root W fuel timeout s = Some (r, s') ->
  trace s' = trace s ++ l ->
  forall pid sg, In (Kill pid sg) l -> cmd_Start W (trace s) = Ok pid.
Proof.
  intros H T pid sg I. apply startSandbox_outcome in H.
  destruct (cmd_Start W (trace s)) as [p|e].
  - cbv zeta in H. destruct H as (l' & T' & _ & C).
    rewrite T in T'. apply app_inv_head in T'. subst l.
    destruct I as [I|I]; [discriminate|].
    assert (forall k, existsb is_kill k = false -> ~ In (Kill pid sg) k) as NK.
    { intros k E J.
      assert (existsb is_kill k = true)
        by (apply existsb_exists; now exists (Kill pid sg)).
      congruence. }
    destruct C as [C|(e & lb & le & _ & -> & Kb & Hle & _)];
      [now apply NK in C|].
    apply in_app_or in I as [I|[I|I]].
    + now apply NK in Kb.
    + now injection I as ->.
    + rewrite Forall_forall in Hle. apply Hle in I.
      destruct I as [I|[I|[I|I]]]; try discriminate; now injection I as ->.
  - destruct H as (_ & ->). cbn [trace after] in T.
    apply app_inv_head in T. subst l.
    destruct I as [I|[]]. discriminate.
Qed.

(** X14.  The cleanup of [startSandbox] runs only after a failed asset
    lookup (the kernel, or the initrd or image) or after a queued device
    has been refused.  Then that error is returned, the start action has
    not been issued, and readiness stays ApiReady although the process is
    being terminated. *)
Theorem startSandbox_cleanup_cases fuel timeout s r s' l :
  startSandbox root W fuel timeout s = Some (r, s') ->
  trace s' = trace s ++ l ->
  existsb is_kill l = true ->
  exists e,
    r = Some e /\
    existsb is_start l = false /\
    state (fc s') = apiReady /\
    (KernelAssetPath (config (fc s)) = Err e \/
     rootfs_image (config (fc s)) = Err e \/
     exists d c h,
       In d (pendingDevices (fc s)) /\ dispatch_head d = Some c /\
       reply W h c = Some e).
Proof.
  intros H T K. apply startSandbox_outcome in H.
  destruct (cmd_Start W (trace s)) as [p|e].
  - cbv zeta in H. destruct H as (l' & T' & _ & C).
    rewrite T in T'. apply app_inv_head in T'. subst l.
    cbn [existsb is_kill spawn_call orb] in K |- *.
    destruct C as [C|(e & lb & le & -> & -> & _ & _ & St & Hs & Cause)];
      [congruence|].
    exists e. split; [reflexivity|]. split; [exact St|].
    split; [apply same_state in Hs; exact Hs|exact Cause].
  - destruct H as (_ & ->). cbn [trace after] in T.
    apply app_inv_head in T. subst l. discriminate.
Qed.

(** X15.  When the hypervisor cannot be spawned, [startSandbox] returns
    that error after this one call, for any fuel: there is no wait, no
    configuration and no cleanup, and the driver object is untouched. *)
Theorem startSandbox_spawn_failure fuel timeout s e :
  cmd_Start W (trace s) = Err e ->
  startSandbox root W fuel timeout s
  = Some (Some e, after W (spawn_call (fc s)) (fc s) s).
Proof.
  intros C. unfold startSandbox, fcInit.
  unfold bind at 1. unfold bind at 1, get_fc at 1.
  unfold bind at 1, perform at 1. now rewrite C.
Qed.

(** X16.  Two successful [startSandbox] in a row dispatch the pending
    queue twice: the second run, which spawns a second process, declares
    every queued device again. *)
Theorem startSandbox_twice_redispatches fuel timeout s s1 s2 :
  startSandbox root W fuel timeout s = Some (None, s1) ->
  startSandbox root W fuel timeout s1 = Some (None, s2) ->
  let queue := flat_map dispatch (pendingDevices (fc s)) in
  exists a b c,
    trace s2
    = trace s ++ a ++ queue ++ start_call :: b ++ queue ++ start_call :: c.
Proof.
  intros H1 H2 queue.
  apply startSandbox_success in H1
    as (pid & polls & kernelPath & image & sp & rp & sp' & waits & _ & _
        & _ & _ & Ht & P & Ht' & _ & _ & Hq).
  apply createDiskPool_from_frame in P as (pool & Hpt & _ & _ & _).
  apply startSandbox_success in H2
    as (pid2 & polls2 & kernelPath2 & image2 & sq & rq & sq' & waits2 & _ & _
        & _ & _ & Ht2 & P2 & Ht2' & _ & _ & _).
  apply createDiskPool_from_frame in P2 as (pool2 & Hpt2 & _ & _ & _).
  rewrite Hq in Ht2'. fold queue in Ht', Ht2'.
  exists ((spawn_call (fc s) :: polls
             ++ StoreStore (mkInfo pid)
             :: configure_calls root (config (fc s)) kernelPath image)
            ++ pool),
    (waits
       ++ (spawn_call (fc s1) :: polls2
             ++ StoreStore (mkInfo pid2)
             :: configure_calls root (config (fc s1)) kernelPath2 image2)
       ++ pool2),
    waits2.
  rewrite Ht2', Hpt2, Ht2, Ht', Hpt, Ht, <- !app_assoc. cbn [app].
  rewrite <- !app_assoc. reflexivity.
Qed.

(** X17.  After [createSandbox], and after [disconnect], whatever the
    readiness was, [addDevice] makes no call: it puts the device at the end
    of the pending queue, behind the devices queued earlier, which neither
    of the two has removed. *)
Theorem addDevice_after_reset_is_queued socketOf id cfg loaded d t s :
  exists s1 s2,
    (createSandbox socketOf id cfg loaded ;;; addDevice W d t) s
    = Some (None, s1) /\
    (disconnect ;;; addDevice W d t) s = Some (None, s2) /\
    trace s1 = trace s /\ trace s2 = trace s /\
    pendingDevices (fc s1) = pendingDevices (fc s) ++ [mkDevice d t] /\
    pendingDevices (fc s2) = pendingDevices (fc s) ++ [mkDevice d t].
Proof.
  destruct loaded;
    (eexists _, _; split; [cbv; reflexivity|split; [cbv; reflexivity|]];
     repeat split).
Qed.

End Outcomes.

(** ** The rest of the driver on concrete runs *)

(** X1, witness: the two vCPU threads of [threads0] are found. *)
Lemma getThreadIDs_maps_vcpus_witness :
  exists m,
    getThreadIDs (fun _ => None) (fun _ => Ok threads0) (fc booted) = (m, None) /\
    vcpus_get m 0 = Some 4243 /\ vcpus_get m 1 = Some 4244 /\
    vcpus_get m 2 = None.
Proof.
  destruct (getThreadIDs_maps_vcpus (fun _ => None) (fun _ => Ok threads0)
              (fc booted) threads0 [(0, 4243); (1, 4244)])
    as (m & H & L & A); [reflexivity|reflexivity| |].
  { apply (vcpu_threads_other 4242 "firecracker"); [reflexivity|].
    apply (vcpu_threads_vcpu 4243 0); [lia|].
    apply (vcpu_threads_vcpu 4244 1); [lia|].
    constructor. }
  exists m. split; [exact H|]. split; [|split].
  - apply (L [] 0 4243 [(1, 4244)]); [reflexivity|].
    cbn. intros [E|[]]. discriminate.
  - apply (L [(0, 4243)] 1 4244 []); [reflexivity|]. intros [].
  - apply A. cbn. intros [E|[E|[]]]; discriminate.
Defined.

(** X2, witness: the second thread of [threads1] stops the listing; the
    first is in the map, the third is not. *)
Lemma getThreadIDs_aborts_witness :
  getThreadIDs (fun _ => None) (fun _ => Ok threads1) (fc booted)
  = ([(0, 4243)], Some (InvalidThreadInfoWrap ErrSyntax "fc_vcpu1a")).
Proof.
  destruct (getThreadIDs_aborts (fun _ => None) (fun _ => Ok threads1)
              (fc booted) [mkProc 4243 (Ok "fc_vcpu0")] [(0, 4243)]
              (mkProc 4244 (Ok "fc_vcpu1a")) [mkProc 4245 (Ok "fc_vcpu2")])
    as (_ & P & _); [reflexivity|reflexivity| |].
  { apply (vcpu_threads_vcpu 4243 0); [lia|]. constructor. }
  apply (P "1a" ErrSyntax); reflexivity.
Defined.

(** X3, witness: the binding of vCPU 1 in the map of [threads0]. *)
Lemma getThreadIDs_sound_witness :
  - 2 ^ 31 <= 1 < 2 ^ 31 /\
  exists c suffix,
    In c threads0 /\ proc_PID c = 4244 /\
    proc_Comm c = Ok ("fc_vcpu" +++ suffix) /\ ParseInt suffix 32 = inr 1.
Proof.
  destruct (getThreadIDs_sound (fun _ => None) (fun _ => Ok threads0)
              (fc booted) [(1, 4244); (0, 4243)] None 1 4244)
    as (R & cs & c & sfx & E & I & Rest); [reflexivity|now left|].
  injection E as <-. split; [exact R|]. exists c, sfx. auto.
Defined.

(** X4, witness: a wait of 0 seconds against an API that never answers. *)
Lemma waitVMM_poll_bound_witness :
  0 <= 0 /\ (Z.to_nat (100 * (0 + 1)) < 101)%nat /\
  exists r s' n,
    waitVMM deaf 101 0 (fresh []) = Some (r, s') /\
    trace s' = poll_rounds n /\ Z.of_nat n <= 100.
Proof.
  split; [lia|]. split; [vm_compute; lia|].
  destruct (waitVMM_poll_bound deaf 101 0 (fresh []))
    as (r & s' & n & H & T & B); [lia|vm_compute; lia|].
  exists r, s', n. auto.
Defined.


(** X6, witness: a stop in the calm world, where the process ignores
    SIGTERM. *)
Lemma stopSandbox_leaves_driver_witness :
  (300 < 301)%nat /\
  exists r s', stopSandbox calm 301 booted = Some (r, s') /\ fc s' = fc booted.
Proof.
  split; [lia|].
  destruct (stopSandbox_leaves_driver calm 301 booted)
    as (r & s' & l & H & F & _); [lia|].
  exists r, s'. auto.
Defined.

(** X7, witness: a process that is gone, and a process that cannot be
    sent SIGTERM. *)
Lemma fcEnd_early_exits_witness :
  (exists s',
      fcEnd (rejecting is_kill) 0 booted = Some (None, s') /\
      trace s' = [Kill 4242 0]) /\
  (exists e s',
      fcEnd (rejecting is_sigterm) 0 booted = Some (Some e, s') /\
      trace s' = [Kill 4242 0; Kill 4242 SIGTERM]).
Proof.
  split.
  - pose proof (fcEnd_early_exits (rejecting is_kill) 0 booted) as P.
    cbv zeta in P. destruct P as (A & _).
    destruct (A (ErrCollab "rejected") eq_refl) as (s' & H & T & _).
    exists s'. auto.
  - pose proof (fcEnd_early_exits (rejecting is_sigterm) 0 booted) as P.
    cbv zeta in P. destruct P as (_ & B).
    destruct (B (ErrCollab "rejected") eq_refl eq_refl) as (s' & H & T & _).
    exists (ErrCollab "rejected"), s'. auto.
Defined.

(** X8, witness: the allocator fails from its fourth request on. *)
Lemma createDiskPool_fails_partway_witness :
  exists e s' paths last,
    createDiskPool scratch_runs_out booted = Some (Some e, s') /\
    (List.length paths < 8)%nat /\
    declared scratch_runs_out (trace booted) 0 paths /\
    trace s'
    = flat_map pool_slot (combine (zseq 0 (List.length paths)) paths) ++ last.
Proof.
  edestruct (createDiskPool_fails_partway scratch_runs_out booted)
    as (paths & last & L & D & F & T & _); [vm_compute; reflexivity|].
  cbv zeta in T.
  eexists _, _, paths, last. split; [vm_compute; reflexivity|].
  split; [exact L|]. split; [exact D|exact T].
Defined.

(** X9, witness: on a booted driver. *)
Lemma addDevice_and_hotplug_disagree_on_drives_witness :
  state (fc booted) <> notReady /\
  addDevice calm (DevBlockDrivePtr drive3) blockDev booted = Some (None, booted) /\
  hotplugAddDevice calm (DevBlockDrive drive3) blockDev booted
  = Some (Panicked, booted).
Proof.
  split; [discriminate|].
  pose proof (addDevice_and_hotplug_disagree_on_drives calm drive3 blockDev
                "" booted) as P.
  cbv zeta in P. destruct P as (_ & A & _ & H); [discriminate|]. auto.
Defined.

(** X11, witness: the API refuses the vsock, which is first in the list;
    the network device after it is not dispatched. *)
Lemma flushPending_stops_at_first_refusal_witness :
  state (fc booted) <> notReady /\
  exists e s',
    flushPending (rejecting is_vsock)
                 [mkDevice vsock0 (otherDev 5); mkDevice net0 (otherDev 2)]
                 booted
    = Some (Some e, s') /\
    trace s' = [PutGuestVsockByID "root" 3].
Proof.
  split; [discriminate|].
  edestruct (flushPending_stops_at_first_refusal (rejecting is_vsock)
               [mkDevice vsock0 (otherDev 5); mkDevice net0 (otherDev 2)]
               booted)
    as (before & d & rest & c & E & Hh & Hr & Ht);
    [discriminate|vm_compute; reflexivity|].
  eexists _, _. split; [vm_compute; reflexivity|]. reflexivity.
Defined.

(** X12, witness: a boot in the calm world keeps the three devices. *)
Lemma startSandbox_keeps_queue_witness :
  (1100 < 1101)%nat /\ (Z.to_nat (100 * (5 + 1)) < 1101)%nat /\
  exists r s',
    startSandbox root_params calm 1101 5 (fresh queue0) = Some (r, s') /\
    pendingDevices (fc s') = queue0.
Proof.
  split; [lia|]. split; [vm_compute; lia|].
  destruct (startSandbox_keeps_queue root_params calm 1101 5 (fresh queue0))
    as (r & s' & H & P & _); [lia|vm_compute; lia|].
  exists r, s'. auto.
Defined.

(** X13, witness: the API refuses the vsock of the queue, the cleanup
    runs, and the process it signals is the one spawned. *)
Lemma startSandbox_signals_only_its_process_witness :
  exists r s',
    startSandbox root_params (rejecting is_vsock) 1200 5 (fresh queue0)
    = Some (r, s') /\
    nth_error (trace s') 25 = Some (Kill 4242 0) /\
    cmd_Start (rejecting is_vsock) (trace (fresh queue0)) = Ok 4242.
Proof.
  destruct (startSandbox root_params (rejecting is_vsock) 1200 5 (fresh queue0))
    as [[r s']|] eqn:H; [|vm_compute in H; discriminate].
  exists r, s'. split; [reflexivity|].
  assert (nth_error (trace s') 25 = Some (Kill 4242 0)) as N.
  { vm_compute in H. injection H as _ <-. reflexivity. }
  split; [exact N|].
  apply (startSandbox_signals_only_its_process root_params
           (rejecting is_vsock) 1200 5 (fresh queue0) r s' (trace s') H
           eq_refl 4242 0).
  exact (nth_error_In _ _ N).
Defined.

(** X14, witness: the same run; the refused vsock is the cause. *)
Lemma startSandbox_cleanup_cases_witness :
  exists e s',
    startSandbox root_params (rejecting is_vsock) 1200 5 (fresh queue0)
    = Some (Some e, s') /\
    existsb is_kill (trace s') = true /\
    existsb is_start (trace s') = false /\
    state (fc s') = apiReady.
Proof.
  destruct (startSandbox root_params (rejecting is_vsock) 1200 5 (fresh queue0))
    as [[r s']|] eqn:H; [|vm_compute in H; discriminate].
  assert (existsb is_kill (trace s') = true) as K.
  { vm_compute in H. injection H as _ <-. reflexivity. }
  destruct (startSandbox_cleanup_cases root_params (rejecting is_vsock) 1200 5
              (fresh queue0) r s' (trace s') H eq_refl K)
    as (e & -> & St & A & _).
  exists e, s'. auto.
Defined.

(** X15, witness: the hypervisor binary cannot be executed. *)
Lemma startSandbox_spawn_failure_witness :
  exists s',
    startSandbox root_params no_binary 0 5 (fresh queue0)
    = Some (Some (ErrCollab "exec format error"), s') /\
    trace s' = [CmdStart "/usr/bin/firecracker"
                  ["--api-sock"; "/run/vc/sbs/sb/firecracker.sock"]] /\
    fc s' = fc (fresh queue0).
Proof.
  eexists. split.
  - apply (startSandbox_spawn_failure root_params no_binary 0 5 (fresh queue0)).
    reflexivity.
  - split; reflexivity.
Defined.

(** X16, witness: two boots in the calm world. *)
Lemma startSandbox_twice_redispatches_witness :
  exists s1 s2 a b c,
    startSandbox root_params calm 5 5 (fresh queue0) = Some (None, s1) /\
    startSandbox root_params calm 5 5 s1 = Some (None, s2) /\
    trace s2
    = a ++ flat_map dispatch queue0
        ++ start_call :: b ++ flat_map dispatch queue0 ++ start_call :: c.
Proof.
  edestruct (startSandbox_twice_redispatches root_params calm 5 5
               (fresh queue0))
    as (a & b & c & T); [vm_compute; reflexivity|vm_compute; reflexivity|].
  eexists _, _, a, b, c. split; [vm_compute; reflexivity|].
  split; [vm_compute; reflexivity|]. exact T.
Defined.
